(** * Dr-Fragrance: the order persistence and notification pipeline

    A shallow embedding of the Express server of the repository (the routes
    [POST /order-perfume], [GET /orders] and [GET /perfumes] and the
    start-up routine [initializeExcel]) and of the page that talks to it
    ([public/main.js]: the catalog, the cart and the checkout form),
    together with the properties of the specification and further
    properties of the code.

    Layout: JavaScript values as the server sees them after [JSON.parse];
    the spreadsheet store as ExcelJS presents it (a workbook of named
    worksheets, each with column definitions and rows); a small monad for
    code that mutates the process state and may throw; the routines of the
    server; the page, with its document, its cart and its requests; then
    the theorems. *)

From Stdlib Require Import String Ascii List Bool ZArith Lia.
From Stdlib Require Import DecimalString.
Import ListNotations.
Local Open Scope string_scope.
Local Open Scope list_scope.

Set Implicit Arguments.
Set Warnings "-register-all".

(** ** JavaScript values *)

(** JSON numbers are IEEE doubles.  The server only ever asks a number two
    things: whether it is truthy ([!quantity]) and what its [toString()] is.
    The development is parametric in both. *)
Class JsNumber (num : Type) : Type := {
  num_truthy : num -> bool;
  num_toString : num -> string
}.

(** The integers in the range where [Number.prototype.toString] prints the
    plain decimal numeral; used for the concrete runs below. *)
Definition Z_toString (z : Z) : string := NilZero.string_of_int (Z.to_int z).

#[export] Instance Z_number : JsNumber Z := {
  num_truthy z := negb (Z.eqb z 0);
  num_toString := Z_toString
}.

Section Values.

Context {num : Type} `{JsNumber num}.

(** What [JSON.parse] produces, plus [undefined] (the result of reading a
    property that is not there).  An object is the list of its own
    properties; a key occurs once, and a lookup takes the first binding. *)
Inductive value : Type :=
| VUndefined
| VNull
| VBool (b : bool)
| VNum (n : num)
| VStr (s : string)
| VArr (elems : list value)
| VObj (props : list (string * value)).

Definition object : Type := list (string * value).

Fixpoint own (k : string) (o : object) : option value :=
  match o with
  | [] => None
  | (k', v) :: rest => if String.eqb k k' then Some v else own k rest
  end.

Definition has_own (k : string) (o : object) : bool :=
  match own k o with Some _ => true | None => false end.

(** [o[k]] on a plain object, for a key that [Object.prototype] does not
    define (every key the server reads: the request fields, [id], [name]
    and the column keys). *)
Definition prop (k : string) (o : object) : value :=
  match own k o with Some v => v | None => VUndefined end.

(** ToBoolean: [!v] is [negb (truthy v)]. *)
Definition truthy (v : value) : bool :=
  match v with
  | VUndefined | VNull => false
  | VBool b => b
  | VNum n => num_truthy n
  | VStr s => negb (String.eqb s "")
  | VArr _ | VObj _ => true
  end.

(** [a || b] *)
Definition js_or (a b : value) : value := if truthy a then a else b.

Fixpoint sequence {A : Type} (l : list (option A)) : option (list A) :=
  match l with
  | [] => Some []
  | None :: _ => None
  | Some x :: rest =>
      match sequence rest with
      | Some xs => Some (x :: xs)
      | None => None
      end
  end.

(** The abstract operation ToString, as a template literal applies it.
    [None] stands for the TypeError "Cannot convert object to primitive
    value": a parsed object is converted by [Object.prototype.toString]
    unless it has an own property [toString], which after [JSON.parse] is
    never callable ([valueOf] only ever returns the object itself).  An
    array is converted by [join(",")], where [null] and [undefined] elements
    print as the empty string. *)
Fixpoint ToString (v : value) : option string :=
  match v with
  | VUndefined => Some "undefined"
  | VNull => Some "null"
  | VBool b => Some (if b then "true" else "false")
  | VNum n => Some (num_toString n)
  | VStr s => Some s
  | VArr elems =>
      option_map (String.concat ",")
        (sequence (map (fun e =>
                          match e with
                          | VUndefined | VNull => Some ""
                          | _ => ToString e
                          end) elems))
  | VObj props =>
      if has_own "toString" props then None else Some "[object Object]"
  end.

End Values.

Arguments value num : clear implicits.
Arguments object num : clear implicits.


(** ** Exceptions *)

(** A thrown [Error].  [TypeError]s are raised by the language itself (a
    property read on [undefined], a call of something that is not a
    function, a failed ToString); [Failure]s come from the libraries ([fs],
    [JSON.parse], ExcelJS, nodemailer) and from [throw new Error(..)]. *)
Inductive exn : Type :=
| TypeError (msg : string)
| Failure (msg : string).

(** [error.message] *)
Definition message (e : exn) : string :=
  match e with TypeError m | Failure m => m end.

Definition result (A : Type) : Type := exn + A.

Definition bindR {A B : Type} (r : result A) (f : A -> result B) : result B :=
  match r with inl e => inl e | inr a => f a end.

Section Language.

Context {num : Type} `{JsNumber num}.

(** The TypeError of a property read on [undefined] or [null], with the
    text V8 gives it. *)
Definition cannot_read (v : value num) (k : string) : exn :=
  TypeError ("Cannot read properties of "
             ++ match v with VNull => "null" | _ => "undefined" end
             ++ " (reading '" ++ k ++ "')").

(** [v.k], for [k] one of [id] and [name]: a TypeError on [undefined] and
    [null], the own property on an object, [undefined] on everything else
    (no built-in prototype defines either key). *)
Definition member (v : value num) (k : string) : result (value num) :=
  match v with
  | VUndefined | VNull => inl (cannot_read v k)
  | VObj props => inr (prop k props)
  | _ => inr VUndefined
  end.

(** The method call [v.toString()].  When [toString] is not callable V8
    puts the text of the expression before "is not a function"
    ([perfumeId.toString], [quantity.toString], [p.id.toString]); the model
    has the method name alone. *)
Definition toString (v : value num) : result string :=
  match v with
  | VUndefined | VNull => inl (cannot_read v "toString")
  | _ =>
      match ToString v with
      | Some s => inr s
      | None => inl (TypeError "toString is not a function")
      end
  end.

(** A template literal applied to [v]. *)
Definition template (v : value num) : result string :=
  match ToString v with
  | Some s => inr s
  | None => inl (TypeError "Cannot convert object to primitive value")
  end.

(** [Array.prototype.find]: the first element on which the callback answers
    [true]; an exception in the callback ends the search. *)
Fixpoint array_find (f : value num -> result bool) (l : list (value num))
  : result (value num) :=
  match l with
  | [] => inr VUndefined
  | p :: rest =>
      match f p with
      | inl e => inl e
      | inr true => inr p
      | inr false => array_find f rest
      end
  end.

(** [perfumes.find(f)]: only an array has a [find] to call; on [null]
    (and [undefined]) already the read of [find] throws. *)
Definition find (perfumes : value num) (f : value num -> result bool)
  : result (value num) :=
  match perfumes with
  | VArr l => array_find f l
  | VUndefined | VNull => inl (cannot_read perfumes "find")
  | _ => inl (TypeError "perfumes.find is not a function")
  end.

End Language.

(** ** The order store *)

(** The store as ExcelJS presents it to the server: a workbook is a list of
    worksheets, a worksheet has a name, column definitions
    ([{ header, key, width }]) and rows.  A row is kept as the values
    [addRow] was given: for a string, a number or a boolean that is the
    value of the cell; an array or an object stands for the cell ExcelJS
    makes of it (the text of its JSON), which the server never reads back.
    A completed [writeFile] followed by [readFile] gives the workbook
    back. *)
Record column : Type := Column {
  header : string;
  key : string;
  width : nat
}.

Section Store.

Context {num : Type}.

Record worksheet : Type := Worksheet {
  sheet_name : string;
  columns : list column;
  rows : list (list (value num))
}.

Definition workbook : Type := list worksheet.

(** What is at [excelPath]: nothing, a file that ExcelJS cannot parse, or a
    file holding a workbook. *)
Inductive file : Type :=
| Missing
| Unparseable
| Xlsx (wb : workbook).

(** [workbook.getWorksheet(name)] *)
Definition getWorksheet (name : string) (wb : workbook) : option worksheet :=
  List.find (fun s => String.eqb (sheet_name s) name) wb.

(** [name.toLowerCase()], on the letters A to Z. *)
Definition lower (c : ascii) : ascii :=
  let n := nat_of_ascii c in
  if Nat.leb 65 n && Nat.leb n 90 then ascii_of_nat (n + 32) else c.

Fixpoint toLowerCase (s : string) : string :=
  match s with
  | EmptyString => EmptyString
  | String c rest => String (lower c) (toLowerCase rest)
  end.

(** [workbook.addWorksheet(name)]: a new sheet without columns or rows,
    last in the book.  ExcelJS refuses a name that a sheet of the book has
    already, compared without regard to case (its other checks of the name
    all pass for "Orders"). *)
Definition addWorksheet (name : string) (wb : workbook) : result workbook :=
  if existsb (fun s => String.eqb (toLowerCase (sheet_name s))
                                  (toLowerCase name)) wb
  then inl (Failure ("Worksheet name already exists: " ++ name))
  else inr (wb ++ [Worksheet name [] []]).

(** [sheet.columns]: the column definitions, or [null] when the sheet has
    none (a sheet just added, or one read from a file that defines no
    column). *)
Definition sheet_columns (s : worksheet) : option (list column) :=
  match columns s with
  | [] => None
  | cols => Some cols
  end.

(** The sheet variable of the handler is a reference into the workbook:
    an assignment through it changes the sheet the workbook holds under that
    name. *)
Fixpoint update_sheet (name : string) (f : worksheet -> worksheet)
  (wb : workbook) : workbook :=
  match wb with
  | [] => []
  | s :: rest =>
      if String.eqb (sheet_name s) name then f s :: rest
      else s :: update_sheet name f rest
  end.

(** [sheet.columns = cols] *)
Definition set_columns (cols : list column) (s : worksheet) : worksheet :=
  Worksheet (sheet_name s) cols (rows s).

(** [sheet.addRow(values)] *)
Definition addRow (values : list (value num)) (s : worksheet) : worksheet :=
  Worksheet (sheet_name s) (columns s) (rows s ++ [values]).

Definition headers (s : worksheet) : list string := map header (columns s).

End Store.

Arguments worksheet num : clear implicits.
Arguments workbook num : clear implicits.
Arguments file num : clear implicits.

(** The seven columns, as both [initializeExcel] and the order handler spell
    them out. *)
Definition fixedColumns : list column :=
  [ Column "Name" "name" 20;
    Column "Phone" "phone" 20;
    Column "Perfume ID" "perfumeId" 15;
    Column "Perfume Name" "perfumeName" 25;
    Column "Quantity" "quantity" 10;
    Column "Delivery Address" "deliveryAddress" 30;
    Column "Date" "date" 25 ].

Definition canonical_headers : list string :=
  [ "Name"; "Phone"; "Perfume ID"; "Perfume Name"; "Quantity";
    "Delivery Address"; "Date" ].

Definition excelPath : string := "orders.xlsx".

(** ** The process and its surroundings *)

(** What the server writes with [console.log] and [console.error]. *)
Inductive log_entry : Type :=
| ExcelValid
| ExcelCreated
| OrderSaved (name : string)
| EmailSent
| EmailFailed (msg : string)
| SaveError (e : exn)
| FileNotFound (e : exn)
| DownloadError (e : exn)
| Downloaded.

(** A message handed to [transporter.sendMail]; [entries] are the
    [key: value] paragraphs of the HTML body, the markup around them is not
    modelled. *)
Record email : Type := Email {
  from : option string;
  to : option string;
  entries : list (string * string)
}.

(** How [writeFile] fails: before the file is opened for writing, and the
    file stays as it was; or after it was opened, which truncates it, and the
    file is left with a part of the new content at most, which no reader can
    parse. *)
Inductive write_error : Type :=
| Refused (e : exn)
| Interrupted (e : exn).

Definition write_exn (f : write_error) : exn :=
  match f with Refused e | Interrupted e => e end.

Section Process.

Context {num : Type} `{JsNumber num}.

(** Everything the code reads but does not control. *)
Record world : Type := World {
  perfumes_json : result (value num);
      (** [JSON.parse(await fs.readFile(perfumesPath))] *)
  disk : option write_error;
      (** how [workbook.xlsx.writeFile] fails, if it fails *)
  clock : nat -> Z;
      (** the reading of the wall clock at each instant of the process *)
  toLocaleString : Z -> string;
      (** [Date.prototype.toLocaleString] in the server's locale *)
  EMAIL_USER : option string;
  EMAIL_PASS : option string;
  ACCESS_KEY : option string;
  smtp : option exn
      (** the error of [transporter.sendMail], if it fails *)
}.

(** What the code changes. *)
Record state : Type := State {
  excel : file num;
  console : list log_entry;
  outbox : list email;
  instant : nat
      (** the number of awaited operations the process has seen complete *)
}.

(** A computation reads and changes the state and returns or throws; what
    it did before throwing stays done. *)
Definition M (A : Type) : Type := state -> result A * state.

Definition ret {A : Type} (a : A) : M A := fun s => (inr a, s).

Definition throw {A : Type} (e : exn) : M A := fun s => (inl e, s).

Definition bind {A B : Type} (m : M A) (f : A -> M B) : M B :=
  fun s =>
    match m s with
    | (inl e, s') => (inl e, s')
    | (inr a, s') => f a s'
    end.

(** [try { m } catch (e) { h(e) }] *)
Definition try_catch {A : Type} (m : M A) (h : exn -> M A) : M A :=
  fun s =>
    match m s with
    | (inl e, s') => h e s'
    | (inr a, s') => (inr a, s')
    end.

Definition lift {A : Type} (r : result A) : M A := fun s => (r, s).

Definition console_log (l : log_entry) : M unit :=
  fun s => (inr tt, State (excel s) (console s ++ [l]) (outbox s) (instant s)).

(** Time passes while the process waits: [await m] sees [m] complete at the
    next instant. *)
Definition later (s : state) : state :=
  State (excel s) (console s) (outbox s) (S (instant s)).

Definition await {A : Type} (m : M A) : M A := fun s => m (later s).

(** [new Date()] *)
Definition new_Date (w : world) : M Z :=
  fun s => (inr (clock w (instant s)), s).

(** [fs.access(excelPath)] *)
Definition fs_access : M unit :=
  fun s =>
    match excel s with
    | Missing => (inl (Failure "ENOENT: no such file or directory"), s)
    | _ => (inr tt, s)
    end.

(** [workbook.xlsx.readFile(excelPath)] *)
Definition xlsx_readFile : M (workbook num) :=
  fun s =>
    match excel s with
    | Missing => (inl (Failure "File not found: orders.xlsx"), s)
    | Unparseable => (inl (Failure "Can't find end of central directory"), s)
    | Xlsx wb => (inr wb, s)
    end.

(** [workbook.xlsx.writeFile(excelPath)] *)
Definition xlsx_writeFile (w : world) (wb : workbook num) : M unit :=
  fun s =>
    match disk w with
    | Some (Refused e) => (inl e, s)
    | Some (Interrupted e) =>
        (inl e, State Unparseable (console s) (outbox s) (instant s))
    | None => (inr tt, State (Xlsx wb) (console s) (outbox s) (instant s))
    end.

(** [transporter.sendMail(mail)] *)
Definition sendMail (w : world) (mail : email) : M unit :=
  fun s =>
    match smtp w with
    | Some e => (inl e, s)
    | None =>
        (inr tt, State (excel s) (console s) (outbox s ++ [mail]) (instant s))
    end.

End Process.

Arguments world num : clear implicits.
Arguments state num : clear implicits.
Arguments M num A : clear implicits.

Declare Scope js_scope.
Delimit Scope js_scope with js.
Notation "x <- m ;; k" := (bind m (fun x => k))
  (at level 61, m at next level, right associativity) : js_scope.
Notation "m ;; k" := (bind m (fun _ => k))
  (at level 61, right associativity) : js_scope.

Local Open Scope js_scope.

(** ** The server *)

Section Server.

Context {num : Type} `{JsNumber num}.

(** What a handler sends: [res.status(n).json(body)] ([res.json(body)] is
    status 200), or [res.download(path, filename, callback)]. *)
Inductive response : Type :=
| Json (status : nat) (body : value num)
| Download (path filename : string).

(** A variable of [process.env] or a request header: a string or
    [undefined].  [env_truthy v] is [!!v]; [strict_eq a b] is [a === b]. *)
Definition env_truthy (v : option string) : bool :=
  match v with
  | Some s => negb (String.eqb s "")
  | None => false
  end.

Definition strict_eq (a b : option string) : bool :=
  match a, b with
  | Some x, Some y => String.eqb x y
  | None, None => true
  | _, _ => false
  end.

(** *** [initializeExcel] *)

(** The workbook the [catch] block builds: one sheet, "Orders", with the
    fixed columns and no row. *)
Definition fresh_workbook : workbook num :=
  [Worksheet "Orders" fixedColumns []].

(** [if (!sheet) throw ...] jumps to the [catch] block like a failure of
    [fs.access] or [readFile] does. *)
Definition initializeExcel (w : world num) : M num unit :=
  try_catch
    (await fs_access ;;
     workbook <- await xlsx_readFile ;;
     match getWorksheet "Orders" workbook with
     | None => throw (Failure "Worksheet missing")
     | Some _ => console_log ExcelValid
     end)
    (fun _ =>
       workbook <- lift (addWorksheet "Orders" []) ;;
       let workbook := update_sheet "Orders" (set_columns fixedColumns)
                                    workbook in
       await (xlsx_writeFile w workbook) ;;
       console_log ExcelCreated).

(** *** [POST /order-perfume] *)

(** [transporter] is set at start-up when both credentials are truthy. *)
Definition transporter (w : world num) : bool :=
  env_truthy (EMAIL_USER w) && env_truthy (EMAIL_PASS w).

(** The callback of [perfumes.find]:
    [p => p.id.toString() === perfumeId.toString()] *)
Definition same_id (perfumeId p : value num) : result bool :=
  bindR (member p "id") (fun id =>
  bindR (toString id) (fun a =>
  bindR (toString perfumeId) (fun b =>
  inr (String.eqb a b)))).

(** Lines 127-134: the sheet is created when it is missing, and its columns
    are reset when their number differs from seven.  [addWorksheet] throws
    when the book has a sheet whose name differs from "Orders" in case
    only, and the read of [length] throws on a sheet without column
    definitions, whose [columns] is [null]. *)
Definition reconcile (wb : workbook num) : result (workbook num) :=
  match getWorksheet "Orders" wb with
  | None =>
      bindR (addWorksheet "Orders" wb) (fun wb' =>
      inr (update_sheet "Orders" (set_columns fixedColumns) wb'))
  | Some sheet =>
      match sheet_columns sheet with
      | None =>
          inl (TypeError "Cannot read properties of null (reading 'length')")
      | Some cols =>
          if Nat.eqb (length cols) 0
             || negb (Nat.eqb (length cols) (length fixedColumns))
          then inr (update_sheet "Orders" (set_columns fixedColumns) wb)
          else inr wb
      end
  end.

(** Lines 148-152: [rowData], one cell per fixed column,
    [orderData[col.key] || ""]. *)
Definition row_of (orderData : object num) : list (value num) :=
  map (fun col => js_or (prop (key col) orderData) (VStr "")) fixedColumns.

(** Lines 167-169: the paragraphs of the notification,
    [`${key}: ${value || 'N/A'}`] for each entry of [orderData]. *)
Fixpoint email_entries (orderData : object num)
  : result (list (string * string)) :=
  match orderData with
  | [] => inr []
  | (k, v) :: rest =>
      bindR (template (js_or v (VStr "N/A"))) (fun s =>
      bindR (email_entries rest) (fun es =>
      inr ((k, s) :: es)))
  end.

(** Lines 163-182: the inner [try]/[catch] around the notification. *)
Definition notify (w : world num) (orderData : object num) : M num unit :=
  try_catch
    (es <- lift (email_entries orderData) ;;
     await (sendMail w (Email (EMAIL_USER w) (EMAIL_USER w) es)) ;;
     console_log EmailSent)
    (fun emailErr => console_log (EmailFailed (message emailErr))).

(** The handler.  [body] is [req.body], the object [bodyParser.json()] made
    of the request; the destructuring of line 94 reads the five required
    fields and puts everything else in [extraFields], which is never used
    again.  The two early [return]s sit inside the [try] like the rest. *)
Definition order_perfume (w : world num) (body : object num) : M num response :=
  try_catch
    (let name := prop "name" body in
     let phone := prop "phone" body in
     let perfumeId := prop "perfumeId" body in
     let quantity := prop "quantity" body in
     let deliveryAddress := prop "deliveryAddress" body in
     if negb (truthy name) || negb (truthy phone) || negb (truthy perfumeId)
        || negb (truthy quantity) || negb (truthy deliveryAddress)
     then
       ret (Json 400 (VObj [("success", VBool false);
                            ("message", VStr "All fields are required.")]))
     else
       perfumes <- await (lift (perfumes_json w)) ;;
       selectedPerfume <- lift (find perfumes (same_id perfumeId)) ;;
       if negb (truthy selectedPerfume)
       then
         ret (Json 404 (VObj [("success", VBool false);
                              ("message", VStr "Perfume not found.")]))
       else
         workbook <- await xlsx_readFile ;;
         workbook <- lift (reconcile workbook) ;;
         perfumeId' <- lift (toString perfumeId) ;;
         perfumeName <- lift (member selectedPerfume "name") ;;
         quantity' <- lift (toString quantity) ;;
         now <- new_Date w ;;
         let orderData :=
           [ ("name", name);
             ("phone", phone);
             ("perfumeId", VStr perfumeId');
             ("perfumeName", perfumeName);
             ("quantity", VStr quantity');
             ("deliveryAddress", deliveryAddress);
             ("date", VStr (toLocaleString w now)) ] in
         let rowData := row_of orderData in
         await (xlsx_writeFile w
                  (update_sheet "Orders" (addRow rowData) workbook)) ;;
         who <- lift (template name) ;;
         console_log (OrderSaved who) ;;
         (if transporter w then notify w orderData else ret tt) ;;
         ret (Json 200 (VObj [("success", VBool true);
                              ("message", VStr "Order saved successfully!");
                              ("data", VObj orderData)])))
    (fun error =>
       console_log (SaveError error) ;;
       ret (Json 500 (VObj [("success", VBool false);
                            ("message", VStr "Error saving order.");
                            ("error", VStr (message error))]))).

(** *** [GET /orders] *)

(** [accessKey] is [req.headers["x-access-key"]]. *)
Definition get_orders (w : world num) (accessKey : option string) : M num response :=
  if negb (env_truthy accessKey) || negb (strict_eq accessKey (ACCESS_KEY w))
  then
    ret (Json 403 (VObj [("success", VBool false);
                         ("message", VStr "Access denied.")]))
  else
    try_catch
      (await fs_access ;;
       ret (Download excelPath "orders.xlsx"))
      (fun error =>
         console_log (FileNotFound error) ;;
         ret (Json 404 (VObj [("success", VBool false);
                              ("message", VStr "Excel file not found.")]))).

(** The callback of [res.download], run when the transfer ends: with the
    transfer's error, if any, and [res.headersSent]. *)
Definition download_done (err : option exn) (headersSent : bool)
  : M num (option response) :=
  match err with
  | Some e =>
      console_log (DownloadError e) ;;
      if negb headersSent
      then ret (Some (Json 500 (VObj [("success", VBool false);
                                      ("message", VStr "Error downloading file.")])))
      else ret None
  | None =>
      console_log Downloaded ;;
      ret None
  end.

End Server.

Arguments response num : clear implicits.

(** ** Vocabulary of the specification *)

Section Vocabulary.

Context {num : Type} `{JsNumber num}.

(** The five fields a request must carry. *)
Definition required : list string :=
  [ "name"; "phone"; "perfumeId"; "quantity"; "deliveryAddress" ].

(** A request is valid when each of them is truthy. *)
Definition valid (body : object num) : bool :=
  forallb (fun k => truthy (prop k body)) required.

(** The date the handler stamps on an order whose request starts in state
    [s]: it reads the clock after its two awaited reads, of the catalog and
    of the workbook. *)
Definition stamp (w : world num) (s : state num) : string :=
  toLocaleString w (clock w (2 + instant s)).

(** The persisted order of a request that starts in state [s], given the
    three values the handler resolves on the way. *)
Definition order_data (w : world num) (s : state num) (body : object num)
  (perfumeId' : string) (perfumeName : value num) (quantity' : string)
  : object num :=
  [ ("name", prop "name" body);
    ("phone", prop "phone" body);
    ("perfumeId", VStr perfumeId');
    ("perfumeName", perfumeName);
    ("quantity", VStr quantity');
    ("deliveryAddress", prop "deliveryAddress" body);
    ("date", VStr (stamp w s)) ].

(** The body of the 200 response. *)
Definition saved (orderData : object num) : value num :=
  VObj [ ("success", VBool true);
         ("message", VStr "Order saved successfully!");
         ("data", VObj orderData) ].

(** The "Orders" table of the store file, if the file holds one. *)
Definition orders_sheet (f : file num) : option (worksheet num) :=
  match f with
  | Xlsx wb => getWorksheet "Orders" wb
  | _ => None
  end.

Definition stored_columns (f : file num) : option (list column) :=
  option_map (@columns num) (orders_sheet f).

Definition stored_headers (f : file num) : option (list string) :=
  option_map (@headers num) (orders_sheet f).

Definition stored_rows (f : file num) : list (list (value num)) :=
  match orders_sheet f with
  | Some sheet => rows sheet
  | None => []
  end.

(** [p.id.toString()] for a catalog entry [p]. *)
Definition stringified_id (p : value num) : result string :=
  bindR (member p "id") toString.

(** The same surroundings with another mail server. *)
Definition with_smtp (o : option exn) (w : world num) : world num :=
  World (perfumes_json w) (disk w) (clock w) (toLocaleString w)
        (EMAIL_USER w) (EMAIL_PASS w) (ACCESS_KEY w) o.

(** The store file the order handler leaves when it has added the row of
    [orderData] to the workbook [wb] it read, whose column check went
    through. *)
Definition written (wb : workbook num) (orderData : object num) : file num :=
  match reconcile wb with
  | inr wb' => Xlsx (update_sheet "Orders" (addRow (row_of orderData)) wb')
  | inl _ => Xlsx wb
  end.

(** What the handler has established by the time it writes the file: the
    request is valid, the catalog was read and holds a perfume with the
    requested id, the store file holds a workbook, the column check of its
    "Orders" sheet went through, both [toString()] calls returned, and the
    disk takes the write; [orderData] is the order it has built. *)
Definition accepted (w : world num) (body : object num) (s : state num)
  (wb : workbook num) (orderData : object num) : Prop :=
  valid body = true /\ excel s = Xlsx wb /\ disk w = None /\
  (exists wb', reconcile wb = inr wb') /\
  exists perfumes selectedPerfume perfumeId' perfumeName quantity',
    perfumes_json w = inr perfumes /\
    find perfumes (same_id (prop "perfumeId" body)) = inr selectedPerfume /\
    truthy selectedPerfume = true /\
    toString (prop "perfumeId" body) = inr perfumeId' /\
    member selectedPerfume "name" = inr perfumeName /\
    toString (prop "quantity" body) = inr quantity' /\
    orderData = order_data w s body perfumeId' perfumeName quantity'.

(** The state after the write and the log line of line 159: three awaited
    operations have completed since the request started. *)
Definition logged (wb : workbook num) (orderData : object num) (who : string)
  (s : state num) : state num :=
  State (written wb orderData) (console s ++ [OrderSaved who]) (outbox s)
        (3 + instant s).

(** The state a notification leaves: a line in the log and, when the mail
    went out, the message in the outbox; [sendMail] is awaited unless the
    message could not even be composed. *)
Definition notified (w : world num) (orderData : object num) (s : state num)
  : state num :=
  match email_entries orderData with
  | inl e =>
      State (excel s) (console s ++ [EmailFailed (message e)]) (outbox s)
            (instant s)
  | inr es =>
      match smtp w with
      | Some e =>
          State (excel s) (console s ++ [EmailFailed (message e)]) (outbox s)
                (S (instant s))
      | None =>
          State (excel s) (console s ++ [EmailSent])
                (outbox s ++ [Email (EMAIL_USER w) (EMAIL_USER w) es])
                (S (instant s))
      end
  end.

End Vocabulary.

(** ** Concrete runs *)

Module Demo.

(** A catalog of two perfumes with numeric ids. *)
Definition catalog : value Z :=
  VArr [ VObj [("id", VNum 2%Z); ("name", VStr "Rose")];
         VObj [("id", VNum 7%Z); ("name", VStr "Oud")] ].

Definition render (t : Z) : string := "day " ++ Z_toString t.

(** A clock that shows twenty more at every instant. *)
Definition ticking (i : nat) : Z := (1000 + 20 * Z.of_nat i)%Z.

(** A server with mail credentials and an access key, a writable disk and a
    mail server that accepts. *)
Definition shop : world Z :=
  World (inr catalog) None ticking render
        (Some "shop@example.com") (Some "secret") (Some "letmein") None.

(** A server whose access key is configured as the empty string. *)
Definition shop_empty_key : world Z :=
  World (inr catalog) None ticking render
        (Some "shop@example.com") (Some "secret") (Some "") None.

(** A server without an access key. *)
Definition shop_no_key : world Z :=
  World (inr catalog) None ticking render
        (Some "shop@example.com") (Some "secret") None None.

Definition nothing : state Z := State Missing [] [] 0.

(** The store right after [initializeExcel] created it. *)
Definition opened : state Z := State (Xlsx fresh_workbook) [] [] 0.

(** A store whose sheet was edited by hand: still seven columns, other
    labels, one row. *)
Definition relabelled_columns : list column :=
  [ Column "Client" "name" 20;
    Column "Tel" "phone" 20;
    Column "Ref" "perfumeId" 15;
    Column "Product" "perfumeName" 25;
    Column "Qty" "quantity" 10;
    Column "Address" "deliveryAddress" 30;
    Column "When" "date" 25 ].

Definition relabelled : state Z :=
  State (Xlsx [Worksheet "Orders" relabelled_columns
                 [[VStr "Bea"; VStr "444"; VStr "7"; VStr "Oud"; VStr "2";
                   VStr "Elm St"; VStr "day 900"]]])
        [] [] 0.

(** A store whose sheet lost a column. *)
Definition narrowed : state Z :=
  State (Xlsx [Worksheet "Orders" [Column "Client" "name" 20] []]) [] [] 0.

(** A store file without an "Orders" sheet. *)
Definition foreign : state Z :=
  State (Xlsx [Worksheet "Sheet1" [] [[VStr "x"]]]) [] [] 0.

(** Scenario A of the specification, with two fields the server does not
    know. *)
Definition ana : object Z :=
  [ ("name", VStr "Ana"); ("phone", VStr "555"); ("perfumeId", VStr "2");
    ("quantity", VStr "1"); ("deliveryAddress", VStr "Main St");
    ("perfumeName", VStr "Free Sample"); ("coupon", VNum 50%Z) ].

Definition ana_plain : object Z :=
  [ ("name", VStr "Ana"); ("phone", VStr "555"); ("perfumeId", VStr "2");
    ("quantity", VStr "1"); ("deliveryAddress", VStr "Main St") ].

Definition bea : object Z :=
  [ ("name", VStr "Bea"); ("phone", VStr "444"); ("perfumeId", VNum 7%Z);
    ("quantity", VNum 2%Z); ("deliveryAddress", VStr "Elm St") ].

(** A request that orders nothing. *)
Definition zero_quantity : object Z :=
  [ ("name", VStr "Ana"); ("phone", VStr "555"); ("perfumeId", VStr "2");
    ("quantity", VNum 0%Z); ("deliveryAddress", VStr "Main St") ].

Definition ana_order : object Z :=
  [ ("name", VStr "Ana"); ("phone", VStr "555"); ("perfumeId", VStr "2");
    ("perfumeName", VStr "Rose"); ("quantity", VStr "1");
    ("deliveryAddress", VStr "Main St"); ("date", VStr "day 1040") ].

Definition bea_order : object Z :=
  [ ("name", VStr "Bea"); ("phone", VStr "444"); ("perfumeId", VStr "7");
    ("perfumeName", VStr "Oud"); ("quantity", VStr "2");
    ("deliveryAddress", VStr "Elm St"); ("date", VStr "day 1120") ].

(** A wall clock that is set back by twenty at every instant, and the
    same server under it. *)
Definition set_back (i : nat) : Z := (2000 - 20 * Z.of_nat i)%Z.

Definition shop_set_back : world Z :=
  World (inr catalog) None set_back render
        (Some "shop@example.com") (Some "secret") (Some "letmein") None.

(** A request whose [perfumeId] is an object with a [toString] property
    of its own, [{"toString": null}]. *)
Definition unprintable_id : object Z :=
  [ ("name", VStr "Ana"); ("phone", VStr "555");
    ("perfumeId", VObj [("toString", VNull)]);
    ("quantity", VStr "1"); ("deliveryAddress", VStr "Main St") ].

End Demo.

(** ** The catalog route and runs of several requests *)

Section Routes.

Context {num : Type} `{JsNumber num}.

(** [GET /perfumes]: the catalog as read, or a 500 that names no cause.
    The route hands the error it caught to [console.error]; the second
    component of the result is that error. *)
Definition get_perfumes (w : world num) : M num (response num * option exn) :=
  try_catch
    (perfumes <- await (lift (perfumes_json w)) ;;
     ret (Json 200 (VObj [("success", VBool true); ("data", perfumes)]),
          None))
    (fun error =>
       ret (Json 500 (VObj [("success", VBool false);
                            ("message", VStr "Error reading perfumes.json")]),
            Some error)).

(** A request to one of the three routes that read or change the state,
    with the surroundings it meets. *)
Inductive request : Type :=
| PostOrder (w : world num) (body : object num)
| GetOrders (w : world num) (accessKey : option string)
| GetPerfumes (w : world num).

Definition handle (r : request) (s : state num) : state num :=
  match r with
  | PostOrder w body => snd (order_perfume w body s)
  | GetOrders w accessKey => snd (get_orders w accessKey s)
  | GetPerfumes w => snd (get_perfumes w s)
  end.

(** Requests served one after the other, each one to its end before the
    next one starts. *)
Definition serve (requests : list request) (s : state num) : state num :=
  fold_left (fun s r => handle r s) requests s.

Definition is_order (r : request) : bool :=
  match r with PostOrder _ _ => true | _ => false end.

(** A sheet of the store file by its name. *)
Definition sheet_in (f : file num) (name : string) : option (worksheet num) :=
  match f with
  | Xlsx wb => getWorksheet name wb
  | _ => None
  end.

(** [b.k] for the body [b] of an answer. *)
Definition field (b : value num) (k : string) : value num :=
  match b with
  | VObj props => prop k props
  | _ => VUndefined
  end.

(** The same surroundings with another disk. *)
Definition with_disk (o : option write_error) (w : world num) : world num :=
  World (perfumes_json w) o (clock w) (toLocaleString w)
        (EMAIL_USER w) (EMAIL_PASS w) (ACCESS_KEY w) (smtp w).

(** The same surroundings with another catalog file. *)
Definition with_catalog (c : result (value num)) (w : world num) : world num :=
  World c (disk w) (clock w) (toLocaleString w)
        (EMAIL_USER w) (EMAIL_PASS w) (ACCESS_KEY w) (smtp w).

(** The answer of the outer [catch] of the order handler. *)
Definition error_answer (e : exn) : response num :=
  Json 500 (VObj [("success", VBool false);
                  ("message", VStr "Error saving order.");
                  ("error", VStr (message e))]).

(** The state the outer [catch] leaves when [e] was thrown after [n] awaited
    operations and before the write: the error is in the log, the rest is as
    it was. *)
Definition failed (e : exn) (n : nat) (s : state num) : state num :=
  State (excel s) (console s ++ [SaveError e]) (outbox s) (n + instant s).

(** The state the outer [catch] leaves when the write was interrupted with
    [e]: the store file cannot be parsed any more. *)
Definition interrupted (e : exn) (s : state num) : state num :=
  State Unparseable (console s ++ [SaveError e]) (outbox s) (3 + instant s).

(** A request whose write, if it comes to one, is interrupted. *)
Definition interrupts (r : request) : bool :=
  match r with
  | PostOrder w _ =>
      match disk w with Some (Interrupted _) => true | _ => false end
  | _ => false
  end.

End Routes.

(** ** The page: values *)

(** The page computes with numbers where the server only prints them:
    it compares them with [===], adds and multiplies them, reads them
    from strings, prints prices with [toFixed(2)] and sends them as JSON. *)
Class JsArith (num : Type) `{JsNumber num} : Type := {
  num_zero : num;                  (** [0] *)
  num_one : num;                   (** [1] *)
  num_nan : num;                   (** [NaN], as ToNumber makes of [undefined] *)
  num_eqb : num -> num -> bool;    (** [a === b] *)
  num_add : num -> num -> num;     (** [a + b] *)
  num_mul : num -> num -> num;     (** [a * b] *)
  num_of_string : string -> num;   (** ToNumber of a string *)
  num_toFixed2 : num -> string;    (** [a.toFixed(2)] *)
  num_json : num -> value num
      (** [JSON.parse(JSON.stringify(a))]: [null] for [NaN] and the
          infinities *)
}.

Arguments JsArith num {_}.

(** The integers and [NaN], for the concrete runs of the page.  Strings
    other than the empty string and plain integer numerals (digits with an
    optional sign) are outside this carrier: ToNumber reads them as [NaN]
    here. *)
Inductive number : Type :=
| Int (z : Z)
| NaN.

Definition digit_of (c : ascii) : option Z :=
  let n := Z.of_nat (nat_of_ascii c) in
  if ((48 <=? n) && (n <=? 57))%Z then Some (n - 48)%Z else None.

Fixpoint digits_value (acc : Z) (s : string) : option Z :=
  match s with
  | EmptyString => Some acc
  | String c rest =>
      match digit_of c with
      | Some d => digits_value (10 * acc + d) rest
      | None => None
      end
  end.

Definition integer_of_string (s : string) : number :=
  match s with
  | EmptyString => Int 0
  | String "-" (String c rest) =>
      match digits_value 0 (String c rest) with
      | Some z => Int (- z)
      | None => NaN
      end
  | String "+" (String c rest) =>
      match digits_value 0 (String c rest) with
      | Some z => Int z
      | None => NaN
      end
  | _ =>
      match digits_value 0 s with
      | Some z => Int z
      | None => NaN
      end
  end.

#[export] Instance number_number : JsNumber number := {
  num_truthy n := match n with Int z => negb (Z.eqb z 0) | NaN => false end;
  num_toString n := match n with Int z => Z_toString z | NaN => "NaN" end
}.

#[export] Instance number_arith : JsArith number := {
  num_zero := Int 0;
  num_one := Int 1;
  num_nan := NaN;
  num_eqb a b :=
    match a, b with Int x, Int y => Z.eqb x y | _, _ => false end;
  num_add a b :=
    match a, b with Int x, Int y => Int (x + y) | _, _ => NaN end;
  num_mul a b :=
    match a, b with Int x, Int y => Int (x * y) | _, _ => NaN end;
  num_of_string := integer_of_string;
  num_toFixed2 n :=
    match n with Int z => (Z_toString z ++ ".00")%string | NaN => "NaN" end;
  num_json n := match n with Int z => VNum (Int z) | NaN => VNull end
}.

Section Operators.

Context {num : Type} `{JsArith num}.

(** ToPrimitive: an array or a parsed object becomes the string that
    ToString makes of it ([valueOf] returns the object itself), or throws
    where ToString does. *)
Definition to_primitive (v : value num) : result (value num) :=
  match v with
  | VArr _ | VObj _ =>
      match ToString v with
      | Some s => inr (VStr s)
      | None => inl (TypeError "Cannot convert object to primitive value")
      end
  | _ => inr v
  end.

(** ToNumber of a primitive. *)
Definition to_number (v : value num) : num :=
  match v with
  | VNull => num_zero
  | VBool true => num_one
  | VBool false => num_zero
  | VNum n => n
  | VStr s => num_of_string s
  | _ => num_nan
  end.

Definition is_string (v : value num) : bool :=
  match v with VStr _ => true | _ => false end.

Definition print (v : value num) : string :=
  match ToString v with Some s => s | None => "" end.

(** [a + b]: concatenation as soon as one side is a string after
    ToPrimitive, the sum of the two numbers otherwise. *)
Definition js_add (a b : value num) : result (value num) :=
  bindR (to_primitive a) (fun pa =>
  bindR (to_primitive b) (fun pb =>
  if is_string pa || is_string pb
  then inr (VStr (print pa ++ print pb)%string)
  else inr (VNum (num_add (to_number pa) (to_number pb))))).

(** [a * b] *)
Definition js_mul (a b : value num) : result (value num) :=
  bindR (to_primitive a) (fun pa =>
  bindR (to_primitive b) (fun pb =>
  inr (VNum (num_mul (to_number pa) (to_number pb))))).

(** [a === b], for a [b] that the page passes as a value of its own: an
    array or an object is then never the same object as [b]. *)
Definition js_strict_eq (a b : value num) : bool :=
  match a, b with
  | VUndefined, VUndefined => true
  | VNull, VNull => true
  | VBool x, VBool y => Bool.eqb x y
  | VNum x, VNum y => num_eqb x y
  | VStr x, VStr y => String.eqb x y
  | _, _ => false
  end.

(** [o.k = v] on a plain object: the property keeps its place when it is
    there and comes last when it is new. *)
Fixpoint put (k : string) (v : value num) (o : object num) : object num :=
  match o with
  | [] => [(k, v)]
  | (k', v') :: rest =>
      if String.eqb k k' then (k, v) :: rest else (k', v') :: put k v rest
  end.

Fixpoint indexed (i : nat) (l : list (value num)) : object num :=
  match l with
  | [] => []
  | x :: rest => (Z_toString (Z.of_nat i), x) :: indexed (S i) rest
  end.

Fixpoint characters (s : string) : list (value num) :=
  match s with
  | EmptyString => []
  | String c rest => VStr (String c EmptyString) :: characters rest
  end.

(** [{ ...v }]: the own properties of an object, the elements of an array
    under their indices, the characters of a string (of an ASCII string,
    in this representation) under theirs, and nothing for the rest. *)
Definition spread (v : value num) : object num :=
  match v with
  | VObj props => props
  | VArr elems => indexed 0 elems
  | VStr s => indexed 0 (characters s)
  | _ => []
  end.

(** [JSON.parse(JSON.stringify(v))]: what arrives when [v] is sent as
    JSON.  A property whose value is [undefined] is left out, an
    [undefined] element of an array arrives as [null], and so does a number
    that is not finite. *)
Fixpoint wire (v : value num) : value num :=
  match v with
  | VUndefined => VUndefined
  | VNull => VNull
  | VBool b => VBool b
  | VNum n => num_json n
  | VStr s => VStr s
  | VArr elems =>
      VArr (map (fun e => match e with
                          | VUndefined => VNull
                          | _ => wire e
                          end) elems)
  | VObj props =>
      VObj ((fix wire_all (ps : list (string * value num)) : object num :=
               match ps with
               | [] => []
               | (k, VUndefined) :: rest => wire_all rest
               | (k, x) :: rest => (k, wire x) :: wire_all rest
               end) props)
  end.

Fixpoint wire_props (ps : object num) : object num :=
  match ps with
  | [] => []
  | (k, VUndefined) :: rest => wire_props rest
  | (k, x) :: rest => (k, wire x) :: wire_props rest
  end.

(** [new Error(v)]: the message is the string of [v], and empty for
    [undefined]. *)
Definition new_Error (v : value num) : exn :=
  match v with
  | VUndefined => Failure ""
  | _ =>
      match ToString v with
      | Some m => Failure m
      | None => TypeError "Cannot convert object to primitive value"
      end
  end.

End Operators.

(** ** The page: document, cart and requests *)

(** What the page puts into an element.  Markup built from a template is
    kept as the texts interpolated into each card or line; the fixed
    markups have a name each. *)
Inductive content : Type :=
| Text (s : string)
| NoProducts
    (** the paragraph "No products found." *)
| EmptyCart
    (** the paragraph "Your cart is empty." *)
| OrderPlaced
    (** the line "Order placed successfully! Thank you for your purchase." *)
| ProductCards (cards : list (list string))
| CartLines (lines : list (list string)).

(** An element of the document: what it shows, the value it holds when it
    is an input, and its [style.display]. *)
Record element : Type := Element {
  shown : content;
  value_of : string;
  display : string
}.

(** The elements that have an id, by their id.  The HTML files are not
    part of the sources, so which elements a page has is an input. *)
Definition dom : Type := list (string * element).

Fixpoint getElementById (id : string) (d : dom) : option element :=
  match d with
  | [] => None
  | (id', e) :: rest =>
      if String.eqb id id' then Some e else getElementById id rest
  end.

Fixpoint set_element (id : string) (e : element) (d : dom) : dom :=
  match d with
  | [] => []
  | (id', e') :: rest =>
      if String.eqb id id' then (id, e) :: rest
      else (id', e') :: set_element id e rest
  end.

(** A callback registered with [setTimeout]; when it runs is not
    modelled. *)
Inductive timer : Type :=
| HideSuccessMessage (ms : nat)
| RemoveNotification (text : string) (ms : nat).

(** What the page writes with [console.error]. *)
Inductive page_error : Type :=
| FailedToLoad
| ErrorLoading (e : exn)
| ErrorSubmitting (e : exn).

Section Page.

Context {num : Type} `{JsArith num}.

(** The state of a page: the globals [allProducts] and [cart], the [cart]
    item of [localStorage] (kept as the array its JSON text denotes), the
    document, the notifications appended to the body, the timers, the
    alerts shown, the console, and the number of requests sent. *)
Record page : Type := Page {
  allProducts : value num;
  cart : list (object num);
  stored_cart : option (list (object num));
  document : dom;
  notifications : list string;
  timers : list timer;
  alerts : list string;
  errors : list page_error;
  sent : nat
}.

(** What the page does not control: what each of its requests meets, an
    error of the network or the server in some surroundings, and what
    [form.reset()] does to the document. *)
Record browser : Type := Browser {
  network : nat -> exn + world num;
  form_reset : dom -> dom
}.

(** The page and the server it talks to. *)
Record session : Type := Session {
  tab : page;
  server : state num
}.

Definition P (A : Type) : Type := session -> result A * session.

Definition retP {A : Type} (a : A) : P A := fun x => (inr a, x).

Definition throwP {A : Type} (e : exn) : P A := fun x => (inl e, x).

Definition bindP {A B : Type} (m : P A) (f : A -> P B) : P B :=
  fun x =>
    match m x with
    | (inl e, x') => (inl e, x')
    | (inr a, x') => f a x'
    end.

Definition try_catchP {A : Type} (m : P A) (h : exn -> P A) : P A :=
  fun x =>
    match m x with
    | (inl e, x') => h e x'
    | (inr a, x') => (inr a, x')
    end.

Definition liftP {A : Type} (r : result A) : P A := fun x => (r, x).

(** Reading and changing the page. *)
Definition read {A : Type} (f : page -> A) : P A :=
  fun x => (inr (f (tab x)), x).

Definition change (f : page -> page) : P unit :=
  fun x => (inr tt, Session (f (tab x)) (server x)).

Definition set_allProducts (v : value num) (p : page) : page :=
  Page v (cart p) (stored_cart p) (document p)
       (notifications p) (timers p) (alerts p) (errors p) (sent p).

Definition set_cart (c : list (object num)) (p : page) : page :=
  Page (allProducts p) c (stored_cart p) (document p)
       (notifications p) (timers p) (alerts p) (errors p) (sent p).

Definition set_stored_cart (c : option (list (object num))) (p : page)
  : page :=
  Page (allProducts p) (cart p) c (document p)
       (notifications p) (timers p) (alerts p) (errors p) (sent p).

Definition set_document (d : dom) (p : page) : page :=
  Page (allProducts p) (cart p) (stored_cart p) d
       (notifications p) (timers p) (alerts p) (errors p) (sent p).

Definition add_notification (text : string) (p : page) : page :=
  Page (allProducts p) (cart p) (stored_cart p) (document p)
       (notifications p ++ [text]) (timers p) (alerts p) (errors p) (sent p).

Definition add_timer (t : timer) (p : page) : page :=
  Page (allProducts p) (cart p) (stored_cart p) (document p)
       (notifications p) (timers p ++ [t]) (alerts p) (errors p) (sent p).

Definition add_alert (text : string) (p : page) : page :=
  Page (allProducts p) (cart p) (stored_cart p) (document p)
       (notifications p) (timers p) (alerts p ++ [text]) (errors p) (sent p).

Definition add_error (e : page_error) (p : page) : page :=
  Page (allProducts p) (cart p) (stored_cart p) (document p)
       (notifications p) (timers p) (alerts p) (errors p ++ [e]) (sent p).

Definition count_request (p : page) : page :=
  Page (allProducts p) (cart p) (stored_cart p) (document p)
       (notifications p) (timers p) (alerts p) (errors p) (S (sent p)).

End Page.

Arguments page num : clear implicits.
Arguments browser num : clear implicits.
Arguments session num : clear implicits.
Arguments P num A : clear implicits.

Declare Scope page_scope.
Delimit Scope page_scope with page.
Notation "x <- m ;; k" := (bindP m (fun x => k))
  (at level 61, m at next level, right associativity) : page_scope.
Notation "m ;; k" := (bindP m (fun _ => k))
  (at level 61, right associativity) : page_scope.

(** ** The page: its functions *)

Section PageCode.

Context {num : Type} `{JsArith num}.

Local Open Scope page_scope.

Fixpoint mapR {A B : Type} (f : A -> result B) (l : list A)
  : result (list B) :=
  match l with
  | [] => inr []
  | a :: rest =>
      bindR (f a) (fun b =>
      bindR (mapR f rest) (fun bs =>
      inr (b :: bs)))
  end.

(** [`${v.k}`]; [member] serves for every key the page reads ([brand],
    [description], [size], [category], [price], [quantity], [success],
    [message], [data]): no built-in prototype defines one of them. *)
Definition interpolate (v : value num) (k : string) : result string :=
  bindR (member v k) template.

(** An assignment to a property of the element found under [id]: a
    TypeError when there is no such element. *)
Definition update_element (id : string) (f : element -> element) : P num unit :=
  fun x =>
    match getElementById id (document (tab x)) with
    | None => (inl (TypeError "Cannot set properties of null"), x)
    | Some e =>
        (inr tt,
         Session (set_document (set_element id (f e) (document (tab x)))
                               (tab x))
                 (server x))
    end.

Definition show (c : content) (e : element) : element :=
  Element c (value_of e) (display e).

Definition set_display (d : string) (e : element) : element :=
  Element (shown e) (value_of e) d.

(** *** [renderProducts] and [filterProducts] *)

(** [products.length === 0] *)
Definition length_is_zero (products : value num) : result bool :=
  match products with
  | VUndefined | VNull => inl (cannot_read products "length")
  | VArr l => inr (match l with [] => true | _ => false end)
  | VStr s => inr (String.eqb s "")
  | VObj props => inr (js_strict_eq (prop "length" props) (VNum num_zero))
  | _ => inr false
  end.

(** The texts the template of lines 62-83 interpolates, in its order. *)
Definition product_card (product : value num) : result (list string) :=
  mapR (interpolate product)
       [ "brand"; "name"; "brand"; "description"; "size"; "category";
         "price"; "id" ].

Definition renderProducts (products : value num) : P num unit :=
  empty <- liftP (length_is_zero products) ;;
  if empty then update_element "products-grid" (show NoProducts)
  else
    cards <- liftP match products with
                   | VArr l => mapR product_card l
                   | _ => inl (TypeError "products.map is not a function")
                   end ;;
    update_element "products-grid" (show (ProductCards cards)).

Fixpoint filterR (f : value num -> result bool) (l : list (value num))
  : result (list (value num)) :=
  match l with
  | [] => inr []
  | p :: rest =>
      bindR (f p) (fun keep =>
      bindR (filterR f rest) (fun kept =>
      inr (if keep then p :: kept else kept)))
  end.

(** [category] is [this.dataset.filter]: a string, or [undefined] when
    the button has no such attribute. *)
Definition filterProducts (category : option string) : P num unit :=
  all <- read (@allProducts num) ;;
  if match category with
     | Some c => String.eqb c "all"
     | None => false
     end
  then renderProducts all
  else
    let wanted := match category with
                  | Some c => VStr c
                  | None => VUndefined
                  end in
    filtered <- liftP match all with
                      | VArr l =>
                          filterR (fun p =>
                                     bindR (member p "category") (fun c =>
                                     inr (js_strict_eq c wanted))) l
                      | _ =>
                          inl (TypeError "allProducts.filter is not a function")
                      end ;;
    renderProducts (VArr filtered).

(** *** The cart *)

(** [cart.reduce((sum, item) => sum + item.quantity, 0)] *)
Fixpoint sum_quantities (sum : value num) (items : list (object num))
  : result (value num) :=
  match items with
  | [] => inr sum
  | item :: rest =>
      bindR (js_add sum (prop "quantity" item)) (fun sum' =>
      sum_quantities sum' rest)
  end.

Definition updateCartCount : P num unit :=
  countElement <- read (fun p => getElementById "cart-count" (document p)) ;;
  match countElement with
  | None => retP tt
  | Some _ =>
      items <- read (@cart num) ;;
      totalItems <- liftP (sum_quantities (VNum num_zero) items) ;;
      update_element "cart-count" (show (Text (print totalItems)))
  end.

(** [cart.reduce((total, item) => total + (item.price * item.quantity), 0)] *)
Fixpoint sum_prices (total : value num) (items : list (object num))
  : result (value num) :=
  match items with
  | [] => inr total
  | item :: rest =>
      bindR (js_mul (prop "price" item) (prop "quantity" item)) (fun line =>
      bindR (js_add total line) (fun total' =>
      sum_prices total' rest))
  end.

Definition calculateTotal : P num (value num) :=
  items <- read (@cart num) ;;
  liftP (sum_prices (VNum num_zero) items).

(** The texts the template of lines 197-206 interpolates, in its order. *)
Definition cart_line (item : object num) : result (list string) :=
  mapR (interpolate (VObj item))
       [ "name"; "brand"; "size"; "price"; "quantity"; "id" ].

Definition displayCart : P num unit :=
  items <- read (@cart num) ;;
  match items with
  | [] =>
      update_element "cart-items" (show EmptyCart) ;;
      update_element "cart-total" (show (Text "0.00"))
  | _ =>
      lines <- liftP (mapR cart_line items) ;;
      update_element "cart-items" (show (CartLines lines)) ;;
      total <- calculateTotal ;;
      fixed <- liftP match total with
                     | VNum n => inr (num_toFixed2 n)
                     | _ => inl (TypeError "toFixed is not a function")
                     end ;;
      update_element "cart-total" (show (Text fixed))
  end.

Definition showNotification (text : string) : P num unit :=
  change (add_notification text) ;;
  change (add_timer (RemoveNotification text 3000)).

(** [localStorage.setItem('cart', JSON.stringify(cart))] *)
Definition save_cart : P num unit :=
  items <- read (@cart num) ;;
  change (set_stored_cart (Some (map wire_props items))).

Definition has_id (productId : value num) (item : object num) : bool :=
  js_strict_eq (prop "id" item) productId.

(** A change to the first item of the cart that has the id: the object
    [cart.find] returns is the one the cart holds. *)
Fixpoint update_first (productId : value num)
  (f : object num -> object num) (items : list (object num))
  : list (object num) :=
  match items with
  | [] => []
  | item :: rest =>
      if has_id productId item then f item :: rest
      else item :: update_first productId f rest
  end.

Definition addToCart (productId : value num) : P num unit :=
  all <- read (@allProducts num) ;;
  product <- liftP match all with
                   | VArr l =>
                       array_find (fun p =>
                                     bindR (member p "id") (fun id =>
                                     inr (js_strict_eq id productId))) l
                   | _ =>
                       inl (TypeError "allProducts.find is not a function")
                   end ;;
  if negb (truthy product) then retP tt
  else
    items <- read (@cart num) ;;
    match List.find (has_id productId) items with
    | Some existingItem =>
        quantity <- liftP (js_add (prop "quantity" existingItem)
                                  (VNum num_one)) ;;
        change (set_cart (update_first productId (put "quantity" quantity)
                                       items))
    | None =>
        change (set_cart (items ++ [put "quantity" (VNum num_one)
                                        (spread product)]))
    end ;;
    save_cart ;;
    updateCartCount ;;
    text <- liftP (interpolate product "name") ;;
    showNotification (text ++ " added to cart!")%string.

Definition removeFromCart (productId : value num) : P num unit :=
  items <- read (@cart num) ;;
  change (set_cart (filter (fun item => negb (has_id productId item)) items)) ;;
  save_cart ;;
  updateCartCount ;;
  displayCart.

(** *** Requests *)

(** [await fetch(url, ...)] followed by [await response.json()]: the
    request meets what the network holds for it; the answer of the route
    comes back as JSON.  [route] runs the route of the server on what the
    server receives. *)
Definition exchange (b : browser num)
  (route : world num -> state num -> result (response num) * state num)
  : P num (value num) :=
  fun x =>
    let p := count_request (tab x) in
    match network b (sent (tab x)) with
    | inl e => (inl e, Session p (server x))
    | inr w =>
        let (r, srv) := route w (server x) in
        match r with
        | inr (Json _ body) => (inr (wire body), Session p srv)
        | _ => (inl (Failure "Unexpected token in JSON"), Session p srv)
        end
    end.

Definition perfumes_route (w : world num) (s : state num)
  : result (response num) * state num :=
  match get_perfumes w s with
  | (inr (r, _), s') => (inr r, s')
  | (inl e, s') => (inl e, s')
  end.

Definition loadProducts (b : browser num) : P num unit :=
  try_catchP
    (data <- exchange b perfumes_route ;;
     success <- liftP (member data "success") ;;
     listed <- (if truthy success then liftP (member data "data")
                else retP success) ;;
     if truthy listed
     then
       change (set_allProducts listed) ;;
       all <- read (@allProducts num) ;;
       renderProducts all
     else change (add_error FailedToLoad))
    (fun error => change (add_error (ErrorLoading error))).

Definition submitOrder (b : browser num) (orderData : object num)
  : P num (value num) :=
  result <- exchange b (fun w => order_perfume w (wire_props orderData)) ;;
  success <- liftP (member result "success") ;;
  if negb (truthy success)
  then
    text <- liftP (member result "message") ;;
    throwP (new_Error text)
  else retP result.

Definition showSuccessMessage : P num unit :=
  update_element "success-message" (show OrderPlaced) ;;
  update_element "success-message" (set_display "block") ;;
  change (add_timer (HideSuccessMessage 5000)).

(** [document.getElementById(id).value] *)
Definition input (id : string) : P num string :=
  e <- read (fun p => getElementById id (document p)) ;;
  match e with
  | Some e => retP (value_of e)
  | None => throwP (cannot_read (@VNull num) "value")
  end.

(** The order the form submits for one line of the cart. *)
Definition order_of (name phone deliveryAddress : string) (item : object num)
  : object num :=
  [ ("name", VStr name);
    ("phone", VStr phone);
    ("perfumeId", prop "id" item);
    ("quantity", prop "quantity" item);
    ("deliveryAddress", VStr deliveryAddress) ].

(** [for (const item of cart) await submitOrder({ ... })] *)
Fixpoint submit_each (b : browser num) (name phone deliveryAddress : string)
  (items : list (object num)) : P num unit :=
  match items with
  | [] => retP tt
  | item :: rest =>
      submitOrder b (order_of name phone deliveryAddress item) ;;
      submit_each b name phone deliveryAddress rest
  end.

(** The [submit] handler of the checkout form. *)
Definition checkout (b : browser num) : P num unit :=
  items <- read (@cart num) ;;
  match items with
  | [] => change (add_alert "Your cart is empty!")
  | _ =>
      name <- input "name" ;;
      phone <- input "phone" ;;
      deliveryAddress <- input "address" ;;
      payment <- input "payment" ;;
      if String.eqb name "" || String.eqb phone ""
         || String.eqb deliveryAddress "" || String.eqb payment ""
      then change (add_alert "Please fill in all fields")
      else
        try_catchP
          (submit_each b name phone deliveryAddress items ;;
           showSuccessMessage ;;
           change (set_cart []) ;;
           change (set_stored_cart None) ;;
           updateCartCount ;;
           change (fun p => set_document (form_reset b (document p)) p) ;;
           displayCart)
          (fun error =>
             change (add_error (ErrorSubmitting error)) ;;
             change (add_alert "Failed to place order. Please try again."))
  end.

End PageCode.

(** ** Vocabulary for the page, and its concrete runs *)

Section PageVocabulary.

Context {num : Type} `{JsArith num}.

(** The same page after [k] requests in all. *)
Definition with_sent (k : nat) (p : page num) : page num :=
  Page (allProducts p) (cart p) (stored_cart p) (document p)
       (notifications p) (timers p) (alerts p) (errors p) k.

(** A page with nothing in it that has sent [k] requests. *)
Definition blank (k : nat) : page num :=
  Page (VArr []) [] None [] [] [] [] [] k.

(** What the orders of a form do to the server, and how they end, when the
    first of them is the [k]-th request of the page. *)
Definition orders_sent (b : browser num) (k : nat)
  (name phone deliveryAddress : string) (items : list (object num))
  (srv : state num) : result unit * state num :=
  let (r, x) := submit_each b name phone deliveryAddress items
                            (Session (blank k) srv) in
  (r, server x).

(** The four inputs of the checkout form hold these values. *)
Definition filled (d : dom) (name phone deliveryAddress payment : string)
  : Prop :=
  (exists e, getElementById "name" d = Some e /\ value_of e = name)
  /\ (exists e, getElementById "phone" d = Some e /\ value_of e = phone)
  /\ (exists e, getElementById "address" d = Some e
                /\ value_of e = deliveryAddress)
  /\ (exists e, getElementById "payment" d = Some e /\ value_of e = payment).

(** The row the server stores for a line of the cart: what the form holds,
    and the id and the quantity of the line as they print after the
    journey as JSON. *)
Definition row_for (name phone deliveryAddress : string) (item : object num)
  (row : list (value num)) : Prop :=
  length row = 7
  /\ nth 0 row VUndefined = VStr name
  /\ nth 1 row VUndefined = VStr phone
  /\ toString (wire (prop "id" item)) = inr (print (nth 2 row VUndefined))
  /\ toString (wire (prop "quantity" item))
     = inr (print (nth 4 row VUndefined))
  /\ nth 5 row VUndefined = VStr deliveryAddress.

(** [x'] differs from [x] at most in what the page displays: the
    document, the notifications, the timers, the alerts and the console. *)
Definition only_display (x x' : session num) : Prop :=
  server x' = server x
  /\ allProducts (tab x') = allProducts (tab x)
  /\ cart (tab x') = cart (tab x)
  /\ stored_cart (tab x') = stored_cart (tab x)
  /\ sent (tab x') = sent (tab x).

(** Line 3: the cart a page starts with, [JSON.parse] of the stored item
    or, when there is none, the empty array. *)
Definition reloaded_cart (p : page num) : list (object num) :=
  match stored_cart p with
  | Some items => items
  | None => []
  end.

(** The stored item is in step with the cart: the next page will start
    with the cart of this one, as JSON carries it. *)
Definition in_step (x : session num) : Prop :=
  reloaded_cart (tab x) = map wire_props (cart (tab x)).

(** What a visitor and the page's own start-up can set off: the load of the
    catalog, a click on a filter button, on "Add to Cart", on "Remove", and
    the submission of the checkout form. *)
Inductive event : Type :=
| Load
| Filter (category : option string)
| Add (productId : value num)
| Remove (productId : value num)
| Submit.

(** The page after the handler of an event has run to its end; an
    exception that escapes a handler leaves the page as the handler had
    made it by then. *)
Definition act (b : browser num) (ev : event) (x : session num)
  : session num :=
  match ev with
  | Load => snd (loadProducts b x)
  | Filter category => snd (filterProducts category x)
  | Add productId => snd (addToCart productId x)
  | Remove productId => snd (removeFromCart productId x)
  | Submit => snd (checkout b x)
  end.

(** Events handled one after the other, each to its end before the next. *)
Definition visit (b : browser num) (events : list event) (x : session num)
  : session num :=
  fold_left (fun x ev => act b ev x) events x.

End PageVocabulary.

Arguments event num : clear implicits.

Module Visit.

(** A catalog of two perfumes. *)
Definition rose : object number :=
  [ ("id", VNum (Int 2)); ("name", VStr "Rose"); ("brand", VStr "Maison");
    ("description", VStr "Fresh"); ("size", VStr "50ml");
    ("category", VStr "floral"); ("price", VNum (Int 60)) ].

Definition oud : object number :=
  [ ("id", VNum (Int 7)); ("name", VStr "Oud"); ("brand", VStr "Atelier");
    ("description", VStr "Warm"); ("size", VStr "100ml");
    ("category", VStr "woody"); ("price", VNum (Int 90)) ].

Definition catalog : value number := VArr [VObj rose; VObj oud].

Definition ticking (i : nat) : Z := (1000 + 20 * Z.of_nat i)%Z.

Definition render (t : Z) : string := ("day " ++ Z_toString t)%string.

(** A server without mail credentials on a writable disk. *)
Definition shop : world number :=
  World (inr catalog) None ticking render None None (Some "letmein") None.

(** The same server on a disk that is full. *)
Definition shop_disk_full : world number :=
  World (inr catalog)
        (Some (Interrupted (Failure "ENOSPC: no space left on device")))
        ticking render None None (Some "letmein") None.

Definition opened : state number := State (Xlsx fresh_workbook) [] [] 0.

(** A store file with a sheet of notes beside the orders. *)
Definition notes : worksheet number :=
  Worksheet "Notes" [Column "Note" "note" 40] [[VStr "call the supplier"]].

Definition with_notes : state number :=
  State (Xlsx [notes; Worksheet "Orders" fixedColumns []]) [] [] 0.

(** Every request reaches the server. *)
Definition online : browser number := Browser (fun _ => inr shop) (fun d => d).

(** The second request of the page meets a full disk. *)
Definition disk_fills_up : browser number :=
  Browser (fun k => match k with
                    | 1 => inr shop_disk_full
                    | _ => inr shop
                    end)
          (fun d => d).

Definition blank_element : element := Element (Text "") "" "".

Definition field_with (v : string) : element := Element (Text "") v "".

(** The checkout page, its form filled in. *)
Definition checkout_page : dom :=
  [ ("cart-count", blank_element); ("cart-items", blank_element);
    ("cart-total", blank_element); ("success-message", blank_element);
    ("name", field_with "Ana"); ("phone", field_with "555");
    ("address", field_with "Main St"); ("payment", field_with "cash") ].

(** The index page. *)
Definition index_page : dom :=
  [ ("cart-count", blank_element); ("products-grid", blank_element) ].

Definition two_lines : list (object number) :=
  [ put "quantity" (VNum (Int 1)) rose; put "quantity" (VNum (Int 2)) oud ].

(** A visitor at the checkout with one bottle of the first perfume and two
    of the second in the cart. *)
Definition at_checkout : page number :=
  Page catalog two_lines (Some two_lines) checkout_page [] [] [] [] 0.

(** A visitor on the index page, the catalog loaded, the cart empty. *)
Definition browsing : page number :=
  Page catalog [] None index_page [] [] [] [] 1.

(** A visitor on the index page before the catalog is loaded. *)
Definition arriving : page number :=
  Page (VArr []) [] None index_page [] [] [] [] 0.

Definition ana : object number :=
  [ ("name", VStr "Ana"); ("phone", VStr "555"); ("perfumeId", VNum (Int 2));
    ("quantity", VNum (Int 1)); ("deliveryAddress", VStr "Main St") ].

Definition bea : object number :=
  [ ("name", VStr "Bea"); ("phone", VStr "444"); ("perfumeId", VNum (Int 7));
    ("quantity", VNum (Int 2)); ("deliveryAddress", VStr "Elm St") ].

(** The same visitor at the checkout, paying by card. *)
Definition paying_by_card : page number :=
  Page catalog two_lines (Some two_lines)
       [ ("cart-count", blank_element); ("cart-items", blank_element);
         ("cart-total", blank_element); ("success-message", blank_element);
         ("name", field_with "Ana"); ("phone", field_with "555");
         ("address", field_with "Main St"); ("payment", field_with "card") ]
       [] [] [] [] 0.

(** A catalog that lists the id 7 twice, under two names. *)
Definition oud_intense : object number :=
  [ ("id", VNum (Int 7)); ("name", VStr "Oud Intense");
    ("brand", VStr "Atelier"); ("description", VStr "Dark");
    ("size", VStr "100ml"); ("category", VStr "woody");
    ("price", VNum (Int 120)) ].

Definition shop_with_twins : world number :=
  World (inr (VArr [VObj rose; VObj oud; VObj oud_intense])) None
        ticking render None None (Some "letmein") None.

(** A server whose catalog file is gone. *)
Definition shop_without_catalog : world number :=
  World (inl (Failure "ENOENT: no such file or directory")) None
        ticking render None None (Some "letmein") None.

Definition nothing : state number := State Missing [] [] 0.

End Visit.

(** ** Facts about values *)

Section ValueFacts.

Context {num : Type} `{JsNumber num}.

(** The guard of line 97 is the negation of [valid]. *)
Lemma guard_is_not_valid (body : object num) :
  negb (truthy (prop "name" body)) || negb (truthy (prop "phone" body))
  || negb (truthy (prop "perfumeId" body))
  || negb (truthy (prop "quantity" body))
  || negb (truthy (prop "deliveryAddress" body))
  = negb (valid body).
Proof.
  unfold valid, required; simpl.
  repeat match goal with
         | |- context [truthy ?x] => destruct (truthy x)
         end; reflexivity.
Qed.

Lemma valid_iff (body : object num) :
  valid body = true <-> forall k, In k required -> truthy (prop k body) = true.
Proof.
  unfold valid. rewrite forallb_forall. reflexivity.
Qed.

Lemma invalid_iff (body : object num) :
  valid body = false <->
  exists k, In k required /\ truthy (prop k body) = false.
Proof.
  split.
  - intros Hv.
    destruct (existsb (fun k => negb (truthy (prop k body))) required) eqn:He.
    + apply existsb_exists in He. destruct He as (k & Hin & Hk).
      exists k. split; [exact Hin|]. now apply negb_true_iff.
    + exfalso.
      assert (Hall : valid body = true).
      { apply valid_iff. intros k Hin.
        destruct (truthy (prop k body)) eqn:Ht; [reflexivity|].
        assert (Hex : existsb (fun k => negb (truthy (prop k body))) required = true).
        { apply existsb_exists. exists k. split; [exact Hin|]. now rewrite Ht. }
        congruence. }
      congruence.
  - intros (k & Hin & Hk).
    destruct (valid body) eqn:Hv; [|reflexivity].
    rewrite valid_iff in Hv. specialize (Hv k Hin). congruence.
Qed.

(** What makes a field falsy: it is absent, or its value is [undefined],
    [null], [false], the empty string or a falsy number. *)
Lemma falsy_field (k : string) (body : object num) :
  truthy (prop k body) = false <->
  own k body = None \/ own k body = Some VUndefined
  \/ own k body = Some VNull \/ own k body = Some (VBool false)
  \/ own k body = Some (VStr "")
  \/ exists n, own k body = Some (VNum n) /\ num_truthy n = false.
Proof.
  unfold prop. destruct (own k body) as [v|]; simpl.
  - split.
    + destruct v as [| |b|n|s|l|o]; simpl; intros Ht; try discriminate; auto.
      * subst b. auto.
      * right. right. right. right. right. exists n. auto.
      * apply negb_false_iff, String.eqb_eq in Ht. subst s. auto 6.
    + intros [Hn|[Hu|[Hu|[Hu|[Hu|(n & Hu & Hn)]]]]];
        try discriminate; inversion Hu; subst; simpl; auto.
  - split; auto.
Qed.

(** [value || ""] is never [null] or [undefined]. *)
Lemma js_or_string_defined (v : value num) (s : string) :
  js_or v (VStr s) <> VNull /\ js_or v (VStr s) <> VUndefined.
Proof.
  unfold js_or. destruct v; simpl; split; try discriminate.
  all: match goal with
       | |- context [if ?c then _ else _] => destruct c; discriminate
       end.
Qed.

Lemma js_or_falsy (v d : value num) : truthy v = false -> js_or v d = d.
Proof. unfold js_or. now intros ->. Qed.

(** On a string the default of [s || ""] changes nothing. *)
Lemma js_or_string (s : string) : js_or (VStr s : value num) (VStr "") = VStr s.
Proof.
  unfold js_or; simpl. destruct (String.eqb_spec s ""); simpl; congruence.
Qed.

(** A truthy result of [find] is an element on which the callback said
    yes. *)
Lemma array_find_found (f : value num -> result bool) (l : list (value num))
  (sel : value num) :
  array_find f l = inr sel -> truthy sel = true ->
  In sel l /\ f sel = inr true.
Proof.
  induction l as [|p rest IH]; simpl; intros Hf Ht.
  - inversion Hf; subst. discriminate.
  - destruct (f p) as [e|[|]] eqn:Hp; try discriminate.
    + inversion Hf; subst. auto.
    + destruct (IH Hf Ht). auto.
Qed.

(** When the callback never throws, [find] returns a truthy element exactly
    when the callback says yes on some element. *)
Lemma array_find_total (f : value num -> result bool) (l : list (value num)) :
  Forall (fun p => exists b, f p = inr b) l ->
  (forall p, In p l -> f p = inr true -> truthy p = true) ->
  (exists p, In p l /\ f p = inr true /\ array_find f l = inr p)
  \/ ((forall p, In p l -> f p = inr false) /\ array_find f l = inr VUndefined).
Proof.
  induction l as [|p rest IH]; simpl; intros Hall Htr.
  - right. split; [contradiction|reflexivity].
  - inversion Hall as [|? ? (b & Hb) Hrest]; subst.
    rewrite Hb. destruct b.
    + left. exists p. auto.
    + destruct IH as [(q & Hin & Hq & Hf)|(Hno & Hf)]; auto.
      * left. exists q. auto.
      * right. split; [|exact Hf].
        intros q [->|Hin]; auto.
Qed.

End ValueFacts.

(** ** Facts about the store *)

Section StoreFacts.

Context {num : Type} `{JsNumber num}.

Lemma getWorksheet_update (name : string)
  (f : worksheet num -> worksheet num) (wb : workbook num) :
  (forall s, sheet_name (f s) = sheet_name s) ->
  getWorksheet name (update_sheet name f wb)
  = option_map f (getWorksheet name wb).
Proof.
  intros Hname. unfold getWorksheet.
  induction wb as [|s rest IH]; simpl; [reflexivity|].
  destruct (String.eqb (sheet_name s) name) eqn:E; simpl.
  - now rewrite Hname, E.
  - now rewrite E.
Qed.

Lemma getWorksheet_add (name : string) (wb wb' : workbook num) :
  getWorksheet name wb = None ->
  addWorksheet name wb = inr wb' ->
  getWorksheet name wb' = Some (Worksheet name [] []).
Proof.
  unfold addWorksheet. intros Hnone.
  destruct (existsb _ wb); [discriminate|].
  intros E; inversion E; subst wb'. clear E. revert Hnone.
  unfold getWorksheet.
  induction wb as [|s rest IH]; simpl.
  - now rewrite String.eqb_refl.
  - destruct (String.eqb (sheet_name s) name); [discriminate|auto].
Qed.

(** After the column check of lines 127-134, when it goes through, there
    is an "Orders" sheet; it has the rows it had, and the fixed columns
    unless it came with exactly seven columns of its own. *)
Lemma reconcile_sheet (wb wb' : workbook num) :
  reconcile wb = inr wb' ->
  getWorksheet "Orders" wb'
  = Some (match getWorksheet "Orders" wb with
          | None => Worksheet "Orders" fixedColumns []
          | Some sheet =>
              if Nat.eqb (length (columns sheet)) 7 then sheet
              else set_columns fixedColumns sheet
          end).
Proof.
  unfold reconcile.
  destruct (getWorksheet "Orders" wb) as [sheet|] eqn:Hs.
  - unfold sheet_columns.
    destruct (columns sheet) as [|c cols] eqn:Hc; [discriminate|].
    change (length fixedColumns) with 7.
    destruct (Nat.eqb (length (c :: cols)) 7) eqn:E7.
    + simpl orb. intros E; inversion E; subst wb'. exact Hs.
    + simpl orb. intros E; inversion E; subst wb'.
      rewrite getWorksheet_update by reflexivity. now rewrite Hs.
  - destruct (addWorksheet "Orders" wb) as [e|wb1] eqn:Hadd; simpl;
      [discriminate|].
    intros E; inversion E; subst wb'.
    rewrite getWorksheet_update by reflexivity.
    now rewrite (@getWorksheet_add "Orders" wb wb1 Hs Hadd).
Qed.

(** The column check fails on a sheet without column definitions. *)
Lemma reconcile_columns (wb wb' : workbook num) (sheet : worksheet num) :
  reconcile wb = inr wb' -> getWorksheet "Orders" wb = Some sheet ->
  columns sheet <> [].
Proof.
  unfold reconcile. intros Hrec Hs. rewrite Hs in Hrec.
  unfold sheet_columns in Hrec.
  destruct (columns sheet); [discriminate|discriminate].
Qed.

Lemma written_sheet (wb wb' : workbook num) (orderData : object num) :
  reconcile wb = inr wb' ->
  orders_sheet (written wb orderData)
  = option_map (addRow (row_of orderData)) (getWorksheet "Orders" wb').
Proof.
  intros Hrec. unfold written, orders_sheet. rewrite Hrec.
  now rewrite getWorksheet_update.
Qed.

(** The write appends exactly one row to the rows of the sheet. *)
Lemma written_rows (wb wb' : workbook num) (orderData : object num) :
  reconcile wb = inr wb' ->
  stored_rows (written wb orderData)
  = stored_rows (Xlsx wb) ++ [row_of orderData].
Proof.
  intros Hrec. unfold stored_rows.
  rewrite (@written_sheet wb wb' orderData Hrec), (@reconcile_sheet wb wb' Hrec).
  simpl.
  destruct (getWorksheet "Orders" wb) as [sheet|]; [|reflexivity].
  destruct (Nat.eqb (length (columns sheet)) 7); reflexivity.
Qed.

Lemma written_headers (wb wb' : workbook num) (orderData : object num) :
  reconcile wb = inr wb' ->
  stored_headers (written wb orderData)
  = Some (match stored_columns (Xlsx wb) with
          | None => canonical_headers
          | Some cols =>
              if Nat.eqb (length cols) 7 then map header cols
              else canonical_headers
          end).
Proof.
  intros Hrec. unfold stored_headers, stored_columns.
  rewrite (@written_sheet wb wb' orderData Hrec), (@reconcile_sheet wb wb' Hrec).
  simpl.
  destruct (getWorksheet "Orders" wb) as [sheet|]; [|reflexivity].
  simpl. destruct (Nat.eqb (length (columns sheet)) 7); reflexivity.
Qed.

End StoreFacts.

(** ** Facts about the handlers *)

Section HandlerFacts.

Context {num : Type} `{JsNumber num}.

Ltac run :=
  unfold try_catch, bind, lift, ret, throw, await, new_Date, fs_access,
    xlsx_readFile, xlsx_writeFile, console_log; simpl.

(** The notification never throws and never touches the store file. *)
Lemma notify_run (w : world num) (orderData : object num) (s : state num) :
  notify w orderData s = (inr tt, notified w orderData s).
Proof.
  unfold notify, notified, sendMail. run.
  destruct (email_entries orderData); simpl; [reflexivity|].
  destruct (smtp w); reflexivity.
Qed.

Lemma notified_excel (w : world num) (orderData : object num) (s : state num) :
  excel (notified w orderData s) = excel s.
Proof.
  unfold notified. destruct (email_entries orderData); [reflexivity|].
  destruct (smtp w); reflexivity.
Qed.

(** A request whose required fields are not all truthy is answered 400 and
    nothing else happens. *)
Lemma order_perfume_invalid (w : world num) (body : object num) (s : state num) :
  valid body = false ->
  order_perfume w body s
  = (inr (Json 400 (VObj [("success", VBool false);
                          ("message", VStr "All fields are required.")])), s).
Proof.
  intros Hv. unfold order_perfume. rewrite guard_is_not_valid, Hv. reflexivity.
Qed.

(** A valid request whose search returns nothing truthy is answered 404 and
    nothing else happens. *)
Lemma order_perfume_unknown (w : world num) (body : object num) (s : state num)
  (perfumes sel : value num) :
  valid body = true ->
  perfumes_json w = inr perfumes ->
  find perfumes (same_id (prop "perfumeId" body)) = inr sel ->
  truthy sel = false ->
  order_perfume w body s
  = (inr (Json 404 (VObj [("success", VBool false);
                          ("message", VStr "Perfume not found.")])),
     later s).
Proof.
  intros Hv Hp Hf Ht. unfold order_perfume.
  rewrite guard_is_not_valid, Hv. run. rewrite Hp. simpl. rewrite Hf. simpl.
  now rewrite Ht.
Qed.

(** An accepted request whose name can be printed is answered 200. *)
Lemma order_perfume_accepted (w : world num) (body : object num) (s : state num)
  (wb : workbook num) (orderData : object num) (who : string) :
  accepted w body s wb orderData ->
  template (prop "name" body) = inr who ->
  order_perfume w body s
  = (inr (Json 200 (saved orderData)),
     if transporter w
     then notified w orderData (logged wb orderData who s)
     else logged wb orderData who s).
Proof.
  intros (Hv & Hx & Hd & (wb' & Hrec) & perfumes & sel & pid & pname & qty
          & Hp & Hf & Hs & Hpid & Hn & Hq & ->) Hw.
  unfold order_perfume. rewrite guard_is_not_valid, Hv. run.
  rewrite Hp; simpl. rewrite Hf; simpl. rewrite Hs; simpl.
  rewrite Hx; simpl. rewrite Hrec; simpl.
  rewrite Hpid; simpl. rewrite Hn; simpl.
  rewrite Hq; simpl. rewrite Hd; simpl. rewrite Hw; simpl.
  unfold logged, written. rewrite Hrec.
  destruct (transporter w); [|reflexivity].
  rewrite notify_run. reflexivity.
Qed.

(** The rows and the headers after an accepted request. *)
Lemma accepted_rows (w : world num) (body : object num) (s : state num)
  (wb : workbook num) (orderData : object num) :
  accepted w body s wb orderData ->
  stored_rows (written wb orderData)
  = stored_rows (excel s) ++ [row_of orderData].
Proof.
  intros (_ & Hx & _ & (wb' & Hrec) & _). rewrite Hx.
  exact (@written_rows _ _ wb wb' orderData Hrec).
Qed.

Lemma accepted_headers (w : world num) (body : object num) (s : state num)
  (wb : workbook num) (orderData : object num) :
  accepted w body s wb orderData ->
  stored_headers (written wb orderData)
  = Some (match stored_columns (excel s) with
          | None => canonical_headers
          | Some cols =>
              if Nat.eqb (length cols) 7 then map header cols
              else canonical_headers
          end).
Proof.
  intros (_ & Hx & _ & (wb' & Hrec) & _). rewrite Hx.
  exact (@written_headers _ _ wb wb' orderData Hrec).
Qed.

(** Every run ends in one of two ways: no row was written and the answer
    is not 200 (the store file is then as it was, unless the write was
    interrupted and has left it unparseable), or the request was accepted
    and its row written; then the answer is 200, unless the log line of
    line 159 could not print the name, which the outer [catch] turns into a
    500. *)
Lemma order_perfume_inv (w : world num) (body : object num) (s s' : state num)
  (r : result (response num)) :
  order_perfume w body s = (r, s') ->
  ((excel s' = excel s \/ excel s' = Unparseable) /\ outbox s' = outbox s /\
   exists n b, r = inr (Json n b) /\ n <> 200)
  \/
  (exists wb orderData,
     accepted w body s wb orderData /\ excel s' = written wb orderData /\
     ((exists who, template (prop "name" body) = inr who /\
                   r = inr (Json 200 (saved orderData)) /\
                   s' = if transporter w
                        then notified w orderData (logged wb orderData who s)
                        else logged wb orderData who s)
      \/
      (exists e, template (prop "name" body) = inl e /\
                 r = inr (Json 500 (VObj [("success", VBool false);
                                          ("message", VStr "Error saving order.");
                                          ("error", VStr (message e))]))))).
Proof.
  assert (Hno : forall (b : value num) (x : file num) c o i,
             (x = excel s \/ x = Unparseable) -> o = outbox s ->
             (excel (State x c o i) = excel s
              \/ excel (State x c o i) = Unparseable)
             /\ outbox (State x c o i) = outbox s
             /\ exists n b',
                  (inr (Json 500 b) : result (response num))
                  = inr (Json n b') /\ n <> 200).
  { intros b x c o i Hx ->. simpl. split; [exact Hx|]. split; [reflexivity|].
    do 2 eexists. split; [reflexivity|lia]. }
  destruct (valid body) eqn:Hv.
  2:{ rewrite order_perfume_invalid by exact Hv. intros E; inversion E; subst.
      left. repeat split; eauto. do 2 eexists. split; [reflexivity|lia]. }
  unfold order_perfume. rewrite guard_is_not_valid, Hv. run.
  destruct (perfumes_json w) as [e|perfumes] eqn:Hp; simpl.
  { intros E; inversion E; subst. left. apply Hno; [solve [auto | left; symmetry; eassumption | left; eassumption]
         |reflexivity]. }
  destruct (find perfumes _) as [e|sel] eqn:Hf; simpl.
  { intros E; inversion E; subst. left. apply Hno; [solve [auto | left; symmetry; eassumption | left; eassumption]
         |reflexivity]. }
  destruct (truthy sel) eqn:Hs; simpl.
  2:{ intros E; inversion E; subst. left. simpl. repeat split; auto.
      do 2 eexists. split; [reflexivity|lia]. }
  destruct (excel s) as [| |wb] eqn:Hx; simpl;
    try (intros E; inversion E; subst; left; apply Hno;
         [solve [auto | left; symmetry; eassumption | left; eassumption]
         |reflexivity]).
  destruct (reconcile wb) as [e|wb'] eqn:Hrec; simpl.
  { intros E; inversion E; subst. left. apply Hno; [solve [auto | left; symmetry; eassumption | left; eassumption]
         |reflexivity]. }
  destruct (toString (prop "perfumeId" body)) as [e|pid] eqn:Hpid; simpl.
  { intros E; inversion E; subst. left. apply Hno; [solve [auto | left; symmetry; eassumption | left; eassumption]
         |reflexivity]. }
  destruct (member sel "name") as [e|pname] eqn:Hn; simpl.
  { intros E; inversion E; subst. left. apply Hno; [solve [auto | left; symmetry; eassumption | left; eassumption]
         |reflexivity]. }
  destruct (toString (prop "quantity" body)) as [e|qty] eqn:Hq; simpl.
  { intros E; inversion E; subst. left. apply Hno; [solve [auto | left; symmetry; eassumption | left; eassumption]
         |reflexivity]. }
  destruct (disk w) as [[e|e]|] eqn:Hd; simpl.
  { intros E; inversion E; subst. left. apply Hno; [solve [auto | left; symmetry; eassumption | left; eassumption]
         |reflexivity]. }
  { intros E; inversion E; subst. left. apply Hno; [solve [auto | left; symmetry; eassumption | left; eassumption]
         |reflexivity]. }
  assert (Hacc : accepted w body s wb (order_data w s body pid pname qty)).
  { split; [exact Hv|]. split; [exact Hx|]. split; [exact Hd|].
    split; [eauto|]. exists perfumes, sel, pid, pname, qty.
    repeat split; auto. }
  assert (Hw' : Xlsx (update_sheet "Orders"
                        (addRow (row_of (order_data w s body pid pname qty)))
                        wb')
                = written wb (order_data w s body pid pname qty)).
  { unfold written. now rewrite Hrec. }
  intros E. right. exists wb, (order_data w s body pid pname qty).
  split; [exact Hacc|].
  destruct (template (prop "name" body)) as [e|who] eqn:Hw; simpl in E.
  - inversion E; subst. split; [exact Hw'|]. right. eauto.
  - destruct (transporter w) eqn:Ht.
    + rewrite notify_run in E. simpl in E. inversion E; subst.
      split; [rewrite notified_excel; exact Hw'|]. left. exists who.
      split; [reflexivity|]. split; [reflexivity|].
      unfold logged. now rewrite <- Hw'.
    + simpl in E. inversion E; subst.
      split; [exact Hw'|]. left. exists who.
      split; [reflexivity|]. split; [reflexivity|].
      unfold logged. now rewrite <- Hw'.
Qed.

(** What a 200 answer tells. *)
Lemma order_perfume_200 (w : world num) (body : object num) (s s' : state num)
  (b : value num) :
  order_perfume w body s = (inr (Json 200 b), s') ->
  exists wb orderData who,
    accepted w body s wb orderData /\ b = saved orderData /\
    template (prop "name" body) = inr who /\
    excel s' = written wb orderData /\
    s' = if transporter w
         then notified w orderData (logged wb orderData who s)
         else logged wb orderData who s.
Proof.
  intros Hrun. destruct (order_perfume_inv _ _ _ Hrun)
    as [(_ & _ & n & b' & E & Hn)
       |(wb & od & Hacc & Hx & [(who & Hw & E & Hs)|(e & _ & E)])].
  - inversion E; subst. contradiction.
  - inversion E; subst b. exists wb, od, who. auto.
  - discriminate.
Qed.

(** The handler reads nothing of the request but the five required
    fields. *)
Lemma order_perfume_reads_required (w : world num) (body body' : object num) :
  (forall k, In k required -> prop k body' = prop k body) ->
  order_perfume w body' = order_perfume w body.
Proof.
  intros Hk. unfold order_perfume.
  rewrite !(Hk "name"), !(Hk "phone"), !(Hk "perfumeId"), !(Hk "quantity"),
    !(Hk "deliveryAddress") by (simpl; auto 6).
  reflexivity.
Qed.

(** Only the validation of line 97 answers 400. *)
Lemma order_perfume_400 (w : world num) (body : object num) (s s' : state num)
  (b : value num) :
  order_perfume w body s = (inr (Json 400 b), s') -> valid body = false.
Proof.
  intros Hrun. destruct (valid body) eqn:Hv; [exfalso|reflexivity].
  revert Hrun. unfold order_perfume. rewrite guard_is_not_valid, Hv. run.
  destruct (perfumes_json w); simpl; [discriminate|].
  destruct (find _ _); simpl; [discriminate|].
  destruct (truthy _); simpl; [|discriminate].
  destruct (excel s); simpl; try discriminate.
  destruct (reconcile _); simpl; [discriminate|].
  destruct (toString (prop "perfumeId" body)); simpl; [discriminate|].
  destruct (member _ _); simpl; [discriminate|].
  destruct (toString (prop "quantity" body)); simpl; [discriminate|].
  destruct (disk w) as [[e|e]|]; simpl; [discriminate|discriminate|].
  destruct (template _); simpl; [discriminate|].
  destruct (transporter w); [rewrite notify_run|]; discriminate.
Qed.

(** The seven cells of the row, spelled out. *)
Lemma row_of_order_data (w : world num) (s : state num) (body : object num)
  (pid : string) (pname : value num) (qty : string) :
  row_of (order_data w s body pid pname qty)
  = [ js_or (prop "name" body) (VStr "");
      js_or (prop "phone" body) (VStr "");
      VStr pid;
      js_or pname (VStr "");
      VStr qty;
      js_or (prop "deliveryAddress" body) (VStr "");
      VStr (stamp w s) ].
Proof.
  rewrite <- (js_or_string pid), <- (js_or_string qty),
    <- (js_or_string (stamp w s)).
  reflexivity.
Qed.

(** Only a search that returns nothing truthy answers 404. *)
Lemma order_perfume_404 (w : world num) (body : object num) (s s' : state num)
  (b : value num) :
  order_perfume w body s = (inr (Json 404 b), s') ->
  exists perfumes sel,
    perfumes_json w = inr perfumes /\
    find perfumes (same_id (prop "perfumeId" body)) = inr sel /\
    truthy sel = false.
Proof.
  destruct (valid body) eqn:Hv.
  2:{ rewrite order_perfume_invalid by exact Hv. discriminate. }
  unfold order_perfume. rewrite guard_is_not_valid, Hv. run.
  destruct (perfumes_json w) as [e|perfumes]; simpl; [discriminate|].
  destruct (find _ _) as [e|sel] eqn:Hf; simpl; [discriminate|].
  destruct (truthy sel) eqn:Hs; simpl; [|eauto].
  destruct (excel s); simpl; try discriminate.
  destruct (reconcile _); simpl; [discriminate|].
  destruct (toString (prop "perfumeId" body)); simpl; [discriminate|].
  destruct (member _ _); simpl; [discriminate|].
  destruct (toString (prop "quantity" body)); simpl; [discriminate|].
  destruct (disk w) as [[e|e]|]; simpl; [discriminate|discriminate|].
  destruct (template _); simpl; [discriminate|].
  destruct (transporter w); [rewrite notify_run|]; discriminate.
Qed.

(** A completed request has seen at least three awaited operations. *)
Lemma completed_instant (w : world num) (wb : workbook num)
  (orderData : object num) (who : string) (s s' : state num) :
  s' = (if transporter w
        then notified w orderData (logged wb orderData who s)
        else logged wb orderData who s) ->
  3 + instant s <= instant s'.
Proof.
  intros ->. destruct (transporter w); [|simpl; lia].
  unfold notified. destruct (email_entries orderData); [simpl; lia|].
  destruct (smtp w); simpl; lia.
Qed.

End HandlerFacts.

(** ** The schema of the store (C1) *)

Section Schema.

Context {num : Type} `{JsNumber num}.

(** C1, as amended.  After every successful order append the "Orders" sheet
    carries the seven canonical headers in canonical order whenever the
    sheet was missing or came with column definitions, but not seven of
    them; a sheet that came with exactly seven columns keeps the headers it
    had. *)
Theorem headers_after_append (w : world num) (body : object num)
  (s s' : state num) (b : value num) :
  order_perfume w body s = (inr (Json 200 b), s') ->
  (stored_columns (excel s) = None ->
   stored_headers (excel s') = Some canonical_headers)
  /\ (forall cols, stored_columns (excel s) = Some cols ->
                  cols <> [] -> length cols <> 7 ->
                  stored_headers (excel s') = Some canonical_headers)
  /\ (forall cols, stored_columns (excel s) = Some cols ->
                  length cols = 7 ->
                  stored_headers (excel s') = Some (map header cols)).
Proof.
  intros Hrun.
  destruct (order_perfume_200 _ _ _ Hrun)
    as (wb & od & who & Hacc & _ & _ & Hx' & _).
  rewrite Hx', (accepted_headers Hacc).
  repeat split.
  - now intros ->.
  - intros cols -> _ Hlen. apply Nat.eqb_neq in Hlen. now rewrite Hlen.
  - intros cols -> Hlen. apply Nat.eqb_eq in Hlen. now rewrite Hlen.
Qed.

End Schema.

(** C1 at a store that lost six of its columns: the append puts the seven
    canonical headers back. *)
Lemma headers_after_append_witness :
  stored_headers
    (excel (snd (order_perfume Demo.shop Demo.ana Demo.narrowed)))
  = Some canonical_headers.
Proof.
  assert (Hrun : order_perfume Demo.shop Demo.ana Demo.narrowed
                 = (inr (Json 200 (saved Demo.ana_order)),
                    snd (order_perfume Demo.shop Demo.ana Demo.narrowed)))
    by reflexivity.
  destruct (headers_after_append Demo.shop Demo.ana Demo.narrowed Hrun)
    as (_ & Hcount & _).
  apply (Hcount [Column "Client" "name" 20]).
  - reflexivity.
  - discriminate.
  - simpl. lia.
Defined.

(** C1 as first stated fails: on a sheet whose seven columns carry other
    labels the order is appended and answered 200, and the labels stay. *)
Lemma relabelled_headers_survive :
  fst (order_perfume Demo.shop Demo.ana Demo.relabelled)
  = inr (Json 200 (saved Demo.ana_order))
  /\ stored_headers
       (excel (snd (order_perfume Demo.shop Demo.ana Demo.relabelled)))
     = Some ["Client"; "Tel"; "Ref"; "Product"; "Qty"; "Address"; "When"]
  /\ stored_headers
       (excel (snd (order_perfume Demo.shop Demo.ana Demo.relabelled)))
     <> Some canonical_headers.
Proof.
  repeat split; try reflexivity. discriminate.
Qed.

(** A store whose "Orders" sheet has no column definitions makes every
    order fail: [sheet.columns] is [null], the read of its [length] throws,
    and the outer [catch] answers 500; the sheet is not repaired. *)
Example columnless_sheet_is_500 :
  let bare : state Z := State (Xlsx [Worksheet "Orders" [] []]) [] [] 0 in
  match fst (order_perfume Demo.shop Demo.ana bare) with
  | inr (Json status _) => status
  | _ => 0
  end = 500
  /\ excel (snd (order_perfume Demo.shop Demo.ana bare)) = excel bare.
Proof. split; reflexivity. Qed.

(** ** The appended row (C2) *)

Section Projection.

Context {num : Type} `{JsNumber num}.

(** C2.  The row of a successful order is its order data projected through
    the seven fixed columns, in their order, and it is appended after the
    rows already there.  Its cells come from the five required fields, the
    catalog and the clock alone; no cell is [null] or [undefined]; a cell
    whose order-data value is missing or falsy is the empty string; and two
    requests that agree on the five required fields are handled alike,
    whatever else they carry. *)
Theorem row_is_projection (w : world num) (body : object num)
  (s s' : state num) (b : value num) :
  order_perfume w body s = (inr (Json 200 b), s') ->
  exists (perfumeId' : string) (perfumeName : value num) (quantity' : string),
    let orderData := order_data w s body perfumeId' perfumeName quantity' in
    let row := row_of orderData in
    b = saved orderData
    /\ stored_rows (excel s') = stored_rows (excel s) ++ [row]
    /\ row = map (fun col => js_or (prop (key col) orderData) (VStr ""))
               fixedColumns
    /\ row = [ prop "name" body;
               prop "phone" body;
               VStr perfumeId';
               js_or perfumeName (VStr "");
               VStr quantity';
               prop "deliveryAddress" body;
               VStr (stamp w s) ]
    /\ length row = 7
    /\ Forall (fun cell => cell <> VNull /\ cell <> VUndefined) row
    /\ (forall col, In col fixedColumns ->
                    truthy (prop (key col) orderData) = false ->
                    js_or (prop (key col) orderData) (VStr "") = VStr "")
    /\ (forall body' : object num,
          (forall k, In k required -> prop k body' = prop k body) ->
          order_perfume w body' s = order_perfume w body s).
Proof.
  intros Hrun.
  destruct (order_perfume_200 _ _ _ Hrun)
    as (wb & od & who & Hacc & Hb & _ & Hx' & _).
  pose proof (accepted_rows Hacc) as Hrows.
  destruct Hacc as (Hv & Hx & _ & _ & perfumes & sel & pid & pname & qty
                    & _ & _ & _ & _ & _ & _ & ->).
  exists pid, pname, qty. cbv zeta.
  rewrite valid_iff in Hv.
  assert (Hname : js_or (prop "name" body) (VStr "") = prop "name" body)
    by (unfold js_or; rewrite (Hv "name"); simpl; auto).
  assert (Hphone : js_or (prop "phone" body) (VStr "") = prop "phone" body)
    by (unfold js_or; rewrite (Hv "phone"); simpl; auto).
  assert (Haddr : js_or (prop "deliveryAddress" body) (VStr "")
                  = prop "deliveryAddress" body)
    by (unfold js_or; rewrite (Hv "deliveryAddress"); simpl; auto 6).
  split; [exact Hb|].
  split; [rewrite Hx'; exact Hrows|].
  split; [reflexivity|].
  split.
  { now rewrite row_of_order_data, Hname, Hphone, Haddr. }
  split; [reflexivity|].
  split.
  { unfold row_of. apply Forall_map, Forall_forall. intros col _.
    apply js_or_string_defined. }
  split.
  { intros col _ Hf. now apply js_or_falsy. }
  intros body' Hk. now rewrite (order_perfume_reads_required w body body' Hk).
Qed.

End Projection.

(** C2 on scenario A sent with a [perfumeName] and a [coupon] of the
    client's: the row holds the seven canonical cells and nothing of the
    two. *)
Lemma row_is_projection_witness :
  stored_rows (excel (snd (order_perfume Demo.shop Demo.ana Demo.opened)))
  = [[ VStr "Ana"; VStr "555"; VStr "2"; VStr "Rose"; VStr "1";
       VStr "Main St"; VStr "day 1040" ]]
  /\ order_perfume Demo.shop Demo.ana Demo.opened
     = order_perfume Demo.shop Demo.ana_plain Demo.opened.
Proof.
  assert (Hrun : order_perfume Demo.shop Demo.ana Demo.opened
                 = (inr (Json 200 (saved Demo.ana_order)),
                    snd (order_perfume Demo.shop Demo.ana Demo.opened)))
    by reflexivity.
  destruct (row_is_projection Demo.shop Demo.ana Demo.opened Hrun)
    as (pid & pname & qty & Hb & Hrows & _ & _ & _ & _ & _ & Hsame).
  split.
  - reflexivity.
  - apply Hsame. intros k Hk. simpl in Hk.
    repeat (destruct Hk as [<-|Hk]; [reflexivity|]). contradiction.
Defined.

(** ** Missing fields (C3) *)

(** C3.  [POST /order-perfume] answers 400 exactly when one of the five
    required fields is not truthy, that is absent, [null], [false], the
    empty string or a falsy number; the answer is then
    [{ success: false, message }], no row is appended and the process state
    is what it was.  A quantity of literal [0], and one of [""], are
    rejected this way. *)
Theorem missing_field_is_400 :
  (forall (num : Type) (N : JsNumber num)
          (w : world num) (body : object num) (s : state num),
      ((exists b, fst (order_perfume w body s) = inr (Json 400 b))
       <-> valid body = false)
      /\ (valid body = false <->
          exists k, In k required /\
            (own k body = None \/ own k body = Some VUndefined
             \/ own k body = Some VNull \/ own k body = Some (VBool false)
             \/ own k body = Some (VStr "")
             \/ exists n, own k body = Some (VNum n) /\ num_truthy n = false))
      /\ (valid body = false ->
          order_perfume w body s
          = (inr (Json 400 (VObj [("success", VBool false);
                                  ("message", VStr "All fields are required.")])),
             s)))
  /\ (forall (w : world Z) (body : object Z) (s : state Z),
         own "quantity" body = Some (VNum 0%Z)
         \/ own "quantity" body = Some (VStr "") ->
         valid body = false).
Proof.
  split.
  - intros num N w body s. split; [split|split].
    + intros (b & Hb).
      destruct (order_perfume w body s) as [r s'] eqn:Hrun. simpl in Hb.
      subst r. exact (order_perfume_400 _ _ _ Hrun).
    + intros Hv. rewrite order_perfume_invalid by exact Hv. simpl. eauto.
    + rewrite invalid_iff. split; intros (k & Hin & Hk); exists k;
        (split; [exact Hin|]); now apply falsy_field.
    + intros Hv. now apply order_perfume_invalid.
  - intros w body s Hq. apply invalid_iff. exists "quantity".
    split; [simpl; auto|]. apply falsy_field.
    destruct Hq as [Hq|Hq]; rewrite Hq; auto 6.
    right. right. right. right. right. exists 0%Z. auto.
Qed.

(** C3 on a request for zero bottles. *)
Lemma missing_field_is_400_witness :
  order_perfume Demo.shop Demo.zero_quantity Demo.opened
  = (inr (Json 400 (VObj [("success", VBool false);
                          ("message", VStr "All fields are required.")])),
     Demo.opened).
Proof.
  destruct missing_field_is_400 as [Hgen Hzero].
  apply (Hgen Z Z_number).
  apply (Hzero Demo.shop Demo.zero_quantity Demo.opened).
  left. reflexivity.
Defined.

(** The string ["0"] is truthy: a quantity of ["0"] passes the validation
    and is stored. *)
Example quantity_string_zero_is_accepted :
  let body : object Z :=
    [ ("name", VStr "Ana"); ("phone", VStr "555"); ("perfumeId", VStr "2");
      ("quantity", VStr "0"); ("deliveryAddress", VStr "Main St") ] in
  exists b s', order_perfume Demo.shop body Demo.opened = (inr (Json 200 b), s').
Proof. do 2 eexists. reflexivity. Qed.

(** ** The catalog lookup (C4) *)

Section Lookup.

Context {num : Type} `{JsNumber num}.

(** An entry whose id can be printed is an object. *)
Lemma stringified_id_truthy (p : value num) (a : string) :
  stringified_id p = inr a -> truthy p = true.
Proof.
  unfold stringified_id, member.
  destruct p; simpl; try discriminate; reflexivity.
Qed.

(** On such an entry the callback of [find] compares the two printed ids. *)
Lemma same_id_compares (perfumeId p : value num) (a pid : string) :
  stringified_id p = inr a -> toString perfumeId = inr pid ->
  same_id perfumeId p = inr (String.eqb a pid).
Proof.
  unfold stringified_id, same_id. intros Ha Hpid.
  destruct (member p "id") as [e|id]; simpl in *; [discriminate|].
  rewrite Ha; simpl. now rewrite Hpid.
Qed.

Lemma same_id_true (perfumeId p : value num) (pid : string) :
  toString perfumeId = inr pid ->
  same_id perfumeId p = inr true -> stringified_id p = inr pid.
Proof.
  unfold stringified_id, same_id. intros Hpid.
  destruct (member p "id") as [e|id]; simpl; [discriminate|].
  destruct (toString id) as [e|a]; simpl; [discriminate|].
  rewrite Hpid; simpl. intros E. inversion E as [Heq].
  apply String.eqb_eq in Heq. now subst.
Qed.

End Lookup.

(** C4, as amended.  For a valid request whose [perfumeId] can be printed,
    against a catalog whose entries all have an id that can be printed: the
    search
    finds a perfume exactly when some entry's printed id equals the printed
    [perfumeId]; when none does the answer is 404 with [success: false] and
    nothing is written; when one does the answer is not 404, and in a
    stored order the perfume name, in the answer and in the row, is the
    name of such an entry, whatever name the client sent.  The number [7]
    is found by ["7"] (and ["7"] by [7]) but not by ["07"]. *)
Theorem catalog_lookup :
  (forall (num : Type) (N : JsNumber num)
          (w : world num) (body : object num) (s : state num)
          (entries : list (value num)) (pid : string),
      valid body = true ->
      perfumes_json w = inr (VArr entries) ->
      Forall (fun p => exists a, stringified_id p = inr a) entries ->
      toString (prop "perfumeId" body) = inr pid ->
      ((exists sel,
           find (VArr entries) (same_id (prop "perfumeId" body)) = inr sel
           /\ truthy sel = true)
       <-> (exists p, In p entries /\ stringified_id p = inr pid))
      /\ ((forall p, In p entries -> stringified_id p <> inr pid) ->
          order_perfume w body s
          = (inr (Json 404 (VObj [("success", VBool false);
                                  ("message", VStr "Perfume not found.")])),
             later s))
      /\ ((exists p, In p entries /\ stringified_id p = inr pid) ->
          forall b, fst (order_perfume w body s) <> inr (Json 404 b))
      /\ (forall b s',
             order_perfume w body s = (inr (Json 200 b), s') ->
             exists p perfumeName orderData row,
               In p entries /\ stringified_id p = inr pid
               /\ member p "name" = inr perfumeName
               /\ b = saved orderData
               /\ prop "perfumeName" orderData = perfumeName
               /\ stored_rows (excel s') = stored_rows (excel s) ++ [row]
               /\ nth 3 row VUndefined = js_or perfumeName (VStr "")
               /\ (forall n, perfumeName = VStr n ->
                              nth 3 row VUndefined = VStr n)))
  /\ same_id (VStr "7") (VObj [("id", VNum 7%Z)]) = inr true
  /\ same_id (VNum 7%Z) (VObj [("id", VStr "7")]) = inr true
  /\ same_id (VStr "07") (VObj [("id", VNum 7%Z)]) = inr false.
Proof.
  split; [|repeat split; reflexivity].
  intros num N w body s entries pid Hv Hp Hids Hpid.
  set (f := same_id (prop "perfumeId" body)).
  assert (Htotal : Forall (fun p => exists b, f p = inr b) entries).
  { eapply Forall_impl; [|exact Hids]. intros p (a & Ha).
    exists (String.eqb a pid). now apply same_id_compares. }
  assert (Hobj : forall p, In p entries -> f p = inr true -> truthy p = true).
  { intros p _ Hf. eapply stringified_id_truthy, same_id_true; eauto. }
  assert (Hhit : forall p, f p = inr true -> stringified_id p = inr pid).
  { intros p Hf. eapply same_id_true; eauto. }
  assert (Hfound : (exists p, In p entries /\ stringified_id p = inr pid) ->
                   exists q, In q entries /\ f q = inr true
                             /\ array_find f entries = inr q).
  { intros (p & Hin & Hid).
    destruct (array_find_total f Htotal Hobj)
      as [(q & Hq)|(Hno & _)]; [eauto|].
    specialize (Hno p Hin). unfold f in Hno.
    rewrite (same_id_compares _ _ Hid Hpid), String.eqb_refl in Hno.
    discriminate. }
  split; [|split; [|split]].
  - simpl. split.
    + intros (sel & Hf & Ht).
      destruct (array_find_found _ _ Hf Ht) as (Hin & Hsel). eauto.
    + intros Hex. destruct (Hfound Hex) as (q & Hin & Hq & Hf).
      exists q. split; [exact Hf|]. now apply Hobj.
  - intros Hnone.
    destruct (array_find_total f Htotal Hobj)
      as [(q & Hin & Hq & _)|(_ & Hf)].
    + exfalso. exact (Hnone q Hin (Hhit q Hq)).
    + apply order_perfume_unknown with (perfumes := VArr entries) (sel := VUndefined);
        auto.
  - intros Hex b Hb.
    destruct (order_perfume w body s) as [r s'] eqn:Hrun. simpl in Hb. subst r.
    destruct (order_perfume_404 _ _ _ Hrun) as (perfumes & sel & Hp' & Hf & Ht).
    rewrite Hp in Hp'. inversion Hp'; subst perfumes. simpl in Hf.
    destruct (Hfound Hex) as (q & Hin & Hq & Hf').
    fold f in Hf. rewrite Hf' in Hf. inversion Hf; subst sel.
    rewrite (Hobj q Hin Hq) in Ht. discriminate.
  - intros b s' Hrun.
    destruct (order_perfume_200 _ _ _ Hrun)
      as (wb & od & who & Hacc & Hb & _ & Hx' & _).
    pose proof (accepted_rows Hacc) as Hrows.
    destruct Hacc as (_ & Hx & _ & _ & perfumes & sel & pid' & pname & qty
                      & Hp' & Hf & Ht & Hpid' & Hn & _ & ->).
    rewrite Hp in Hp'. inversion Hp'; subst perfumes. simpl in Hf.
    destruct (array_find_found _ _ Hf Ht) as (Hin & Hsel).
    exists sel, pname, (order_data w s body pid' pname qty),
      (row_of (order_data w s body pid' pname qty)).
    rewrite Hpid in Hpid'. inversion Hpid'; subst pid'.
    split; [exact Hin|].
    split; [exact (Hhit sel Hsel)|].
    split; [exact Hn|].
    split; [exact Hb|].
    split; [reflexivity|].
    split; [rewrite Hx'; exact Hrows|].
    split; [now rewrite row_of_order_data|].
    intros n ->. now rewrite row_of_order_data, js_or_string.
Qed.

(** C4 on scenario A: the catalog holds the number [2] under the name
    "Rose", the client asks for ["2"] and sends a name of its own. *)
Lemma catalog_lookup_witness :
  exists p row,
    In p [ VObj [("id", VNum 2%Z); ("name", VStr "Rose")];
           VObj [("id", VNum 7%Z); ("name", VStr "Oud")] ]
    /\ member p "name" = inr (VStr "Rose")
    /\ stored_rows (excel (snd (order_perfume Demo.shop Demo.ana Demo.opened)))
       = stored_rows (excel Demo.opened) ++ [row]
    /\ nth 3 row VUndefined = VStr "Rose".
Proof.
  assert (Hrun : order_perfume Demo.shop Demo.ana Demo.opened
                 = (inr (Json 200 (saved Demo.ana_order)),
                    snd (order_perfume Demo.shop Demo.ana Demo.opened)))
    by reflexivity.
  destruct catalog_lookup as [Hgen _].
  destruct (Hgen Z Z_number Demo.shop Demo.ana Demo.opened
              [ VObj [("id", VNum 2%Z); ("name", VStr "Rose")];
                VObj [("id", VNum 7%Z); ("name", VStr "Oud")] ] "2")
    as (_ & _ & _ & Hstored).
  - reflexivity.
  - reflexivity.
  - repeat constructor; eexists; reflexivity.
  - reflexivity.
  - destruct (Hstored _ _ Hrun)
      as (p & pname & od & row & Hin & Hid & Hname & Hb & Hod & Hrows & _ & Hcell).
    assert (Hrose : pname = VStr "Rose").
    { inversion Hb; subst od. symmetry. exact Hod. }
    exists p, row. rewrite Hrose in Hname.
    split; [exact Hin|].
    split; [exact Hname|].
    split; [exact Hrows|].
    exact (Hcell "Rose" Hrose).
Defined.

(** C4 as first stated fails: a request whose [perfumeId] is the object
    [{"toString": null}] passes the validation, no entry of the catalog
    matches it, and the answer is 500, not 404; nothing is written.  And
    against a catalog whose first entry has the id [null], a request for
    the id of the second entry is answered 500 as well: the search throws
    before it reaches the entry that matches. *)
Lemma unprintable_id_is_500 :
  (valid Demo.unprintable_id = true
   /\ Forall (fun p => same_id (prop "perfumeId" Demo.unprintable_id) p
                       <> inr true)
             [ VObj [("id", VNum 2%Z); ("name", VStr "Rose")];
               VObj [("id", VNum 7%Z); ("name", VStr "Oud")] ]
   /\ match fst (order_perfume Demo.shop Demo.unprintable_id Demo.opened) with
      | inr (Json status _) => status
      | _ => 0
      end = 500
   /\ fst (order_perfume Demo.shop Demo.unprintable_id Demo.opened)
      <> inr (Json 404 (VObj [("success", VBool false);
                              ("message", VStr "Perfume not found.")]))
   /\ excel (snd (order_perfume Demo.shop Demo.unprintable_id Demo.opened))
      = excel Demo.opened)
  /\ (valid Demo.ana = true
      /\ stringified_id (VObj [("id", VNum 2%Z); ("name", VStr "Rose")])
         = toString (prop "perfumeId" Demo.ana)
      /\ match fst (order_perfume
               (with_catalog
                 (inr (VArr [ VObj [("id", VNull); ("name", VStr "Mist")];
                              VObj [("id", VNum 2%Z); ("name", VStr "Rose")] ]))
                 Demo.shop)
               Demo.ana Demo.opened) with
         | inr (Json status _) => status
         | _ => 0
         end = 500
      /\ excel (snd (order_perfume
               (with_catalog
                 (inr (VArr [ VObj [("id", VNull); ("name", VStr "Mist")];
                              VObj [("id", VNum 2%Z); ("name", VStr "Rose")] ]))
                 Demo.shop)
               Demo.ana Demo.opened))
         = excel Demo.opened).
Proof.
  split.
  - split; [reflexivity|].
    split; [repeat constructor; discriminate|].
    split; [reflexivity|].
    split; [discriminate|reflexivity].
  - repeat split.
Qed.

(** ** The notification (C5) *)

Section Notification.

Context {num : Type} `{JsNumber num}.

(** Whatever the mail server does, the answer and the store file are the
    same. *)
Lemma order_perfume_any_smtp (w : world num) (body : object num)
  (s : state num) (o1 o2 : option exn) :
  fst (order_perfume (with_smtp o1 w) body s)
  = fst (order_perfume (with_smtp o2 w) body s)
  /\ excel (snd (order_perfume (with_smtp o1 w) body s))
     = excel (snd (order_perfume (with_smtp o2 w) body s)).
Proof.
  destruct (valid body) eqn:Hv.
  2:{ rewrite !order_perfume_invalid by exact Hv. auto. }
  unfold order_perfume. rewrite guard_is_not_valid, Hv.
  unfold try_catch, bind, lift, ret, await, new_Date, xlsx_readFile,
    xlsx_writeFile, console_log, transporter; simpl.
  destruct (perfumes_json w); simpl; [auto|].
  destruct (find _ _); simpl; [auto|].
  destruct (truthy _); simpl; [|auto].
  destruct (excel s); simpl; auto.
  destruct (reconcile _); simpl; [auto|].
  destruct (toString (prop "perfumeId" body)); simpl; [auto|].
  destruct (member _ _); simpl; [auto|].
  destruct (toString (prop "quantity" body)); simpl; [auto|].
  destruct (disk w) as [[e|e]|]; simpl; [auto|auto|].
  destruct (template _); simpl; [auto|].
  destruct (env_truthy (EMAIL_USER w) && env_truthy (EMAIL_PASS w)); [|auto].
  rewrite !notify_run. simpl. now rewrite !notified_excel.
Qed.

Lemma accepted_any_smtp (w : world num) (body : object num) (s : state num)
  (wb : workbook num) (orderData : object num) (o1 o2 : option exn) :
  accepted (with_smtp o1 w) body s wb orderData ->
  accepted (with_smtp o2 w) body s wb orderData.
Proof. intros Hacc. exact Hacc. Qed.

(** C5.  Compare a run in which [sendMail] fails with the run in which it
    works, everything else being equal: the answer is the same and so is
    the store file.  When the answer is the 200 of a stored order, the run
    with the failing mail server answers that same 200 with the whole order
    as [data], the row is in the store, nothing is in the outbox, and when
    a transporter is configured the failure is the last line of the log,
    after the line that reports the order saved. *)
Theorem notification_is_isolated (w : world num) (body : object num)
  (s : state num) (e : exn) :
  let working := order_perfume (with_smtp None w) body s in
  let failing := order_perfume (with_smtp (Some e) w) body s in
  fst failing = fst working
  /\ excel (snd failing) = excel (snd working)
  /\ (forall b s',
         working = (inr (Json 200 b), s') ->
         exists orderData who,
           b = saved orderData
           /\ fst failing = inr (Json 200 (saved orderData))
           /\ stored_rows (excel (snd failing))
              = stored_rows (excel s) ++ [row_of orderData]
           /\ outbox (snd failing) = outbox s
           /\ (transporter w = true ->
               exists m, console (snd failing)
                         = console s ++ [OrderSaved who; EmailFailed m])
           /\ (transporter w = false -> snd failing = s')).
Proof.
  cbv zeta.
  split; [apply order_perfume_any_smtp|].
  split; [apply order_perfume_any_smtp|].
  intros b s' Hrun.
  destruct (order_perfume_200 _ _ _ Hrun)
    as (wb & od & who & Hacc & Hb & Hw & _ & Hs').
  pose proof (accepted_any_smtp (Some e) Hacc) as Hacc'.
  rewrite (order_perfume_accepted Hacc' Hw).
  pose proof (accepted_rows Hacc) as Hrows.
  destruct Hacc as (_ & Hx & _).
  change (transporter (with_smtp (Some e) w)) with (transporter w).
  change (transporter (with_smtp None w)) with (transporter w) in Hs'.
  exists od, who. simpl fst. simpl snd.
  split; [exact Hb|]. split; [reflexivity|].
  destruct (transporter w).
  - rewrite notified_excel. simpl excel.
    split; [exact Hrows|].
    unfold notified; simpl.
    destruct (email_entries od) as [e'|es]; simpl.
    + split; [reflexivity|]. split; [|discriminate].
      intros _. exists (message e'). now rewrite <- app_assoc.
    + split; [reflexivity|]. split; [|discriminate].
      intros _. exists (message e). now rewrite <- app_assoc.
  - simpl excel.
    split; [exact Hrows|].
    split; [reflexivity|]. split; [discriminate|].
    intros _. now rewrite Hs'.
Qed.

End Notification.

(** C5 on scenario A with a mail server that refuses the login. *)
Lemma notification_is_isolated_witness :
  order_perfume (with_smtp (Some (Failure "Invalid login")) Demo.shop)
    Demo.ana Demo.opened
  = (inr (Json 200 (saved Demo.ana_order)),
     State (written fresh_workbook Demo.ana_order)
           [OrderSaved "Ana"; EmailFailed "Invalid login"] [] 4).
Proof.
  assert (Hrun : order_perfume (with_smtp None Demo.shop) Demo.ana Demo.opened
                 = (inr (Json 200 (saved Demo.ana_order)),
                    snd (order_perfume (with_smtp None Demo.shop)
                           Demo.ana Demo.opened)))
    by reflexivity.
  destruct (notification_is_isolated Demo.shop Demo.ana Demo.opened
              (Failure "Invalid login"))
    as (_ & _ & Hok).
  destruct (Hok _ _ Hrun) as (od & who & _).
  reflexivity.
Defined.

(** The log line of line 159 prints the name with a template literal.  A
    name that is an object with a [toString] property of its own passes the
    validation and its row is written; then the log line throws, the outer
    [catch] answers 500, and the notification is never reached. *)
Example unprintable_name_is_stored :
  let body : object Z :=
    [ ("name", VObj [("toString", VNull)]); ("phone", VStr "555");
      ("perfumeId", VStr "2"); ("quantity", VStr "1");
      ("deliveryAddress", VStr "Main St") ] in
  fst (order_perfume Demo.shop body Demo.opened)
  = inr (Json 500 (VObj [("success", VBool false);
                         ("message", VStr "Error saving order.");
                         ("error",
                          VStr "Cannot convert object to primitive value")]))
  /\ stored_rows (excel (snd (order_perfume Demo.shop body Demo.opened)))
     = [[ VObj [("toString", VNull)]; VStr "555"; VStr "2"; VStr "Rose";
          VStr "1"; VStr "Main St"; VStr "day 1040" ]]
  /\ outbox (snd (order_perfume Demo.shop body Demo.opened)) = [].
Proof. repeat split. Qed.

(** ** Start-up (C6, C7) *)

Section Startup.

Context {num : Type} `{JsNumber num}.

(** On a store file with an "Orders" sheet the initializer only logs. *)
Lemma initializeExcel_valid (w : world num) (s : state num)
  (wb : workbook num) (sheet : worksheet num) :
  excel s = Xlsx wb -> getWorksheet "Orders" wb = Some sheet ->
  initializeExcel w s
  = (inr tt,
     State (excel s) (console s ++ [ExcelValid]) (outbox s) (2 + instant s)).
Proof.
  intros Hx Hs. unfold initializeExcel, try_catch, bind, await, fs_access,
    xlsx_readFile, console_log.
  destruct s as [x c o i]; simpl in Hx; subst x.
  cbn -[getWorksheet]. now rewrite Hs.
Qed.

(** On anything else it goes through the [catch] block. *)
Lemma initializeExcel_repair (w : world num) (s : state num) :
  excel s = Missing \/ excel s = Unparseable
  \/ (exists wb, excel s = Xlsx wb /\ getWorksheet "Orders" wb = None) ->
  initializeExcel w s
  = let n := match excel s with Missing => 2 | _ => 3 end + instant s in
    match disk w with
    | Some (Refused e) =>
        (inl e, State (excel s) (console s) (outbox s) n)
    | Some (Interrupted e) =>
        (inl e, State Unparseable (console s) (outbox s) n)
    | None =>
        (inr tt, State (Xlsx fresh_workbook) (console s ++ [ExcelCreated])
                       (outbox s) n)
    end.
Proof.
  unfold initializeExcel, try_catch, bind, throw, lift, await, fs_access,
    xlsx_readFile, xlsx_writeFile, console_log.
  destruct s as [x c o i].
  intros [Hx|[Hx|(wb & Hx & Hs)]]; simpl in Hx; subst x;
    cbn -[getWorksheet fresh_workbook];
    try rewrite Hs; destruct (disk w) as [[e|e]|]; reflexivity.
Qed.

(** C6.  When the store file is missing, cannot be parsed, or holds a
    workbook without an "Orders" sheet, and the disk takes the write, the
    initializer replaces the file by a workbook of exactly one sheet,
    "Orders", with the seven canonical columns and no row. *)
Theorem initializeExcel_recreates (w : world num) (s : state num) :
  disk w = None ->
  excel s = Missing \/ excel s = Unparseable
  \/ (exists wb, excel s = Xlsx wb /\ getWorksheet "Orders" wb = None) ->
  exists s',
    initializeExcel w s = (inr tt, s')
    /\ excel s' = Xlsx [Worksheet "Orders" fixedColumns []]
    /\ stored_headers (excel s') = Some canonical_headers
    /\ stored_rows (excel s') = [].
Proof.
  intros Hd Hbad. rewrite (initializeExcel_repair w s Hbad), Hd.
  eexists. split; [reflexivity|]. repeat split.
Qed.

(** C7.  On a store file that holds a workbook with an "Orders" sheet the
    initializer leaves the file as it is; a second run leaves it as the
    first did, rows included.  From any state, a run that follows a
    completed run changes nothing in the file. *)
Theorem initializeExcel_idempotent (w : world num) (s : state num) :
  (forall wb sheet,
      excel s = Xlsx wb -> getWorksheet "Orders" wb = Some sheet ->
      exists s1 s2,
        initializeExcel w s = (inr tt, s1) /\ excel s1 = excel s
        /\ initializeExcel w s1 = (inr tt, s2) /\ excel s2 = excel s
        /\ stored_rows (excel s2) = rows sheet)
  /\ (forall s1,
         initializeExcel w s = (inr tt, s1) ->
         exists s2, initializeExcel w s1 = (inr tt, s2)
                    /\ excel s2 = excel s1).
Proof.
  split.
  - intros wb sheet Hx Hs.
    rewrite (initializeExcel_valid w s Hx Hs).
    eexists. eexists. split; [reflexivity|]. split; [reflexivity|].
    rewrite (initializeExcel_valid w _ (wb := wb) (sheet := sheet)) by auto.
    split; [reflexivity|]. split; [reflexivity|].
    simpl. unfold stored_rows, orders_sheet. now rewrite Hx, Hs.
  - intros s1 Hrun.
    assert (Hvalid : exists wb sheet,
               excel s1 = Xlsx wb /\ getWorksheet "Orders" wb = Some sheet).
    { destruct (excel s) as [| |wb] eqn:Hx.
      - rewrite initializeExcel_repair in Hrun by auto.
        destruct (disk w) as [[e|e]|]; inversion Hrun; subst.
        exists fresh_workbook, (Worksheet "Orders" fixedColumns []).
        split; reflexivity.
      - rewrite initializeExcel_repair in Hrun by auto.
        destruct (disk w) as [[e|e]|]; inversion Hrun; subst.
        exists fresh_workbook, (Worksheet "Orders" fixedColumns []).
        split; reflexivity.
      - destruct (getWorksheet "Orders" wb) as [sheet|] eqn:Hs.
        + rewrite (initializeExcel_valid w s Hx Hs) in Hrun.
          inversion Hrun; subst. simpl. rewrite Hx. eauto.
        + rewrite initializeExcel_repair in Hrun by eauto.
          destruct (disk w) as [[e|e]|]; inversion Hrun; subst.
        exists fresh_workbook, (Worksheet "Orders" fixedColumns []).
        split; reflexivity. }
    destruct Hvalid as (wb & sheet & Hx & Hs).
    rewrite (initializeExcel_valid w s1 Hx Hs). eauto.
Qed.

End Startup.

(** C6 on a file that holds a workbook with one sheet of another name and
    a row in it. *)
Lemma initializeExcel_recreates_witness :
  initializeExcel Demo.shop Demo.foreign
  = (inr tt,
     State (Xlsx [Worksheet "Orders" fixedColumns []]) [ExcelCreated] [] 3).
Proof.
  destruct (initializeExcel_recreates Demo.shop Demo.foreign) as (s' & Hrun & _).
  - reflexivity.
  - right. right. eexists. split; reflexivity.
  - reflexivity.
Defined.

(** C7 on the store with one order in it. *)
Lemma initializeExcel_idempotent_witness :
  exists s1 s2,
    initializeExcel Demo.shop Demo.relabelled = (inr tt, s1)
    /\ initializeExcel Demo.shop s1 = (inr tt, s2)
    /\ excel s2 = excel Demo.relabelled
    /\ stored_rows (excel s2)
       = [[VStr "Bea"; VStr "444"; VStr "7"; VStr "Oud"; VStr "2";
           VStr "Elm St"; VStr "day 900"]].
Proof.
  destruct (initializeExcel_idempotent Demo.shop Demo.relabelled) as [Hvalid _].
  destruct (Hvalid _ _ eq_refl eq_refl)
    as (s1 & s2 & Hrun1 & _ & Hrun2 & Hfile & Hrows).
  exists s1, s2. auto.
Defined.

(** ** Two orders in a row (C8) *)

Section Sequence.

Context {num : Type} `{JsNumber num}.

(** C8, as amended.  Two successful orders, the second handled in the
    state the first one left: the store ends with two more rows, in request
    order, each of seven cells; the date cell of each row is the rendering
    of the wall clock as the handler of its own request reads it, after its
    two awaited reads (of the catalog and of the workbook) and before its
    write; and the second reading comes after the first write is
    complete.  How the two dates compare is then up to the clock and its
    rendering. *)
Theorem two_orders_in_a_row (w1 w2 : world num) (body1 body2 : object num)
  (s s1 s2 : state num) (b1 b2 : value num) :
  order_perfume w1 body1 s = (inr (Json 200 b1), s1) ->
  order_perfume w2 body2 s1 = (inr (Json 200 b2), s2) ->
  exists (row1 row2 : list (value num)),
    stored_rows (excel s1) = stored_rows (excel s) ++ [row1]
    /\ stored_rows (excel s2) = stored_rows (excel s) ++ [row1; row2]
    /\ length row1 = 7 /\ length row2 = 7
    /\ nth 6 row1 VUndefined
       = VStr (toLocaleString w1 (clock w1 (2 + instant s)))
    /\ nth 6 row2 VUndefined
       = VStr (toLocaleString w2 (clock w2 (2 + instant s1)))
    /\ 3 + instant s <= instant s1
    /\ 3 + instant s1 <= instant s2.
Proof.
  intros Hrun1 Hrun2.
  destruct (order_perfume_200 _ _ _ Hrun1)
    as (wb1 & od1 & who1 & Hacc1 & _ & _ & Hx1' & Hs1).
  destruct (order_perfume_200 _ _ _ Hrun2)
    as (wb2 & od2 & who2 & Hacc2 & _ & _ & Hx2' & Hs2).
  pose proof (accepted_rows Hacc1) as Hrows1.
  pose proof (accepted_rows Hacc2) as Hrows2.
  destruct Hacc1 as (_ & _ & _ & _ & ? & ? & pid1 & pname1 & qty1
                     & _ & _ & _ & _ & _ & _ & ->).
  destruct Hacc2 as (_ & _ & _ & _ & ? & ? & pid2 & pname2 & qty2
                     & _ & _ & _ & _ & _ & _ & ->).
  apply completed_instant in Hs1. apply completed_instant in Hs2.
  exists (row_of (order_data w1 s body1 pid1 pname1 qty1)),
         (row_of (order_data w2 s1 body2 pid2 pname2 qty2)).
  rewrite <- Hx1' in Hrows1. rewrite <- Hx2' in Hrows2.
  split; [exact Hrows1|].
  split; [rewrite Hrows2, Hrows1, <- app_assoc; reflexivity|].
  rewrite !row_of_order_data.
  split; [reflexivity|]. split; [reflexivity|].
  split; [reflexivity|]. split; [reflexivity|].
  split; assumption.
Qed.

End Sequence.

(** C8 on scenario A followed by an order for two bottles of the other
    perfume. *)
Lemma two_orders_in_a_row_witness :
  exists s1 s2,
    order_perfume Demo.shop Demo.ana Demo.opened
    = (inr (Json 200 (saved Demo.ana_order)), s1)
    /\ order_perfume Demo.shop Demo.bea s1
       = (inr (Json 200 (saved Demo.bea_order)), s2)
    /\ stored_rows (excel s2)
       = [ [ VStr "Ana"; VStr "555"; VStr "2"; VStr "Rose"; VStr "1";
             VStr "Main St"; VStr "day 1040" ];
           [ VStr "Bea"; VStr "444"; VStr "7"; VStr "Oud"; VStr "2";
             VStr "Elm St"; VStr "day 1120" ] ].
Proof.
  set (s1 := snd (order_perfume Demo.shop Demo.ana Demo.opened)).
  set (s2 := snd (order_perfume Demo.shop Demo.bea s1)).
  assert (Hrun1 : order_perfume Demo.shop Demo.ana Demo.opened
                  = (inr (Json 200 (saved Demo.ana_order)), s1))
    by reflexivity.
  assert (Hrun2 : order_perfume Demo.shop Demo.bea s1
                  = (inr (Json 200 (saved Demo.bea_order)), s2))
    by reflexivity.
  destruct (two_orders_in_a_row Demo.shop Demo.shop Demo.ana Demo.bea
              Demo.opened Hrun1 Hrun2)
    as (row1 & row2 & _).
  exists s1, s2. repeat split.
Defined.

(** C8 as first stated fails: under a wall clock that is set back between
    the two requests, both orders are stored and answered 200 and the date of
    the second row is earlier than the date of the first. *)
Lemma dates_can_step_back :
  fst (order_perfume Demo.shop_set_back Demo.ana Demo.opened)
  = inr (Json 200 (saved [ ("name", VStr "Ana"); ("phone", VStr "555");
                           ("perfumeId", VStr "2");
                           ("perfumeName", VStr "Rose");
                           ("quantity", VStr "1");
                           ("deliveryAddress", VStr "Main St");
                           ("date", VStr "day 1960") ]))
  /\ fst (order_perfume Demo.shop_set_back Demo.bea
            (snd (order_perfume Demo.shop_set_back Demo.ana Demo.opened)))
     = inr (Json 200 (saved [ ("name", VStr "Bea"); ("phone", VStr "444");
                              ("perfumeId", VStr "7");
                              ("perfumeName", VStr "Oud");
                              ("quantity", VStr "2");
                              ("deliveryAddress", VStr "Elm St");
                              ("date", VStr "day 1880") ]))
  /\ map (fun row => nth 6 row VUndefined)
         (stored_rows
            (excel (snd (order_perfume Demo.shop_set_back Demo.bea
                           (snd (order_perfume Demo.shop_set_back Demo.ana
                                               Demo.opened))))))
     = [ VStr (Demo.render 1960); VStr (Demo.render 1880) ]
  /\ (clock Demo.shop_set_back
        (2 + instant (snd (order_perfume Demo.shop_set_back Demo.ana
                                         Demo.opened)))
      < clock Demo.shop_set_back (2 + instant Demo.opened))%Z.
Proof.
  repeat split.
Qed.

(** ** The download (C9, C10) *)

Section Download.

Context {num : Type} `{JsNumber num}.

Lemma strict_eq_spec (a b : option string) : strict_eq a b = true <-> a = b.
Proof.
  destruct a as [x|], b as [y|]; simpl; split; try congruence.
  - intros E. apply String.eqb_eq in E. now subst.
  - intros E. inversion E. apply String.eqb_refl.
Qed.

(** C9, as amended.  [GET /orders] answers 403 with the fixed body
    [{ success: false, message: "Access denied." }], whatever the store file
    holds, when the [x-access-key] header is absent, empty, or differs from
    the configured secret.  When the header is not empty and equals the
    secret, the answer is 404 if the store file is absent, and otherwise the
    store file is sent as the download "orders.xlsx". *)
Theorem orders_access (w : world num) (accessKey : option string)
  (s : state num) :
  ((accessKey = None \/ accessKey = Some "" \/ accessKey <> ACCESS_KEY w) ->
   get_orders w accessKey s
   = (inr (Json 403 (VObj [("success", VBool false);
                           ("message", VStr "Access denied.")])), s))
  /\ (forall k,
         accessKey = Some k -> k <> "" -> ACCESS_KEY w = Some k ->
         (excel s = Missing ->
          exists s',
            get_orders w accessKey s
            = (inr (Json 404 (VObj [("success", VBool false);
                                    ("message", VStr "Excel file not found.")])),
               s')
            /\ excel s' = Missing)
         /\ (excel s <> Missing ->
             get_orders w accessKey s
             = (inr (Download excelPath "orders.xlsx"), later s))).
Proof.
  unfold get_orders. split.
  - intros [->|[->|Hne]]; try reflexivity.
    destruct (strict_eq accessKey (ACCESS_KEY w)) eqn:E.
    + apply strict_eq_spec in E. contradiction.
    + now rewrite orb_true_r.
  - intros k -> Hk Hkey. rewrite Hkey. simpl.
    rewrite String.eqb_refl.
    destruct (String.eqb_spec k ""); [contradiction|]. simpl.
    unfold try_catch, bind, await, fs_access, ret, console_log. simpl.
    split.
    + intros Hx. rewrite Hx. eexists. split; [reflexivity|]. exact Hx.
    + intros Hx. destruct (excel s); [contradiction| |]; reflexivity.
Qed.

(** C10.  Without a configured [ACCESS_KEY] every request is answered
    403, whatever key it sends. *)
Theorem orders_closed_without_key (w : world num) (accessKey : option string)
  (s : state num) :
  ACCESS_KEY w = None ->
  get_orders w accessKey s
  = (inr (Json 403 (VObj [("success", VBool false);
                          ("message", VStr "Access denied.")])), s).
Proof.
  intros Hkey. unfold get_orders. rewrite Hkey.
  destruct accessKey as [k|]; simpl; [|reflexivity].
  now rewrite orb_true_r.
Qed.

End Download.

(** C9 with the right key: the store file goes out. *)
Lemma orders_access_witness :
  get_orders Demo.shop (Some "letmein") Demo.opened
  = (inr (Download "orders.xlsx" "orders.xlsx"), later Demo.opened).
Proof.
  refine (proj2 (proj2 (orders_access Demo.shop (Some "letmein") Demo.opened)
                   "letmein" _ _ _) _).
  - reflexivity.
  - discriminate.
  - reflexivity.
  - discriminate.
Defined.

(** C9 as first stated fails: the secret is configured as the empty string,
    the request sends that very key and the store file is there, and the
    answer is 403, not the file. *)
Lemma empty_key_is_refused :
  Some "" = ACCESS_KEY Demo.shop_empty_key
  /\ excel Demo.opened <> Missing
  /\ get_orders Demo.shop_empty_key (Some "") Demo.opened
     = (inr (Json 403 (VObj [("success", VBool false);
                             ("message", VStr "Access denied.")])),
        Demo.opened)
  /\ fst (get_orders Demo.shop_empty_key (Some "") Demo.opened)
     <> inr (Download excelPath "orders.xlsx").
Proof.
  repeat split; try reflexivity; discriminate.
Qed.

(** C10 with the key of the other examples. *)
Lemma orders_closed_without_key_witness :
  get_orders Demo.shop_no_key (Some "letmein") Demo.opened
  = (inr (Json 403 (VObj [("success", VBool false);
                          ("message", VStr "Access denied.")])),
     Demo.opened).
Proof.
  apply (orders_closed_without_key Demo.shop_no_key (Some "letmein")
           Demo.opened).
  reflexivity.
Defined.

(** ** Every way a request for an order can end *)

Section Outcomes.

Context {num : Type} `{JsNumber num}.

Ltac run :=
  unfold try_catch, bind, lift, ret, throw, await, new_Date, fs_access,
    xlsx_readFile, xlsx_writeFile, console_log; simpl.

(** The six ways: a 400 and nothing else; a 404 after the catalog was
    read; a 500 for something thrown before the write, or for a write that
    was refused, with the store as it was; a 500 for a write that was
    interrupted, with the store file left unparseable; a 500 for the log
    line of line 159, with the row written; a 200. *)
Lemma order_perfume_outcomes (w : world num) (body : object num)
  (s s' : state num) (r : result (response num)) :
  order_perfume w body s = (r, s') ->
  (valid body = false /\
   r = inr (Json 400 (VObj [("success", VBool false);
                            ("message", VStr "All fields are required.")])) /\
   s' = s)
  \/ (valid body = true /\
      r = inr (Json 404 (VObj [("success", VBool false);
                               ("message", VStr "Perfume not found.")])) /\
      s' = later s)
  \/ (valid body = true /\
      exists e n, r = inr (error_answer e) /\ s' = failed e n s /\ 1 <= n <= 3)
  \/ (valid body = true /\
      exists wb e, excel s = Xlsx wb /\ disk w = Some (Interrupted e) /\
                   r = inr (error_answer e) /\ s' = interrupted e s)
  \/ (exists wb orderData e,
         accepted w body s wb orderData /\
         template (prop "name" body) = inl e /\
         r = inr (error_answer e) /\
         s' = State (written wb orderData) (console s ++ [SaveError e])
                    (outbox s) (3 + instant s))
  \/ (exists wb orderData who,
         accepted w body s wb orderData /\
         template (prop "name" body) = inr who /\
         r = inr (Json 200 (saved orderData)) /\
         s' = if transporter w
              then notified w orderData (logged wb orderData who s)
              else logged wb orderData who s).
Proof.
  destruct (valid body) eqn:Hv.
  2:{ rewrite order_perfume_invalid by exact Hv. intros E; inversion E; subst.
      left. auto. }
  unfold order_perfume. rewrite guard_is_not_valid, Hv. run.
  destruct (perfumes_json w) as [e|perfumes] eqn:Hp; simpl.
  { intros E; inversion E; subst. right. right. left. split; [reflexivity|].
    exists e, 1. split; [reflexivity|]. split; [reflexivity|lia]. }
  destruct (find perfumes _) as [e|sel] eqn:Hf; simpl.
  { intros E; inversion E; subst. right. right. left. split; [reflexivity|].
    exists e, 1. split; [reflexivity|]. split; [reflexivity|lia]. }
  destruct (truthy sel) eqn:Hs; simpl.
  2:{ intros E; inversion E; subst. right. left. auto. }
  destruct (excel s) as [| |wb] eqn:Hx; simpl.
  { intros E; inversion E; subst. right. right. left. split; [reflexivity|].
    exists (Failure "File not found: orders.xlsx"), 2.
    split; [reflexivity|]. split; [reflexivity|lia]. }
  { intros E; inversion E; subst. right. right. left. split; [reflexivity|].
    exists (Failure "Can't find end of central directory"), 2.
    split; [reflexivity|]. split; [reflexivity|lia]. }
  destruct (reconcile wb) as [e|wb'] eqn:Hrec; simpl.
  { intros E; inversion E; subst. right. right. left. split; [reflexivity|].
    exists e, 2. unfold failed. rewrite ?Hx.
    split; [reflexivity|]. split; [reflexivity|lia]. }
  destruct (toString (prop "perfumeId" body)) as [e|pid] eqn:Hpid; simpl.
  { intros E; inversion E; subst. right. right. left. split; [reflexivity|].
    exists e, 2. unfold failed. rewrite ?Hx.
    split; [reflexivity|]. split; [reflexivity|lia]. }
  destruct (member sel "name") as [e|pname] eqn:Hn; simpl.
  { intros E; inversion E; subst. right. right. left. split; [reflexivity|].
    exists e, 2. unfold failed. rewrite ?Hx.
    split; [reflexivity|]. split; [reflexivity|lia]. }
  destruct (toString (prop "quantity" body)) as [e|qty] eqn:Hq; simpl.
  { intros E; inversion E; subst. right. right. left. split; [reflexivity|].
    exists e, 2. unfold failed. rewrite ?Hx.
    split; [reflexivity|]. split; [reflexivity|lia]. }
  destruct (disk w) as [[e|e]|] eqn:Hd; simpl.
  { intros E; inversion E; subst. right. right. left. split; [reflexivity|].
    exists e, 3. unfold failed. rewrite ?Hx.
    split; [reflexivity|]. split; [reflexivity|lia]. }
  { intros E; inversion E; subst. right. right. right. left.
    split; [reflexivity|]. exists wb, e. auto. }
  assert (Hacc : accepted w body s wb (order_data w s body pid pname qty)).
  { split; [exact Hv|]. split; [exact Hx|]. split; [exact Hd|].
    split; [eauto|]. exists perfumes, sel, pid, pname, qty.
    repeat split; auto. }
  destruct (template (prop "name" body)) as [e|who] eqn:Hw; simpl.
  { intros E; inversion E; subst. right. right. right. right. left.
    exists wb, (order_data w s body pid pname qty), e.
    split; [exact Hacc|]. split; [reflexivity|]. split; [reflexivity|].
    unfold written. rewrite Hrec. reflexivity. }
  intros E. right. right. right. right. right.
  exists wb, (order_data w s body pid pname qty), who.
  split; [exact Hacc|]. split; [reflexivity|].
  unfold logged, written. rewrite Hrec.
  destruct (transporter w).
  - rewrite notify_run in E. simpl in E. inversion E; subst. auto.
  - simpl in E. inversion E; subst. auto.
Qed.

End Outcomes.

(** ** The order route beyond the single successful append *)

Section OrderRoute.

Context {num : Type} `{JsNumber num}.

Lemma getWorksheet_update_other (name n : string)
  (f : worksheet num -> worksheet num) (wb : workbook num) :
  (forall s, sheet_name (f s) = sheet_name s) -> name <> n ->
  getWorksheet name (update_sheet n f wb) = getWorksheet name wb.
Proof.
  intros Hname Hne. unfold getWorksheet.
  induction wb as [|s rest IH]; simpl; [reflexivity|].
  destruct (String.eqb (sheet_name s) n) eqn:En; simpl.
  - rewrite Hname. apply String.eqb_eq in En.
    destruct (String.eqb_spec (sheet_name s) name); [congruence|reflexivity].
  - destruct (String.eqb (sheet_name s) name); [reflexivity|exact IH].
Qed.

Lemma getWorksheet_add_other (name n : string) (wb wb' : workbook num) :
  name <> n -> addWorksheet n wb = inr wb' ->
  getWorksheet name wb' = getWorksheet name wb.
Proof.
  intros Hne. unfold addWorksheet.
  destruct (existsb _ wb); [discriminate|].
  intros E; inversion E; subst wb'. clear E. unfold getWorksheet.
  induction wb as [|s rest IH]; simpl.
  - destruct (String.eqb_spec n name); [congruence|reflexivity].
  - destruct (String.eqb (sheet_name s) name); [reflexivity|exact IH].
Qed.

Lemma reconcile_other (name : string) (wb wb' : workbook num) :
  name <> "Orders" -> reconcile wb = inr wb' ->
  getWorksheet name wb' = getWorksheet name wb.
Proof.
  intros Hne. unfold reconcile.
  destruct (getWorksheet "Orders" wb) as [sheet|].
  - destruct (sheet_columns sheet) as [cols|]; [|discriminate].
    destruct (_ || _); intros E; inversion E; subst wb'; [|reflexivity].
    now apply getWorksheet_update_other.
  - destruct (addWorksheet "Orders" wb) as [e|wb1] eqn:Hadd; simpl;
      [discriminate|].
    intros E; inversion E; subst wb'.
    rewrite getWorksheet_update_other by auto.
    exact (@getWorksheet_add_other name "Orders" wb wb1 Hne Hadd).
Qed.

Lemma written_other (name : string) (wb wb' : workbook num)
  (orderData : object num) :
  name <> "Orders" -> reconcile wb = inr wb' ->
  sheet_in (written wb orderData) name = getWorksheet name wb.
Proof.
  intros Hne Hrec. unfold written, sheet_in. rewrite Hrec.
  rewrite getWorksheet_update_other by auto.
  exact (@reconcile_other name wb wb' Hne Hrec).
Qed.

(** What a request for an order does to the store file: nothing, or the
    write of one row, or, when its write is interrupted, the loss of the
    file. *)
Lemma order_perfume_file (w : world num) (body : object num) (s : state num) :
  excel (snd (order_perfume w body s)) = excel s
  \/ (interrupts (PostOrder w body) = true
      /\ excel (snd (order_perfume w body s)) = Unparseable)
  \/ exists wb orderData,
       accepted w body s wb orderData
       /\ excel (snd (order_perfume w body s)) = written wb orderData.
Proof.
  destruct (order_perfume w body s) as [r s'] eqn:Hrun. simpl.
  destruct (order_perfume_outcomes _ _ _ Hrun)
    as [(_ & _ & ->)|[(_ & _ & ->)|[(_ & e & n & _ & -> & _)
       |[(_ & wb & e & _ & Hd & _ & ->)
        |[(wb & od & e & Hacc & _ & _ & ->)
         |(wb & od & who & Hacc & _ & _ & ->)]]]]];
    auto.
  - right. left. rewrite Hd. auto.
  - right. right. exists wb, od. auto.
  - right. right. exists wb, od. split; [exact Hacc|].
    destruct (transporter w); [apply notified_excel|reflexivity].
Qed.

Lemma get_orders_file (w : world num) (accessKey : option string)
  (s : state num) :
  exists r, fst (get_orders w accessKey s) = inr r
            /\ excel (snd (get_orders w accessKey s)) = excel s
            /\ outbox (snd (get_orders w accessKey s)) = outbox s
            /\ (r = Json 403 (VObj [("success", VBool false);
                                    ("message", VStr "Access denied.")])
                \/ (r = Json 404 (VObj [("success", VBool false);
                                        ("message", VStr "Excel file not found.")])
                    /\ excel s = Missing)
                \/ (r = Download excelPath "orders.xlsx"
                    /\ excel s <> Missing)).
Proof.
  unfold get_orders.
  destruct (negb (env_truthy accessKey) || _).
  - eexists. simpl. repeat split. auto.
  - unfold try_catch, bind, await, fs_access, ret, console_log. simpl.
    destruct (excel s) eqn:Hx; simpl; eexists; repeat split;
      try assumption;
      [ right; left; split; reflexivity
      | right; right; split; [reflexivity|discriminate] .. ].
Qed.

Lemma get_perfumes_file (w : world num) (s : state num) :
  snd (get_perfumes w s) = later s.
Proof.
  unfold get_perfumes, try_catch, bind, await, lift, ret.
  destruct (perfumes_json w); reflexivity.
Qed.

(** X1.  The order route always answers, with JSON of status 200, 400, 404
    or 500 whose [success] flag tells a 200 from the rest; nothing it
    throws on the way escapes the handler. *)
Theorem order_perfume_always_answers (w : world num) (body : object num)
  (s : state num) :
  exists n b s',
    order_perfume w body s = (inr (Json n b), s')
    /\ (n = 200 \/ n = 400 \/ n = 404 \/ n = 500)
    /\ field b "success" = VBool (Nat.eqb n 200)
    /\ instant s <= instant s'.
Proof.
  destruct (order_perfume w body s) as [r s'] eqn:Hrun.
  destruct (order_perfume_outcomes _ _ _ Hrun)
    as [(_ & -> & ->)|[(_ & -> & ->)|[(_ & e & n & -> & -> & Hn)
       |[(_ & wb & e & _ & _ & -> & ->)
        |[(wb & od & e & _ & _ & -> & ->)
         |(wb & od & who & _ & _ & -> & Hs)]]]]].
  - exists 400. do 2 eexists. split; [reflexivity|]. simpl. repeat split; auto; lia.
  - exists 404. do 2 eexists. split; [reflexivity|]. simpl. repeat split; auto; lia.
  - exists 500. do 2 eexists. split; [reflexivity|]. simpl.
    repeat split; auto; lia.
  - exists 500. do 2 eexists. split; [reflexivity|]. simpl.
    repeat split; auto; lia.
  - exists 500. do 2 eexists. split; [reflexivity|]. simpl.
    repeat split; auto; lia.
  - exists 200. do 2 eexists. split; [reflexivity|]. simpl.
    apply completed_instant in Hs. repeat split; auto; lia.
Qed.

(** What one request does to the store file. *)
Lemma handle_file (r : request) (s : state num) :
  excel (handle r s) = excel s
  \/ (interrupts r = true /\ excel (handle r s) = Unparseable)
  \/ (is_order r = true
      /\ exists w body wb orderData,
           accepted w body s wb orderData
           /\ excel (handle r s) = written wb orderData).
Proof.
  destruct r as [w body|w key|w]; simpl.
  - destruct (order_perfume_file w body s)
      as [E|[(Hi & E)|(wb & od & Hacc & E)]]; auto.
    right. right. split; [reflexivity|]. exists w, body, wb, od. auto.
  - destruct (get_orders_file w key s) as (r & _ & -> & _). auto.
  - rewrite get_perfumes_file. auto.
Qed.

(** A store file that cannot be parsed stays as it is: no route repairs
    it. *)
Lemma serve_unparseable (requests : list request) (s : state num) :
  excel s = Unparseable -> excel (serve requests s) = Unparseable.
Proof.
  revert s. unfold serve.
  induction requests as [|r rest IH]; intros s Hx; simpl; [exact Hx|].
  apply IH.
  destruct (handle_file r s)
    as [E|[(_ & E)|(_ & w & body & wb & od & (_ & Hx' & _) & _)]];
    [congruence|exact E|congruence].
Qed.

(** A property of the store file that every request keeps, unless its
    write is interrupted, holds after any run of requests, unless a write
    was interrupted and has left the file unparseable. *)
Lemma serve_keeps (Q : file num -> Prop) :
  (forall r s, Q (excel s) ->
               Q (excel (handle r s))
               \/ (interrupts r = true /\ excel (handle r s) = Unparseable)) ->
  forall requests s,
    Q (excel s) ->
    Q (excel (serve requests s))
    \/ (existsb interrupts requests = true
        /\ excel (serve requests s) = Unparseable).
Proof.
  intros Hstep requests. unfold serve.
  induction requests as [|r rest IH]; intros s HQ; simpl; [auto|].
  destruct (Hstep r s HQ) as [HQ'|(Hi & Hx)].
  - destruct (IH _ HQ') as [Hend|(Hi & Hx)]; [auto|].
    right. split; [|exact Hx]. rewrite Hi. apply orb_true_r.
  - right. rewrite Hi. split; [reflexivity|].
    exact (serve_unparseable rest _ Hx).
Qed.

(** X2.  Served one after the other, requests only ever append to the
    order log, as long as no write is interrupted: the rows that were there
    stay, in their order, and each order request adds at most one row of
    seven cells after them.  The one exception is a write that is
    interrupted: it leaves a file that cannot be parsed, the rows are lost,
    and no later request brings them back. *)
Theorem order_log_is_append_only (requests : list request) (s : state num) :
  (exists added,
      stored_rows (excel (serve requests s)) = stored_rows (excel s) ++ added
      /\ length added <= length (filter is_order requests)
      /\ Forall (fun row => length row = 7) added)
  \/ (existsb interrupts requests = true
      /\ excel (serve requests s) = Unparseable).
Proof.
  revert s. induction requests as [|r rest IH]; intros s.
  - left. exists []. simpl. rewrite app_nil_r. auto.
  - unfold serve in *. simpl fold_left. simpl existsb.
    destruct (handle_file r s)
      as [E|[(Hi & E)|(Hord & w & body & wb & od & Hacc & E)]].
    + destruct (IH (handle r s)) as [(added & Hrows & Hlen & Hseven)|(Hi & Hx)].
      * left. exists added. rewrite Hrows, E. repeat split; auto.
        simpl. destruct (is_order r); simpl; lia.
      * right. rewrite Hi. split; [apply orb_true_r|exact Hx].
    + right. rewrite Hi. split; [reflexivity|].
      exact (serve_unparseable rest _ E).
    + destruct (IH (handle r s)) as [(added & Hrows & Hlen & Hseven)|(Hi & Hx)].
      * left. exists (row_of od :: added).
        rewrite Hrows, E, (accepted_rows Hacc), <- app_assoc.
        repeat split; auto.
        simpl. rewrite Hord. simpl. lia.
      * right. rewrite Hi. split; [apply orb_true_r|exact Hx].
Qed.

(** X3.  No request touches a worksheet other than "Orders": whatever
    else the store file holds is written back as it was read, unless a
    write is interrupted, which loses the whole file. *)
Theorem other_sheets_are_left_alone (requests : list request) (s : state num)
  (name : string) :
  name <> "Orders" ->
  sheet_in (excel (serve requests s)) name = sheet_in (excel s) name
  \/ (existsb interrupts requests = true
      /\ excel (serve requests s) = Unparseable).
Proof.
  intros Hne.
  apply (serve_keeps (fun f => sheet_in f name = sheet_in (excel s) name));
    [|reflexivity].
  intros r t Ht.
  destruct (handle_file r t)
    as [E|[(Hi & E)|(_ & w & body & wb & od
                     & (_ & Hx & _ & (wb' & Hrec) & _) & E)]].
  - left. now rewrite E.
  - right. auto.
  - left. rewrite E, (@written_other name wb wb' od Hne Hrec), <- Ht, Hx.
    reflexivity.
Qed.

(** X4.  The schema is an invariant of the running server: once the
    "Orders" sheet carries the seven canonical headers, it carries them
    after any run of requests, unless a write is interrupted, which loses
    the whole file. *)
Theorem canonical_headers_are_kept (requests : list request) (s : state num) :
  stored_headers (excel s) = Some canonical_headers ->
  stored_headers (excel (serve requests s)) = Some canonical_headers
  \/ (existsb interrupts requests = true
      /\ excel (serve requests s) = Unparseable).
Proof.
  apply (serve_keeps (fun f => stored_headers f = Some canonical_headers)).
  intros r t Hc.
  destruct (handle_file r t)
    as [E|[(Hi & E)|(_ & w & body & wb & od & Hacc & E)]].
  - left. now rewrite E.
  - right. auto.
  - left. rewrite E, (accepted_headers Hacc).
    unfold stored_headers, stored_columns in *.
    destruct (orders_sheet (excel t)) as [sheet|]; simpl in *; [|discriminate].
    inversion Hc as [Hh]. unfold headers in Hh.
    destruct (Nat.eqb (length (columns sheet)) 7); [now rewrite Hh|reflexivity].
Qed.

Lemma written_seven (wb wb' : workbook num) (orderData : object num) :
  reconcile wb = inr wb' ->
  exists cols, stored_columns (written wb orderData) = Some cols
               /\ length cols = 7.
Proof.
  intros Hrec. unfold stored_columns.
  rewrite (@written_sheet _ _ wb wb' orderData Hrec),
    (@reconcile_sheet _ wb wb' Hrec). simpl.
  destruct (getWorksheet "Orders" wb) as [sheet|]; simpl; [|eauto].
  destruct (Nat.eqb (length (columns sheet)) 7) eqn:E; simpl; [|eauto].
  apply Nat.eqb_eq in E. eauto.
Qed.

(** X5.  The number of columns is repaired: after an order answered 200
    the "Orders" sheet has exactly seven columns, whatever number it had,
    and any later run of requests keeps it at seven, unless a write is
    interrupted, which loses the whole file. *)
Theorem seven_columns_after_append (w : world num) (body : object num)
  (s s' : state num) (b : value num) (requests : list request) :
  order_perfume w body s = (inr (Json 200 b), s') ->
  (exists cols, stored_columns (excel s') = Some cols /\ length cols = 7)
  /\ ((exists cols', stored_columns (excel (serve requests s')) = Some cols'
                     /\ length cols' = 7)
      \/ (existsb interrupts requests = true
          /\ excel (serve requests s') = Unparseable)).
Proof.
  intros Hrun.
  destruct (order_perfume_200 _ _ _ Hrun)
    as (wb & od & who & (_ & _ & _ & (wb' & Hrec) & _) & _ & _ & Hx' & _).
  assert (Hseven : exists cols, stored_columns (excel s') = Some cols
                                /\ length cols = 7).
  { rewrite Hx'. exact (@written_seven wb wb' od Hrec). }
  split; [exact Hseven|].
  apply (serve_keeps (fun f => exists cols, stored_columns f = Some cols
                                            /\ length cols = 7));
    [|exact Hseven].
  intros r t Ht.
  destruct (handle_file r t)
    as [E|[(Hi & E)|(_ & w1 & body1 & wb1 & od1
                     & (_ & _ & _ & (wb1' & Hrec1) & _) & E)]].
  - left. now rewrite E.
  - right. auto.
  - left. rewrite E. exact (@written_seven wb1 wb1' od1 Hrec1).
Qed.

End OrderRoute.

(** ** When something fails on the way *)

Section Failures.

Context {num : Type} `{JsNumber num}.

Ltac run :=
  unfold try_catch, bind, lift, ret, throw, await, new_Date, fs_access,
    xlsx_readFile, xlsx_writeFile, console_log; simpl.

(** X6.  When [perfumes.json] cannot be read or parsed, a valid request
    is answered 500 with the message of that error as [error]; when it
    holds something that is not an array, the answer is 500 with the
    message of the TypeError that [perfumes.find] raises: for [null] that
    the property cannot be read, for a number, a string, a boolean or an
    object that it is not a function.  The store file and the outbox are
    as they were and the error is in the log. *)
Theorem unreadable_catalog_is_500 (w : world num) (body : object num)
  (s : state num) :
  valid body = true ->
  (forall e, perfumes_json w = inl e ->
             order_perfume w body s = (inr (error_answer e), failed e 1 s))
  /\ (forall c, perfumes_json w = inr c ->
                (forall entries, c <> VArr entries) ->
                exists e,
                  order_perfume w body s
                  = (inr (error_answer e), failed e 1 s)
                  /\ message e
                     = match c with
                       | VNull =>
                           "Cannot read properties of null (reading 'find')"
                       | VUndefined =>
                           "Cannot read properties of undefined (reading 'find')"
                       | _ => "perfumes.find is not a function"
                       end).
Proof.
  intros Hv. split.
  - intros e Hp. unfold order_perfume. rewrite guard_is_not_valid, Hv. run.
    rewrite Hp. reflexivity.
  - intros c Hp Hc. unfold order_perfume. rewrite guard_is_not_valid, Hv. run.
    rewrite Hp. simpl.
    destruct c as [| |b|n|t|entries|props];
      try (eexists; split; reflexivity).
    exfalso. now apply (Hc entries).
Qed.

(** X7.  The order route does not repair a store file that is missing or
    cannot be parsed: a valid request for a perfume of the catalog is
    answered 500, and the file is left as it is found. *)
Theorem unreadable_store_is_500 (w : world num) (body : object num)
  (s : state num) (perfumes selectedPerfume : value num) :
  valid body = true ->
  perfumes_json w = inr perfumes ->
  find perfumes (same_id (prop "perfumeId" body)) = inr selectedPerfume ->
  truthy selectedPerfume = true ->
  excel s = Missing \/ excel s = Unparseable ->
  exists e,
    order_perfume w body s = (inr (error_answer e), failed e 2 s)
    /\ excel (failed e 2 s) = excel s
    /\ outbox (failed e 2 s) = outbox s.
Proof.
  intros Hv Hp Hf Ht Hx.
  unfold order_perfume. rewrite guard_is_not_valid, Hv. run.
  rewrite Hp; simpl. rewrite Hf; simpl. rewrite Ht; simpl.
  destruct Hx as [Hx|Hx]; rewrite Hx; simpl;
    [ exists (Failure "File not found: orders.xlsx")
    | exists (Failure "Can't find end of central directory") ];
    (split; [|split; reflexivity]); unfold failed, error_answer; simpl;
    rewrite Hx; reflexivity.
Qed.

(** X8.  A write that fails is a failed order: a request that would have
    been stored, had the disk taken the write, is answered 500 with the
    message of the disk's error; no mail is sent and the error is the only
    new line of the log.  When the write was refused before the file was
    opened, the store file is as it was and no row is added; when the write
    was interrupted, the store file is left unparseable and the rows it
    held are lost. *)
Theorem failed_write_is_500 (w : world num) (body : object num)
  (s : state num) (wb : workbook num) (orderData : object num)
  (f : write_error) :
  accepted (with_disk None w) body s wb orderData ->
  exists s',
    order_perfume (with_disk (Some f) w) body s
    = (inr (error_answer (write_exn f)), s')
    /\ outbox s' = outbox s
    /\ console s' = console s ++ [SaveError (write_exn f)]
    /\ (forall e, f = Refused e -> excel s' = excel s)
    /\ (forall e, f = Interrupted e ->
                  excel s' = Unparseable /\ stored_rows (excel s') = []).
Proof.
  intros (Hv & Hx & _ & (wb' & Hrec) & perfumes & sel & pid & pname & qty
          & Hp & Hf & Hs & Hpid & Hn & Hq & _).
  simpl in Hp.
  assert (Hrun : order_perfume (with_disk (Some f) w) body s
                 = (inr (error_answer (write_exn f)),
                    match f with
                    | Refused e => failed e 3 s
                    | Interrupted e => interrupted e s
                    end)).
  { unfold order_perfume. rewrite guard_is_not_valid, Hv. run.
    rewrite Hp; simpl. rewrite Hf; simpl. rewrite Hs; simpl.
    rewrite Hx; simpl. rewrite Hrec; simpl.
    rewrite Hpid; simpl. rewrite Hn; simpl.
    rewrite Hq; simpl. unfold failed, interrupted, error_answer.
    destruct f as [e|e]; simpl; [now rewrite Hx|reflexivity]. }
  eexists. split; [exact Hrun|].
  destruct f as [e|e]; simpl; repeat split; try discriminate.
  all: intros e' E; inversion E; reflexivity.
Qed.

End Failures.

(** ** What a stored order leaves behind *)

Section Stored.

Context {num : Type} `{JsNumber num}.

(** The paragraphs of a notification follow the order data entry by
    entry. *)
Lemma email_entries_follow (orderData : object num)
  (es : list (string * string)) :
  email_entries orderData = inr es ->
  Forall2 (fun kv kt =>
             fst kt = fst kv
             /\ template (js_or (snd kv) (VStr "N/A")) = inr (snd kt))
          orderData es.
Proof.
  revert es. induction orderData as [|[k v] rest IH]; simpl; intros es Hes.
  - inversion Hes. constructor.
  - destruct (template (js_or v (VStr "N/A"))) as [e|t] eqn:Ht; simpl in Hes;
      [discriminate|].
    destruct (email_entries rest) as [e|es'] eqn:Hrest; simpl in Hes;
      [discriminate|].
    inversion Hes; subst. constructor; auto.
Qed.

Lemma Forall2_keys (orderData : object num) (es : list (string * string))
  (P : value num -> string -> Prop) :
  Forall2 (fun kv kt => fst kt = fst kv /\ P (snd kv) (snd kt)) orderData es ->
  map fst es = map fst orderData.
Proof.
  induction 1 as [|kv kt l l' [Hk _] _ IH]; simpl; [reflexivity|].
  now rewrite Hk, IH.
Qed.

Lemma accepted_keys (w : world num) (body : object num) (s : state num)
  (wb : workbook num) (orderData : object num) :
  accepted w body s wb orderData ->
  map fst orderData = map key fixedColumns.
Proof.
  intros (_ & _ & _ & _ & ? & ? & ? & ? & ? & _ & _ & _ & _ & _ & _ & ->).
  reflexivity.
Qed.

(** X9.  A request sends at most one mail, and only for an order it has
    stored and answered 200; without both mail credentials it sends none.
    The mail goes from and to [EMAIL_USER] and lists the seven fields of
    the order in the order of the columns, each printed as its value, or as
    "N/A" when the value is falsy. *)
Theorem one_mail_for_a_stored_order (w : world num) (body : object num)
  (s : state num) :
  (transporter w = false ->
   outbox (snd (order_perfume w body s)) = outbox s)
  /\ (outbox (snd (order_perfume w body s)) = outbox s
      \/ exists orderData es,
           fst (order_perfume w body s) = inr (Json 200 (saved orderData))
           /\ transporter w = true /\ smtp w = None
           /\ outbox (snd (order_perfume w body s))
              = outbox s ++ [Email (EMAIL_USER w) (EMAIL_USER w) es]
           /\ map fst es = map key fixedColumns
           /\ Forall2 (fun kv kt =>
                         fst kt = fst kv
                         /\ template (js_or (snd kv) (VStr "N/A"))
                            = inr (snd kt))
                      orderData es).
Proof.
  destruct (order_perfume w body s) as [r s'] eqn:Hrun. simpl.
  destruct (order_perfume_outcomes _ _ _ Hrun)
    as [(_ & _ & ->)|[(_ & _ & ->)|[(_ & e & n & _ & -> & _)
       |[(_ & wb & e & _ & _ & _ & ->)
        |[(wb & od & e & _ & _ & _ & ->)
         |(wb & od & who & Hacc & _ & -> & ->)]]]]];
    auto.
  destruct (transporter w); [|auto].
  split; [discriminate|].
  unfold notified.
  destruct (email_entries od) as [e|es] eqn:Hes; [auto|].
  destruct (smtp w) as [e|] eqn:Hsmtp; [auto|].
  right. exists od, es.
  pose proof (email_entries_follow _ Hes) as Hfollow.
  repeat split; auto.
  rewrite (Forall2_keys
             (fun v t => template (js_or v (VStr "N/A")) = inr t) Hfollow).
  exact (accepted_keys Hacc).
Qed.

(** X10.  What is stored is what was sent, printed: in the answer to a
    stored order [perfumeId] and [quantity] are the strings that
    [toString()] makes of the request's values, [name], [phone] and
    [deliveryAddress] are the request's values as they came, and [date] is
    the stamp of the request. *)
Theorem stored_order_is_stringified (w : world num) (body : object num)
  (s s' : state num) (b : value num) :
  order_perfume w body s = (inr (Json 200 b), s') ->
  exists perfumeId' quantity',
    toString (prop "perfumeId" body) = inr perfumeId'
    /\ toString (prop "quantity" body) = inr quantity'
    /\ field (field b "data") "perfumeId" = VStr perfumeId'
    /\ field (field b "data") "quantity" = VStr quantity'
    /\ field (field b "data") "name" = prop "name" body
    /\ field (field b "data") "phone" = prop "phone" body
    /\ field (field b "data") "deliveryAddress" = prop "deliveryAddress" body
    /\ field (field b "data") "date" = VStr (stamp w s).
Proof.
  intros Hrun.
  destruct (order_perfume_200 _ _ _ Hrun)
    as (wb & od & who & (_ & _ & _ & _ & perfumes & sel & pid & pname & qty
                         & _ & _ & _ & Hpid & _ & Hq & ->) & -> & _).
  exists pid, qty. repeat split; auto.
Qed.

(** What the initializer leaves, whichever way it ends. *)
Lemma initializeExcel_outcomes (w : world num) (s : state num) :
  (exists wb sheet,
      excel s = Xlsx wb /\ getWorksheet "Orders" wb = Some sheet
      /\ initializeExcel w s
         = (inr tt, State (excel s) (console s ++ [ExcelValid]) (outbox s)
                          (2 + instant s)))
  \/ (orders_sheet (excel s) = None
      /\ exists n,
           initializeExcel w s
           = match disk w with
             | Some (Refused e) =>
                 (inl e, State (excel s) (console s) (outbox s) n)
             | Some (Interrupted e) =>
                 (inl e, State Unparseable (console s) (outbox s) n)
             | None =>
                 (inr tt, State (Xlsx fresh_workbook)
                                (console s ++ [ExcelCreated]) (outbox s) n)
             end).
Proof.
  destruct (excel s) as [| |wb] eqn:Hx.
  - right. split; [reflexivity|]. eexists.
    rewrite initializeExcel_repair by auto. rewrite Hx. reflexivity.
  - right. split; [reflexivity|]. eexists.
    rewrite initializeExcel_repair by auto. rewrite Hx. reflexivity.
  - destruct (getWorksheet "Orders" wb) as [sheet|] eqn:Hs.
    + left. exists wb, sheet.
      split; [reflexivity|]. split; [exact Hs|].
      rewrite (initializeExcel_valid w s Hx Hs). now rewrite Hx.
    + right. split; [exact Hs|]. eexists.
      rewrite initializeExcel_repair by eauto. rewrite Hx. reflexivity.
Qed.

(** X11.  When the initializer returns, the store file holds a workbook
    with an "Orders" sheet; it throws only when the file had to be
    recreated and the write failed.  Then the file is as it was when the
    write was refused before the file was opened, and it is left
    unparseable when the write was interrupted. *)
Theorem initializeExcel_leaves_a_store (w : world num) (s s' : state num)
  (r : result unit) :
  initializeExcel w s = (r, s') ->
  (r = inr tt /\ exists sheet, orders_sheet (excel s') = Some sheet)
  \/ (exists f, r = inl (write_exn f) /\ disk w = Some f
                /\ orders_sheet (excel s) = None
                /\ (forall e, f = Refused e -> excel s' = excel s)
                /\ (forall e, f = Interrupted e -> excel s' = Unparseable)).
Proof.
  intros Hrun.
  destruct (initializeExcel_outcomes w s)
    as [(wb & sheet & Hx & Hs & E)|(Hnone & n & E)]; rewrite E in Hrun.
  - inversion Hrun; subst. left. split; [reflexivity|]. exists sheet.
    simpl. now rewrite Hx.
  - destruct (disk w) as [[e|e]|]; inversion Hrun; subst.
    + right. exists (Refused e). repeat split; auto; discriminate.
    + right. exists (Interrupted e). repeat split; auto; discriminate.
    + left. split; [reflexivity|]. eexists. reflexivity.
Qed.

(** X12.  Start-up and first order: when the initializer had to recreate
    the store, the first order that is answered 200 leaves a workbook of
    one sheet, "Orders", with the seven fixed columns and that order's row
    as its only row. *)
Theorem first_order_after_recreation (w0 w : world num) (body : object num)
  (s0 s1 s2 : state num) (b : value num) :
  orders_sheet (excel s0) = None ->
  initializeExcel w0 s0 = (inr tt, s1) ->
  order_perfume w body s1 = (inr (Json 200 b), s2) ->
  exists orderData,
    b = saved orderData
    /\ excel s2 = Xlsx [Worksheet "Orders" fixedColumns [row_of orderData]].
Proof.
  intros Hnone Hinit Hrun.
  destruct (initializeExcel_outcomes w0 s0)
    as [(wb & sheet & Hx & Hs & _)|(_ & n & E)].
  { unfold orders_sheet in Hnone. rewrite Hx, Hs in Hnone. discriminate. }
  rewrite E in Hinit. destruct (disk w0) as [[e|e]|]; inversion Hinit; subst.
  destruct (order_perfume_200 _ _ _ Hrun)
    as (wb & od & who & (_ & Hx & _) & -> & _ & Hx' & _).
  simpl in Hx. inversion Hx; subst wb.
  exists od. split; [reflexivity|]. rewrite Hx'. reflexivity.
Qed.

End Stored.

(** ** The catalog seen from both routes *)

Section Catalog.

Context {num : Type} `{JsNumber num}.

Lemma get_perfumes_run (w : world num) (s : state num) :
  get_perfumes w s
  = (inr match perfumes_json w with
         | inr perfumes =>
             (Json 200 (VObj [("success", VBool true); ("data", perfumes)]),
              None)
         | inl error =>
             (Json 500 (VObj [("success", VBool false);
                              ("message", VStr "Error reading perfumes.json")]),
              Some error)
         end,
     later s).
Proof.
  unfold get_perfumes, try_catch, bind, await, lift, ret.
  destruct (perfumes_json w); reflexivity.
Qed.

Lemma array_find_first (f : value num -> result bool)
  (before after : list (value num)) (p : value num) :
  Forall (fun q => f q = inr false) before -> f p = inr true ->
  array_find f (before ++ p :: after) = inr p.
Proof.
  intros Hbefore Hp. induction Hbefore as [|q rest Hq _ IH]; simpl.
  - now rewrite Hp.
  - now rewrite Hq.
Qed.

(** An entry on which the callback of [find] says yes is an object. *)
Lemma same_id_truthy (perfumeId p : value num) :
  same_id perfumeId p = inr true -> truthy p = true.
Proof.
  unfold same_id, member.
  destruct p; simpl; try discriminate; reflexivity.
Qed.

(** When the callback says yes or throws on an element of the array, the
    search does not come back empty-handed. *)
Lemma array_find_reaches (f : value num -> result bool)
  (l : list (value num)) (p : value num) :
  In p l -> f p = inr true \/ (exists e, f p = inl e) ->
  (exists e, array_find f l = inl e)
  \/ (exists q, array_find f l = inr q /\ f q = inr true).
Proof.
  intros Hin Hp. induction l as [|x rest IH]; simpl; [contradiction|].
  destruct (f x) as [e|[|]] eqn:Hx; [eauto|eauto|].
  destruct Hin as [->|Hin]; [|auto].
  destruct Hp as [Hp|(e & Hp)]; congruence.
Qed.

(** X13.  What [GET /perfumes] lists is never answered "not found" when
    it is ordered by its id as listed, unless that id is falsy.  A request
    that carries the id of a listed entry as [perfumeId] and four truthy
    other fields is answered neither 404 nor 400 when the id is truthy;
    when the id is falsy ([0], [""], [null], [false]) the same request is
    answered 400: such a perfume is listed but cannot be ordered. *)
Theorem listed_perfume_can_be_ordered (w : world num) (body : object num)
  (s s0 : state num) (entries : list (value num)) (props : object num) :
  fst (get_perfumes w s0)
  = inr (Json 200 (VObj [("success", VBool true); ("data", VArr entries)]),
         None) ->
  In (VObj props) entries ->
  prop "perfumeId" body = prop "id" props ->
  truthy (prop "name" body) = true ->
  truthy (prop "phone" body) = true ->
  truthy (prop "quantity" body) = true ->
  truthy (prop "deliveryAddress" body) = true ->
  (truthy (prop "id" props) = true ->
   forall b, fst (order_perfume w body s) <> inr (Json 404 b)
             /\ fst (order_perfume w body s) <> inr (Json 400 b))
  /\ (truthy (prop "id" props) = false ->
      order_perfume w body s
      = (inr (Json 400 (VObj [("success", VBool false);
                              ("message", VStr "All fields are required.")])),
         s)).
Proof.
  intros Hlist Hin Hid Hname Hphone Hqty Haddr.
  rewrite get_perfumes_run in Hlist. simpl in Hlist.
  destruct (perfumes_json w) as [e|c] eqn:Hp; [discriminate|].
  inversion Hlist; subst c. clear Hlist.
  split.
  - intros Htruthy b.
    assert (Hv : valid body = true).
    { apply valid_iff. intros k Hk. simpl in Hk.
      destruct Hk as [<-|[<-|[<-|[<-|[<-|[]]]]]]; auto. now rewrite Hid. }
    destruct (order_perfume w body s) as [r s'] eqn:Hrun. simpl.
    split; intros ->.
    + destruct (order_perfume_404 _ _ _ Hrun) as (c & sel & Hc & Hf & Ht).
      rewrite Hp in Hc. inversion Hc; subst c. simpl in Hf.
      set (f := same_id (prop "perfumeId" body)) in *.
      assert (Hself : f (VObj props) = inr true
                      \/ exists e, f (VObj props) = inl e).
      { unfold f, same_id. simpl. rewrite <- Hid.
        destruct (toString (prop "perfumeId" body)) as [e|a]; simpl;
          [eauto|].
        left. now rewrite String.eqb_refl. }
      destruct (array_find_reaches f _ _ Hin Hself)
        as [(e & He)|(q & Hq & Hfq)]; [congruence|].
      rewrite Hq in Hf. inversion Hf; subst sel.
      rewrite (same_id_truthy _ _ Hfq) in Ht. discriminate.
    + pose proof (order_perfume_400 _ _ _ Hrun). congruence.
  - intros Hfalsy. apply order_perfume_invalid. apply invalid_iff.
    exists "perfumeId". split; [simpl; auto|]. now rewrite Hid.
Qed.

(** X14.  When several entries of the catalog have the requested id, the
    stored order carries the name of the first of them. *)
Theorem first_listed_match_names_the_order (w : world num)
  (body : object num) (s s' : state num) (b : value num)
  (before after : list (value num)) (p : value num) :
  perfumes_json w = inr (VArr (before ++ p :: after)) ->
  Forall (fun q => same_id (prop "perfumeId" body) q = inr false) before ->
  same_id (prop "perfumeId" body) p = inr true ->
  order_perfume w body s = (inr (Json 200 b), s') ->
  member p "name" = inr (field (field b "data") "perfumeName").
Proof.
  intros Hp Hbefore Hmatch Hrun.
  destruct (order_perfume_200 _ _ _ Hrun)
    as (wb & od & who & (_ & _ & _ & _ & perfumes & sel & pid & pname & qty
                         & Hp' & Hf & _ & _ & Hn & _ & ->) & -> & _).
  rewrite Hp in Hp'. inversion Hp'; subst perfumes. simpl in Hf.
  rewrite (array_find_first _ after p Hbefore Hmatch) in Hf.
  inversion Hf; subst sel. exact Hn.
Qed.

(** X15.  The column check of the order handler, when it goes through,
    leaves an "Orders" sheet of exactly seven columns with the rows the
    sheet had, and a second pass changes nothing.  It throws in two cases
    only: on an "Orders" sheet without column definitions, and on a
    workbook that has no sheet "Orders" but one whose name differs from it
    in case only. *)
Theorem reconcile_idempotent (wb : workbook num) :
  (forall wb',
      reconcile wb = inr wb' ->
      reconcile wb' = inr wb'
      /\ exists sheet,
           getWorksheet "Orders" wb' = Some sheet
           /\ length (columns sheet) = 7
           /\ rows sheet = stored_rows (Xlsx wb))
  /\ ((exists e, reconcile wb = inl e)
      <-> (exists sheet, getWorksheet "Orders" wb = Some sheet
                         /\ columns sheet = [])
          \/ (getWorksheet "Orders" wb = None
              /\ exists sheet, In sheet wb
                               /\ toLowerCase (sheet_name sheet) = "orders")).
Proof.
  split.
  - intros wb' Hrec.
    assert (Hsheet : exists sheet,
               getWorksheet "Orders" wb' = Some sheet
               /\ length (columns sheet) = 7
               /\ rows sheet = stored_rows (Xlsx wb)).
    { rewrite (@reconcile_sheet _ wb wb' Hrec). eexists.
      split; [reflexivity|].
      unfold stored_rows, orders_sheet.
      destruct (getWorksheet "Orders" wb) as [sheet|]; [|auto].
      destruct (Nat.eqb (length (columns sheet)) 7) eqn:E; [|auto].
      apply Nat.eqb_eq in E. auto. }
    split; [|exact Hsheet].
    destruct Hsheet as (sheet & Hs & Hlen & _).
    unfold reconcile. rewrite Hs. unfold sheet_columns.
    destruct (columns sheet) as [|c cols]; [discriminate|].
    now rewrite Hlen.
  - unfold reconcile.
    destruct (getWorksheet "Orders" wb) as [sheet|] eqn:Hs.
    + unfold sheet_columns. destruct (columns sheet) as [|c cols] eqn:Hc.
      * split; [|eauto]. intros _. left. eauto.
      * split.
        -- intros (e & He). destruct (_ || _); discriminate.
        -- intros [(sh & Hsh & Hnil)|(Hnone & _)]; [|discriminate].
           inversion Hsh; subst sh. congruence.
    + unfold addWorksheet.
      destruct (existsb _ wb) eqn:Hex; simpl.
      * split; [|eauto]. intros _. right. split; [reflexivity|].
        apply existsb_exists in Hex. destruct Hex as (sh & Hin & Hname).
        exists sh. split; [exact Hin|]. now apply String.eqb_eq in Hname.
      * split; [intros (e & He); discriminate|].
        intros [(sh & Hsh & _)|(_ & sh & Hin & Hname)]; [discriminate|].
        assert (Hyes : existsb (fun s0 : worksheet num =>
                                  String.eqb (toLowerCase (sheet_name s0))
                                             (toLowerCase "Orders")) wb
                       = true).
        { apply existsb_exists. exists sh. split; [exact Hin|].
          rewrite Hname. reflexivity. }
        congruence.
Qed.

(** X16.  The handler does not look for an order it has already stored:
    the same request, sent again and stored again, adds a second row that
    agrees with the first in every cell but the date. *)
Theorem repeated_order_is_stored_again (w1 w2 : world num)
  (body : object num) (s s1 s2 : state num) (b1 b2 : value num) :
  perfumes_json w1 = perfumes_json w2 ->
  order_perfume w1 body s = (inr (Json 200 b1), s1) ->
  order_perfume w2 body s1 = (inr (Json 200 b2), s2) ->
  exists row1 row2,
    stored_rows (excel s2) = stored_rows (excel s) ++ [row1; row2]
    /\ length row1 = 7 /\ length row2 = 7
    /\ firstn 6 row1 = firstn 6 row2.
Proof.
  intros Hsame Hrun1 Hrun2.
  destruct (order_perfume_200 _ _ _ Hrun1)
    as (wb1 & od1 & who1 & Hacc1 & _ & _ & Hx1' & _).
  destruct (order_perfume_200 _ _ _ Hrun2)
    as (wb2 & od2 & who2 & Hacc2 & _ & _ & Hx2' & _).
  pose proof (accepted_rows Hacc1) as Hrows1.
  pose proof (accepted_rows Hacc2) as Hrows2.
  destruct Hacc1 as (_ & Hx1 & _ & Hrec1 & c1 & sel1 & pid1 & pname1 & qty1
                     & Hp1 & Hf1 & _ & Hpid1 & Hn1 & Hq1 & ->).
  destruct Hacc2 as (_ & Hx2 & _ & Hrec2 & c2 & sel2 & pid2 & pname2 & qty2
                     & Hp2 & Hf2 & _ & Hpid2 & Hn2 & Hq2 & ->).
  rewrite <- Hx1' in Hrows1. rewrite <- Hx2' in Hrows2.
  rewrite Hsame, Hp2 in Hp1. inversion Hp1; subst c1.
  rewrite Hf2 in Hf1. inversion Hf1; subst sel1.
  rewrite Hpid2 in Hpid1. inversion Hpid1; subst pid1.
  rewrite Hn2 in Hn1. inversion Hn1; subst pname1.
  rewrite Hq2 in Hq1. inversion Hq1; subst qty1.
  exists (row_of (order_data w1 s body pid2 pname2 qty2)),
         (row_of (order_data w2 s1 body pid2 pname2 qty2)).
  split.
  { rewrite Hrows2, Hrows1, <- app_assoc. reflexivity. }
  rewrite !row_of_order_data. repeat split.
Qed.

(** X17.  The routes that read change nothing: [GET /orders], whatever
    key it is given, and [GET /perfumes] always answer and leave the store
    file and the outbox as they were, and so does the callback of the
    download, which answers 500 only for a transfer that failed before the
    headers were sent.  The 500 of [GET /perfumes] is the same for every
    error: it carries no detail of it; the error itself only goes to the
    log. *)
Theorem reading_routes_change_nothing (w : world num)
  (accessKey : option string) (err : option exn) (headersSent : bool)
  (s : state num) :
  (exists r, fst (get_orders w accessKey s) = inr r
             /\ excel (snd (get_orders w accessKey s)) = excel s
             /\ outbox (snd (get_orders w accessKey s)) = outbox s)
  /\ (exists r log,
         fst (get_perfumes w s) = inr (r, log)
         /\ excel (snd (get_perfumes w s)) = excel s
         /\ outbox (snd (get_perfumes w s)) = outbox s
         /\ (forall e, perfumes_json w = inl e ->
                       r = Json 500 (VObj [("success", VBool false);
                                           ("message",
                                            VStr "Error reading perfumes.json")])
                       /\ log = Some e))
  /\ (exists answer,
         fst (download_done err headersSent s) = inr answer
         /\ excel (snd (download_done err headersSent s)) = excel s
         /\ outbox (snd (download_done err headersSent s)) = outbox s
         /\ (answer <> None <->
             (exists e, err = Some e) /\ headersSent = false)).
Proof.
  split; [|split].
  - destruct (get_orders_file w accessKey s) as (r & Hr & Hx & Ho & _). eauto.
  - rewrite get_perfumes_run. simpl.
    destruct (perfumes_json w) as [e|c]; do 2 eexists;
      (split; [reflexivity|]); (split; [reflexivity|]);
      (split; [reflexivity|]);
      intros e' He'; inversion He'; split; reflexivity.
  - unfold download_done, bind, console_log, ret.
    destruct err as [e|]; [destruct headersSent|]; simpl; eexists;
      (split; [reflexivity|]); (split; [reflexivity|]);
      (split; [reflexivity|]); split.
    all: try (intros Hn; exfalso; now apply Hn).
    all: try (intros (_ & Hh); discriminate).
    all: try (intros ((e' & He') & _); discriminate).
    all: intros _; split; [eauto|reflexivity].
Qed.

End Catalog.

(** ** Facts about the page *)

Section PageFacts.

Context {num : Type} `{JsArith num}.

Lemma only_display_refl (x : session num) : only_display x x.
Proof. repeat split. Qed.

Lemma only_display_trans (x y z : session num) :
  only_display x y -> only_display y z -> only_display x z.
Proof.
  unfold only_display. intros (-> & -> & -> & -> & ->) (-> & -> & -> & -> & ->).
  repeat split.
Qed.

Lemma update_element_display (id : string) (f : element -> element)
  (x : session num) :
  only_display x (snd (update_element id f x)).
Proof.
  unfold update_element.
  destruct (getElementById id (document (tab x))); repeat split.
Qed.

(** Two steps in a row that only touch the display only touch the
    display. *)
Lemma bindP_display {A B : Type} (m : P num A) (f : A -> P num B)
  (x : session num) :
  (forall y, only_display y (snd (m y))) ->
  (forall a y, only_display y (snd (f a y))) ->
  only_display x (snd (bindP m f x)).
Proof.
  intros Hm Hf. unfold bindP. specialize (Hm x).
  destruct (m x) as [[e|a] y]; simpl in *; [exact Hm|].
  eapply only_display_trans; [exact Hm|]. apply Hf.
Qed.

Lemma change_display (f : page num -> page num) (x : session num) :
  (forall p, allProducts (f p) = allProducts p /\ cart (f p) = cart p
             /\ stored_cart (f p) = stored_cart p /\ sent (f p) = sent p) ->
  only_display x (snd (change f x)).
Proof.
  intros Hf. destruct (Hf (tab x)) as (? & ? & ? & ?). repeat split; auto.
Qed.

Lemma liftP_display {A : Type} (r : result A) (x : session num) :
  only_display x (snd (liftP r x)).
Proof. apply only_display_refl. Qed.

Lemma read_display {A : Type} (f : page num -> A) (x : session num) :
  only_display x (snd (read f x)).
Proof. apply only_display_refl. Qed.

Lemma retP_display {A : Type} (a : A) (x : session num) :
  only_display x (snd (retP a x)).
Proof. apply only_display_refl. Qed.

Lemma showSuccessMessage_display (x : session num) :
  only_display x (snd (showSuccessMessage x)).
Proof.
  unfold showSuccessMessage.
  apply bindP_display; [apply update_element_display|intros _ y].
  apply bindP_display; [apply update_element_display|intros _ z].
  apply change_display. intros p. repeat split.
Qed.

Lemma showNotification_display (text : string) (x : session num) :
  only_display x (snd (showNotification text x)).
Proof.
  unfold showNotification.
  apply bindP_display; intros; apply change_display; intros p; repeat split.
Qed.

Lemma updateCartCount_display (x : session num) :
  only_display x (snd (updateCartCount x)).
Proof.
  unfold updateCartCount.
  apply bindP_display; [apply read_display|intros [e|] y].
  - apply bindP_display; [apply read_display|intros items z].
    apply bindP_display; [apply liftP_display|intros total u].
    apply update_element_display.
  - apply retP_display.
Qed.

Lemma displayCart_display (x : session num) :
  only_display x (snd (displayCart x)).
Proof.
  unfold displayCart.
  apply bindP_display; [apply read_display|intros [|item rest] y].
  - apply bindP_display; [apply update_element_display|intros _ z].
    apply update_element_display.
  - apply bindP_display; [apply liftP_display|intros lines z].
    apply bindP_display; [apply update_element_display|intros _ u].
    apply bindP_display.
    + intros v. unfold calculateTotal.
      apply bindP_display; [apply read_display|intros items' t].
      apply liftP_display.
    + intros total v.
      apply bindP_display; [apply liftP_display|intros fixed t].
      apply update_element_display.
Qed.

Lemma with_sent_same (p : page num) : with_sent (sent p) p = p.
Proof. destruct p; reflexivity. Qed.

(** What an exchange gives back and what it leaves. *)
Lemma exchange_run (b : browser num)
  (route : world num -> state num -> result (response num) * state num)
  (p : page num) (srv : state num) :
  exchange b route (Session p srv)
  = (match network b (sent p) with
     | inl e => inl e
     | inr w =>
         match fst (route w srv) with
         | inr (Json _ body) => inr (wire body)
         | _ => inl (Failure "Unexpected token in JSON")
         end
     end,
     Session (with_sent (S (sent p)) p)
             match network b (sent p) with
             | inl _ => srv
             | inr w => snd (route w srv)
             end).
Proof.
  unfold exchange. simpl.
  destruct (network b (sent p)) as [e|w]; [reflexivity|].
  destruct (route w srv) as [[e|[n body|path name]] srv']; reflexivity.
Qed.

(** The form's order as the server receives it. *)
Lemma order_of_received (name phone deliveryAddress : string)
  (item : object num) :
  let body := wire_props (order_of name phone deliveryAddress item) in
  prop "name" body = VStr name
  /\ prop "phone" body = VStr phone
  /\ prop "perfumeId" body = wire (prop "id" item)
  /\ prop "quantity" body = wire (prop "quantity" item)
  /\ prop "deliveryAddress" body = VStr deliveryAddress.
Proof.
  unfold order_of.
  destruct (prop "id" item), (prop "quantity" item); repeat split.
Qed.

End PageFacts.

(** ** The checkout and the server *)

Section Checkout.

Context {num : Type} `{JsArith num}.

Variable b : browser num.

(** One order of the form: whatever page sends it, it either comes back
    with the answer of a stored order, whose row is then the last of the
    store, or it throws; then the store file is as it was, unless the
    server's write was interrupted and has left it unparseable. *)
Lemma submitOrder_outcome (name phone deliveryAddress : string)
  (item : object num) (k : nat) (srv : state num) :
  exists r srv',
    (forall p, sent p = k ->
               submitOrder b (order_of name phone deliveryAddress item)
                           (Session p srv)
               = (r, Session (with_sent (S k) p) srv'))
    /\ ((exists result row,
            r = inr result
            /\ stored_rows (excel srv') = stored_rows (excel srv) ++ [row]
            /\ row_for name phone deliveryAddress item row)
        \/ (exists e, r = inl e /\ excel srv' = excel srv)
        \/ (exists e w d, r = inl e /\ excel srv' = Unparseable
                          /\ network b k = inr w
                          /\ disk w = Some (Interrupted d))).
Proof.
  set (od := order_of name phone deliveryAddress item).
  destruct (order_of_received name phone deliveryAddress item)
    as (Hname & Hphone & Hid & Hqty & Haddr). fold od in Hname, Hphone, Hid, Hqty, Haddr.
  assert (Hrun : forall p, sent p = k ->
            submitOrder b od (Session p srv)
            = match network b k with
              | inl e => (inl e, Session (with_sent (S k) p) srv)
              | inr w =>
                  let (r, srv') := order_perfume w (wire_props od) srv in
                  match r with
                  | inr (Json _ body) =>
                      match member (wire body) "success" with
                      | inl e => (inl e, Session (with_sent (S k) p) srv')
                      | inr success =>
                          if negb (truthy success)
                          then
                            match member (wire body) "message" with
                            | inl e =>
                                (inl e, Session (with_sent (S k) p) srv')
                            | inr text =>
                                (inl (new_Error text),
                                 Session (with_sent (S k) p) srv')
                            end
                          else (inr (wire body),
                                Session (with_sent (S k) p) srv')
                      end
                  | _ => (inl (Failure "Unexpected token in JSON"),
                          Session (with_sent (S k) p) srv')
                  end
              end).
  { intros p Hk. unfold submitOrder, bindP. rewrite exchange_run, Hk.
    destruct (network b k) as [e|w]; [reflexivity|].
    destruct (order_perfume w (wire_props od) srv)
      as [[e|[n body|path fname]] srv']; simpl; try reflexivity.
    unfold liftP. destruct (member (wire body) "success") as [e|success];
      [reflexivity|].
    destruct (truthy success); simpl; [reflexivity|].
    unfold throwP. destruct (member (wire body) "message"); reflexivity. }
  destruct (network b k) as [e|w] eqn:Hnet.
  { exists (inl e), srv. split; [exact Hrun|]. right. left. eauto. }
  destruct (order_perfume w (wire_props od) srv) as [r0 srv'] eqn:Hserver.
  destruct (order_perfume_outcomes _ _ _ Hserver)
    as [(_ & -> & ->)|[(_ & -> & ->)|[(_ & e & n & -> & -> & _)
       |[(_ & wb & e & _ & Hd & -> & ->)
        |[(wb & orderData & e & _ & Ht & _ & _)
         |(wb & orderData & who & Hacc & _ & -> & Hs')]]]]].
  - eexists _, srv. split; [intros p Hk; rewrite (Hrun p Hk); reflexivity|].
    right. left. eauto.
  - eexists _, (later srv).
    split; [intros p Hk; rewrite (Hrun p Hk); reflexivity|]. right. left. eauto.
  - eexists _, (failed e n srv).
    split; [intros p Hk; rewrite (Hrun p Hk); reflexivity|]. right. left. eauto.
  - eexists _, (interrupted e srv).
    split; [intros p Hk; rewrite (Hrun p Hk); reflexivity|]. right. right.
    do 3 eexists. split; [reflexivity|]. split; [reflexivity|].
    split; [reflexivity|exact Hd].
  - rewrite Hname in Ht. discriminate.
  - exists (inr (wire (saved orderData))), srv'.
    split; [intros p Hk; rewrite (Hrun p Hk); reflexivity|]. left.
    pose proof (accepted_rows Hacc) as Hrows.
    destruct Hacc as (_ & Hx & _ & _ & perfumes & sel & pid & pname & qty
                      & _ & _ & _ & Hpid & _ & Hq & ->).
    exists (wire (saved (order_data w srv (wire_props od) pid pname qty))),
      (row_of (order_data w srv (wire_props od) pid pname qty)).
    split; [reflexivity|]. split.
    + assert (Hx' : excel srv'
                    = written wb (order_data w srv (wire_props od)
                                             pid pname qty)).
      { rewrite Hs'. destruct (transporter w);
          [apply notified_excel|reflexivity]. }
      rewrite Hx'. exact Hrows.
    + rewrite row_of_order_data, Hname, Hphone, Haddr, !js_or_string.
      rewrite Hid in Hpid. rewrite Hqty in Hq.
      repeat split; assumption.
Qed.

(** The orders of a form, line after line: the rows of the lines that
    came back are in the store, in the order of the cart; the loop ends
    well only when every line has its row, and it stops at the first line
    that throws.  When the write of that line was interrupted, the store
    file is left unparseable. *)
Lemma submit_each_outcome (name phone deliveryAddress : string)
  (items : list (object num)) (k : nat) (srv : state num) :
  exists r K srv',
    (forall p, sent p = k ->
               submit_each b name phone deliveryAddress items (Session p srv)
               = (r, Session (with_sent K p) srv'))
    /\ ((exists rows,
            stored_rows (excel srv') = stored_rows (excel srv) ++ rows
            /\ Forall2 (row_for name phone deliveryAddress)
                       (firstn (length rows) items) rows
            /\ (r = inr tt -> length rows = length items)
            /\ (forall e, r = inl e -> length rows < length items))
        \/ ((exists e, r = inl e)
            /\ excel srv' = Unparseable
            /\ exists k' w d, network b k' = inr w
                              /\ disk w = Some (Interrupted d))).
Proof.
  revert k srv. induction items as [|item rest IH]; intros k srv.
  - exists (inr tt), k, srv. simpl. split.
    + intros p <-. now rewrite with_sent_same.
    + left. exists []. rewrite app_nil_r. repeat split; auto. discriminate.
  - destruct (submitOrder_outcome name phone deliveryAddress item k srv)
      as (r1 & srv1 & Hrun1 & [(result & row & -> & Hrows1 & Hrow)
                              |[(e & -> & Hx1)
                               |(e & w & d & -> & Hx1 & Hnet & Hd)]]).
    + destruct (IH (S k) srv1)
        as (r & K & srv' & Hrun
            & [(rows & Hrows & Hall & Hok & Hfail)|(Hthrow & Hx & Hint)]).
      * exists r, K, srv'. split.
        -- intros p Hk. simpl. unfold bindP. rewrite (Hrun1 p Hk).
           rewrite (Hrun (with_sent (S k) p)) by reflexivity.
           destruct p; reflexivity.
        -- left. exists (row :: rows). split; [|split; [|split]].
           ++ rewrite Hrows, Hrows1, <- app_assoc. reflexivity.
           ++ simpl. constructor; assumption.
           ++ intros Hr. simpl. now rewrite (Hok Hr).
           ++ intros e Hr. simpl. specialize (Hfail e Hr). lia.
      * exists r, K, srv'. split.
        -- intros p Hk. simpl. unfold bindP. rewrite (Hrun1 p Hk).
           rewrite (Hrun (with_sent (S k) p)) by reflexivity.
           destruct p; reflexivity.
        -- right. auto.
    + exists (inl e), (S k), srv1. split.
      * intros p Hk. simpl. unfold bindP. now rewrite (Hrun1 p Hk).
      * left. exists []. split; [|split; [|split]].
        -- unfold stored_rows. rewrite Hx1, app_nil_r. reflexivity.
        -- constructor.
        -- discriminate.
        -- intros _ _. simpl. lia.
    + exists (inl e), (S k), srv1. split.
      * intros p Hk. simpl. unfold bindP. now rewrite (Hrun1 p Hk).
      * right. split; [eauto|]. split; [exact Hx1|]. eauto.
Qed.

End Checkout.

Section CheckoutForm.

Context {num : Type} `{JsArith num}.

Variable b : browser num.

Lemma input_filled (id : string) (e : element) (x : session num) :
  getElementById id (document (tab x)) = Some e ->
  input id x = (inr (value_of e), x).
Proof.
  intros He. unfold input, bindP, read, retP. simpl. now rewrite He.
Qed.

(** What the handler does once the cart and the form have passed its two
    checks. *)
Lemma checkout_run (x : session num)
  (name phone deliveryAddress payment : string) :
  cart (tab x) <> [] ->
  filled (document (tab x)) name phone deliveryAddress payment ->
  name <> "" -> phone <> "" -> deliveryAddress <> "" -> payment <> "" ->
  checkout b x
  = try_catchP
      (bindP (submit_each b name phone deliveryAddress (cart (tab x)))
         (fun _ =>
          bindP showSuccessMessage (fun _ =>
          bindP (change (set_cart [])) (fun _ =>
          bindP (change (set_stored_cart None)) (fun _ =>
          bindP updateCartCount (fun _ =>
          bindP (change (fun p => set_document (form_reset b (document p)) p))
                (fun _ => displayCart)))))))
      (fun error =>
         bindP (change (add_error (ErrorSubmitting error))) (fun _ =>
         change (add_alert "Failed to place order. Please try again.")))
      x.
Proof.
  intros Hcart ((e1 & He1 & <-) & (e2 & He2 & <-) & (e3 & He3 & <-)
                & (e4 & He4 & <-)) Hn Hp Ha Hpay.
  unfold checkout. unfold bindP at 1. unfold read at 1. simpl.
  destruct (cart (tab x)) as [|item rest] eqn:Hitems; [contradiction|].
  unfold bindP at 1. rewrite (input_filled _ _ He1).
  unfold bindP at 1. rewrite (input_filled _ _ He2).
  unfold bindP at 1. rewrite (input_filled _ _ He3).
  unfold bindP at 1. rewrite (input_filled _ _ He4).
  apply String.eqb_neq in Hn, Hp, Ha, Hpay.
  rewrite Hn, Hp, Ha, Hpay. reflexivity.
Qed.

Lemma getElementById_set (id : string) (e e0 : element) (d : dom) :
  getElementById id d = Some e0 ->
  getElementById id (set_element id e d) = Some e.
Proof.
  induction d as [|[id' e'] rest IH]; simpl; [discriminate|].
  destruct (String.eqb id id') eqn:E; simpl.
  - intros _. now rewrite String.eqb_refl.
  - rewrite E. exact IH.
Qed.

(** The success message fails only on a page without the element, and
    then before it has changed anything. *)
Lemma showSuccessMessage_throws (x y : session num) (e : exn) :
  showSuccessMessage x = (inl e, y) -> y = x.
Proof.
  unfold showSuccessMessage, bindP, update_element, change. simpl.
  destruct (getElementById "success-message" (document (tab x))) as [e0|] eqn:E0;
    simpl.
  - rewrite (getElementById_set _ _ _ E0). discriminate.
  - intros E; inversion E; reflexivity.
Qed.

(** The steps after the last order: either they get as far as emptying the
    cart, or the first of them throws before anything has changed. *)
Lemma after_the_orders (x x' : session num) (r : result unit) :
  bindP showSuccessMessage (fun _ =>
  bindP (change (set_cart [])) (fun _ =>
  bindP (change (set_stored_cart None)) (fun _ =>
  bindP updateCartCount (fun _ =>
  bindP (change (fun p => set_document (form_reset b (document p)) p))
        (fun _ => displayCart))))) x = (r, x') ->
  server x' = server x
  /\ sent (tab x') = sent (tab x)
  /\ ((cart (tab x') = [] /\ stored_cart (tab x') = None)
      \/ (x' = x /\ exists e, r = inl e)).
Proof.
  unfold bindP at 1.
  pose proof (showSuccessMessage_display x) as Hshow.
  destruct (showSuccessMessage x) as [[e|[]] y] eqn:Hmsg; simpl in Hshow.
  - intros E; inversion E; subst.
    pose proof (showSuccessMessage_throws _ Hmsg) as ->.
    repeat split. right. split; [reflexivity|eauto].
  - unfold bindP at 1. unfold change at 1. simpl.
    unfold bindP at 1. unfold change at 1. simpl.
    set (z := Session (set_stored_cart None (set_cart [] (tab y))) (server y)).
    intros E.
    assert (Hrest : only_display z x').
    { replace x' with (snd (bindP updateCartCount (fun _ =>
                        bindP (change (fun p => set_document
                                                  (form_reset b (document p)) p))
                              (fun _ => displayCart)) z))
        by (now rewrite E).
      apply bindP_display; [apply updateCartCount_display|intros _ u].
      apply bindP_display; [|intros _ v; apply displayCart_display].
      intros v. apply change_display. intros p. repeat split. }
    destruct Hshow as (Hs & _ & _ & _ & Hk).
    destruct Hrest as (Hs' & _ & Hc & Hst & Hk').
    repeat split.
    + now rewrite Hs', <- Hs.
    + now rewrite Hk', <- Hk.
    + left. rewrite Hc, Hst. split; reflexivity.
Qed.

(** X18.  The checkout places one order per line of the cart, in the
    order of the cart, and stops at the first that fails.  With a cart that
    is not empty and the four fields filled in, the handler returns; the
    rows it has added to the store are the rows of the first lines of the
    cart; the cart and its copy in [localStorage] are emptied only when
    every line has its row, and otherwise they are kept as they were, the
    error is logged and the visitor is told that the order failed.  What
    was placed before the failure stays placed, with one exception: when
    the write of the failing order was interrupted, the store file is left
    unparseable, and the orders placed before are lost with it. *)
Theorem checkout_places_line_by_line (x x' : session num)
  (name phone deliveryAddress payment : string) (r : result unit) :
  cart (tab x) <> [] ->
  filled (document (tab x)) name phone deliveryAddress payment ->
  name <> "" -> phone <> "" -> deliveryAddress <> "" -> payment <> "" ->
  checkout b x = (r, x') ->
  r = inr tt
  /\ ((exists rows,
          stored_rows (excel (server x'))
          = stored_rows (excel (server x)) ++ rows
          /\ Forall2 (row_for name phone deliveryAddress)
                     (firstn (length rows) (cart (tab x))) rows
          /\ ((cart (tab x') = [] /\ stored_cart (tab x') = None
               /\ length rows = length (cart (tab x)))
              \/ (cart (tab x') = cart (tab x)
                  /\ stored_cart (tab x') = stored_cart (tab x)
                  /\ exists e,
                       errors (tab x') = errors (tab x) ++ [ErrorSubmitting e]
                       /\ alerts (tab x')
                          = alerts (tab x)
                            ++ ["Failed to place order. Please try again."])))
      \/ (excel (server x') = Unparseable
          /\ (exists k w d, network b k = inr w
                            /\ disk w = Some (Interrupted d))
          /\ cart (tab x') = cart (tab x)
          /\ stored_cart (tab x') = stored_cart (tab x)
          /\ exists e,
               errors (tab x') = errors (tab x) ++ [ErrorSubmitting e]
               /\ alerts (tab x')
                  = alerts (tab x)
                    ++ ["Failed to place order. Please try again."])).
Proof.
  intros Hcart Hfilled Hn Hp Ha Hpay.
  rewrite (checkout_run x Hcart Hfilled Hn Hp Ha Hpay).
  destruct x as [p srv]. simpl tab in *. simpl server in *.
  destruct (submit_each_outcome b name phone deliveryAddress (cart p)
                                (sent p) srv)
    as (r1 & K & srv1 & Hrun
        & [(rows & Hrows & Hall & Hok & Hfail)|((e & ->) & Hx & Hint)]).
  2:{ unfold try_catchP. unfold bindP at 1. rewrite (Hrun p eq_refl).
      unfold bindP, change. simpl. intros E; inversion E; subst. simpl.
      split; [reflexivity|]. right.
      split; [exact Hx|]. split; [exact Hint|].
      split; [reflexivity|]. split; [reflexivity|].
      exists e. split; reflexivity. }
  unfold try_catchP. unfold bindP at 1. rewrite (Hrun p eq_refl).
  destruct r1 as [e|[]].
  - unfold bindP, change. simpl. intros E; inversion E; subst. simpl.
    split; [reflexivity|]. left. exists rows.
    split; [exact Hrows|]. split; [exact Hall|].
    right. split; [reflexivity|]. split; [reflexivity|].
    exists e. split; reflexivity.
  - destruct (bindP showSuccessMessage _ (Session (with_sent K p) srv1))
      as [r2 x2] eqn:Hafter.
    destruct (after_the_orders _ Hafter)
      as (Hs & _ & [(Hc & Hst)|(-> & e & ->)]).
    + assert (Hdone : forall x3 : session num,
                 server x3 = server x2 -> cart (tab x3) = cart (tab x2) ->
                 stored_cart (tab x3) = stored_cart (tab x2) ->
                 exists rows0,
                   stored_rows (excel (server x3))
                   = stored_rows (excel srv) ++ rows0
                   /\ Forall2 (row_for name phone deliveryAddress)
                              (firstn (length rows0) (cart p)) rows0
                   /\ ((cart (tab x3) = [] /\ stored_cart (tab x3) = None
                        /\ length rows0 = length (cart p))
                       \/ (cart (tab x3) = cart p
                           /\ stored_cart (tab x3) = stored_cart p
                           /\ exists e,
                                errors (tab x3)
                                = errors p ++ [ErrorSubmitting e]
                                /\ alerts (tab x3)
                                   = alerts p
                                     ++ ["Failed to place order. Please try again."]))).
      { intros x3 E1 E2 E3. exists rows. rewrite E1, Hs. simpl.
        split; [exact Hrows|]. split; [exact Hall|].
        left. rewrite E2, E3. auto. }
      destruct r2 as [e|u].
      * unfold bindP, change. simpl. intros E; inversion E; subst.
        split; [reflexivity|]. left. apply Hdone; reflexivity.
      * intros E; inversion E; subst. destruct u.
        split; [reflexivity|]. left. apply Hdone; reflexivity.
    + unfold bindP, change. simpl. intros E; inversion E; subst. simpl.
      split; [reflexivity|]. left. exists rows.
      split; [exact Hrows|]. split; [exact Hall|].
      right. split; [reflexivity|]. split; [reflexivity|].
      exists e. split; reflexivity.
Qed.

End CheckoutForm.

(** ** The checks of the form, and what leaves the page *)

Section FormChecks.

Context {num : Type} `{JsArith num}.

Variable b : browser num.

(** X19.  The form asks before it sends: with an empty cart, or with a
    cart and one of the four fields empty, the handler shows its alert and
    returns; no request is sent and the page and the server are otherwise
    as they were.  The cart is checked first. *)
Theorem incomplete_form_sends_nothing (x : session num)
  (name phone deliveryAddress payment : string) :
  (cart (tab x) = [] ->
   checkout b x
   = (inr tt, Session (add_alert "Your cart is empty!" (tab x)) (server x)))
  /\ (cart (tab x) <> [] ->
      filled (document (tab x)) name phone deliveryAddress payment ->
      name = "" \/ phone = "" \/ deliveryAddress = "" \/ payment = "" ->
      checkout b x
      = (inr tt,
         Session (add_alert "Please fill in all fields" (tab x)) (server x))).
Proof.
  split.
  - intros Hc. unfold checkout, bindP, read. simpl. rewrite Hc. reflexivity.
  - intros Hcart ((e1 & He1 & <-) & (e2 & He2 & <-) & (e3 & He3 & <-)
                  & (e4 & He4 & <-)) Hempty.
    unfold checkout. unfold bindP at 1. unfold read at 1. simpl.
    destruct (cart (tab x)) as [|item rest] eqn:Hitems; [contradiction|].
    unfold bindP at 1. rewrite (input_filled _ _ He1).
    unfold bindP at 1. rewrite (input_filled _ _ He2).
    unfold bindP at 1. rewrite (input_filled _ _ He3).
    unfold bindP at 1. rewrite (input_filled _ _ He4).
    assert (Hor : String.eqb (value_of e1) "" || String.eqb (value_of e2) ""
                  || String.eqb (value_of e3) "" || String.eqb (value_of e4) ""
                  = true).
    { destruct Hempty as [-> | [-> | [-> | ->]]]; simpl;
        rewrite ?orb_true_r; reflexivity. }
    rewrite Hor. reflexivity.
Qed.

(** What the checkout does to the server is what its orders do. *)
Lemma checkout_server (x : session num)
  (name phone deliveryAddress payment : string) :
  cart (tab x) <> [] ->
  filled (document (tab x)) name phone deliveryAddress payment ->
  name <> "" -> phone <> "" -> deliveryAddress <> "" -> payment <> "" ->
  server (snd (checkout b x))
  = snd (orders_sent b (sent (tab x)) name phone deliveryAddress
                     (cart (tab x)) (server x)).
Proof.
  intros Hcart Hfilled Hn Hp Ha Hpay.
  rewrite (checkout_run b x Hcart Hfilled Hn Hp Ha Hpay).
  destruct x as [p srv]. simpl tab. simpl server.
  destruct (submit_each_outcome b name phone deliveryAddress (cart p)
                                (sent p) srv)
    as (r1 & K & srv1 & Hrun & _).
  unfold orders_sent. rewrite (Hrun (blank (sent p)) eq_refl). simpl.
  unfold try_catchP. unfold bindP at 1. rewrite (Hrun p eq_refl).
  destruct r1 as [e|[]]; [reflexivity|].
  destruct (bindP showSuccessMessage _ (Session (with_sent K p) srv1))
    as [r2 x2] eqn:Hafter.
  destruct (after_the_orders b _ Hafter) as (Hs & _).
  destruct r2; simpl; exact Hs.
Qed.

(** X20.  The payment method never leaves the page: two submissions that
    agree on the cart, the name, the phone and the address, and differ in
    the payment method chosen, leave the server in the same state. *)
Theorem payment_stays_on_the_page (x1 x2 : session num)
  (name phone deliveryAddress payment1 payment2 : string) :
  cart (tab x1) <> [] ->
  cart (tab x2) = cart (tab x1) ->
  sent (tab x2) = sent (tab x1) ->
  server x2 = server x1 ->
  filled (document (tab x1)) name phone deliveryAddress payment1 ->
  filled (document (tab x2)) name phone deliveryAddress payment2 ->
  name <> "" -> phone <> "" -> deliveryAddress <> "" ->
  payment1 <> "" -> payment2 <> "" ->
  server (snd (checkout b x2)) = server (snd (checkout b x1)).
Proof.
  intros Hcart Hc Hk Hs Hf1 Hf2 Hn Hp Ha Hp1 Hp2.
  rewrite (checkout_server x1 Hcart Hf1 Hn Hp Ha Hp1).
  assert (Hcart2 : cart (tab x2) <> []) by now rewrite Hc.
  rewrite (checkout_server x2 Hcart2 Hf2 Hn Hp Ha Hp2).
  now rewrite Hc, Hk, Hs.
Qed.

End FormChecks.

(** ** The requests of the page *)

Section Requests.

Context {num : Type} `{JsArith num}.

Variable b : browser num.

Lemma renderProducts_display (products : value num) (x : session num) :
  only_display x (snd (renderProducts products x)).
Proof.
  unfold renderProducts.
  apply bindP_display; [intros y; apply liftP_display|intros empty y].
  destruct empty; [apply update_element_display|].
  apply bindP_display; [intros z; apply liftP_display|intros cards z].
  apply update_element_display.
Qed.

Lemma filterProducts_display (category : option string) (x : session num) :
  only_display x (snd (filterProducts category x)).
Proof.
  unfold filterProducts.
  apply bindP_display; [intros y; apply read_display|intros all y].
  destruct (match category with Some c => String.eqb c "all" | None => false end).
  - apply renderProducts_display.
  - apply bindP_display; [intros z; apply liftP_display|intros l z].
    apply renderProducts_display.
Qed.

(** The answer of [GET /perfumes] as the page reads it. *)
Lemma listed_on_the_wire (c : value num) :
  member (wire (VObj [("success", VBool true); ("data", c)])) "success"
  = inr (VBool true)
  /\ member (wire (VObj [("success", VBool true); ("data", c)])) "data"
     = inr (wire c).
Proof. destruct c; split; reflexivity. Qed.

(** What the load of the catalog leaves, whichever way it goes. *)
Lemma loadProducts_facts (x : session num) :
  exists x',
    loadProducts b x = (inr tt, x')
    /\ sent (tab x') = S (sent (tab x))
    /\ cart (tab x') = cart (tab x)
    /\ stored_cart (tab x') = stored_cart (tab x)
    /\ excel (server x') = excel (server x)
    /\ ((exists w c,
            network b (sent (tab x)) = inr w /\ perfumes_json w = inr c
            /\ truthy (wire c) = true /\ allProducts (tab x') = wire c)
        \/ (allProducts (tab x') = allProducts (tab x)
            /\ exists pe, errors (tab x') = errors (tab x) ++ [pe])).
Proof.
  destruct x as [p srv]. unfold loadProducts, try_catchP.
  unfold bindP at 1. rewrite exchange_run. simpl.
  destruct (network b (sent p)) as [e|w] eqn:Hnet.
  { eexists. split; [reflexivity|]. simpl. repeat split.
    right. split; [reflexivity|eauto]. }
  unfold perfumes_route. rewrite get_perfumes_run.
  destruct (perfumes_json w) as [e|c] eqn:Hp.
  { eexists. split; [reflexivity|]. simpl. repeat split.
    right. split; [reflexivity|eauto]. }
  cbn [fst snd].
  destruct (listed_on_the_wire c) as (Hsuccess & Hdata).
  unfold bindP at 1. unfold liftP at 1. rewrite Hsuccess.
  unfold bindP at 1. cbn [truthy]. unfold liftP at 1. rewrite Hdata.
  destruct (truthy (wire c)) eqn:Ht.
  2:{ eexists. split; [reflexivity|]. simpl. repeat split.
      right. split; [reflexivity|eauto]. }
  unfold bindP at 1. unfold change at 1. cbn [fst snd tab server].
  unfold bindP at 1. unfold read at 1. cbn [fst snd tab server].
  change (allProducts (set_allProducts (wire c) (with_sent (S (sent p)) p)))
    with (wire c).
  set (y := Session _ (later srv)).
  pose proof (renderProducts_display (wire c) y) as (Hs & Ha & Hc & Hst & Hk).
  destruct (renderProducts (wire c) y) as [[e|[]] z];
    simpl in Hs, Ha, Hc, Hst, Hk.
  - eexists. split; [reflexivity|]. simpl.
    rewrite Hs, Ha, Hc, Hst, Hk. repeat split.
    left. exists w, c. auto.
  - eexists. split; [reflexivity|]. simpl.
    rewrite Hs, Ha, Hc, Hst, Hk. repeat split.
    left. exists w, c. auto.
Qed.

(** X21.  The load of the catalog never throws and sends one request.  It
    leaves the cart, its stored copy and the order store alone.  The
    catalog of the page becomes what the server listed, as JSON carries it,
    when that is truthy; in every other case (the network failed, the
    server could not read its catalog, the catalog is falsy) the page keeps
    the catalog it had and writes one line to its console. *)
Theorem loadProducts_takes_the_listed_catalog (x x' : session num)
  (r : result unit) :
  loadProducts b x = (r, x') ->
  r = inr tt
  /\ sent (tab x') = S (sent (tab x))
  /\ cart (tab x') = cart (tab x)
  /\ stored_cart (tab x') = stored_cart (tab x)
  /\ excel (server x') = excel (server x)
  /\ ((exists w c,
          network b (sent (tab x)) = inr w /\ perfumes_json w = inr c
          /\ truthy (wire c) = true /\ allProducts (tab x') = wire c)
      \/ (allProducts (tab x') = allProducts (tab x)
          /\ exists pe, errors (tab x') = errors (tab x) ++ [pe])).
Proof.
  intros Hrun. destruct (loadProducts_facts x) as (y & Hy & Hfacts).
  rewrite Hy in Hrun. inversion Hrun; subst. split; [reflexivity|exact Hfacts].
Qed.

(** X22.  An order of the page returns exactly when the server answers
    200, with the answer as JSON carries it; for any other answer it throws
    an [Error] whose message is the [message] of the answer, so the [error]
    detail of a 500 is dropped; when the network fails it throws the
    network's error and the server is not reached. *)
Theorem submitOrder_follows_the_answer (orderData : object num)
  (p : page num) (srv : state num) :
  (forall e, network b (sent p) = inl e ->
             submitOrder b orderData (Session p srv)
             = (inl e, Session (with_sent (S (sent p)) p) srv))
  /\ (forall w, network b (sent p) = inr w ->
        exists n body srv',
          order_perfume w (wire_props orderData) srv
          = (inr (Json n body), srv')
          /\ snd (submitOrder b orderData (Session p srv))
             = Session (with_sent (S (sent p)) p) srv'
          /\ (n = 200 ->
              fst (submitOrder b orderData (Session p srv))
              = inr (wire body))
          /\ (n <> 200 ->
              exists m, field body "message" = VStr m
                        /\ fst (submitOrder b orderData (Session p srv))
                           = inl (Failure m))).
Proof.
  split.
  - intros e Hnet. unfold submitOrder, bindP. rewrite exchange_run, Hnet.
    reflexivity.
  - intros w Hnet.
    destruct (order_perfume w (wire_props orderData) srv) as [r srv'] eqn:Hserver.
    assert (Hrun : forall n body,
               r = inr (Json n body) ->
               submitOrder b orderData (Session p srv)
               = match member (wire body) "success" with
                 | inl e => (inl e, Session (with_sent (S (sent p)) p) srv')
                 | inr success =>
                     if negb (truthy success)
                     then
                       match member (wire body) "message" with
                       | inl e =>
                           (inl e, Session (with_sent (S (sent p)) p) srv')
                       | inr text =>
                           (inl (new_Error text),
                            Session (with_sent (S (sent p)) p) srv')
                       end
                     else (inr (wire body),
                           Session (with_sent (S (sent p)) p) srv')
                 end).
    { intros n body ->. unfold submitOrder, bindP.
      rewrite exchange_run, Hnet, Hserver. simpl.
      unfold liftP. destruct (member (wire body) "success") as [e|success];
        [reflexivity|].
      destruct (truthy success); simpl; [reflexivity|].
      unfold throwP. destruct (member (wire body) "message"); reflexivity. }
    destruct (order_perfume_outcomes _ _ _ Hserver)
      as [(_ & -> & ->)|[(_ & -> & ->)|[(_ & e & n & -> & -> & _)
         |[(_ & wb & e & _ & _ & -> & ->)
          |[(wb & od & e & _ & _ & -> & ->)
           |(wb & od & who & _ & _ & -> & Hs')]]]]].
    + do 3 eexists. split; [reflexivity|].
      rewrite (Hrun _ _ eq_refl). simpl.
      split; [reflexivity|]. split; [discriminate|]. intros _. eexists; split; reflexivity.
    + do 3 eexists. split; [reflexivity|].
      rewrite (Hrun _ _ eq_refl). simpl.
      split; [reflexivity|]. split; [discriminate|]. intros _. eexists; split; reflexivity.
    + do 3 eexists. split; [reflexivity|].
      rewrite (Hrun _ _ eq_refl). simpl.
      split; [reflexivity|]. split; [discriminate|]. intros _. eexists; split; reflexivity.
    + do 3 eexists. split; [reflexivity|].
      rewrite (Hrun _ _ eq_refl). simpl.
      split; [reflexivity|]. split; [discriminate|]. intros _. eexists; split; reflexivity.
    + do 3 eexists. split; [reflexivity|].
      rewrite (Hrun _ _ eq_refl). simpl.
      split; [reflexivity|]. split; [discriminate|]. intros _. eexists; split; reflexivity.
    + exists 200. do 2 eexists. split; [reflexivity|].
      rewrite (Hrun _ _ eq_refl). simpl.
      split; [reflexivity|]. split; [reflexivity|]. intros Hn. now elim Hn.
Qed.

End Requests.

(** ** The cart *)

Section Cart.

Context {num : Type} `{JsArith num}.

Lemma prop_put_same (k : string) (v : value num) (o : object num) :
  prop k (put k v o) = v.
Proof.
  unfold prop. induction o as [|[k' v'] rest IH]; simpl.
  - now rewrite String.eqb_refl.
  - destruct (String.eqb k k') eqn:E; simpl.
    + now rewrite String.eqb_refl.
    + rewrite E. exact IH.
Qed.

Lemma prop_put_other (k k' : string) (v : value num) (o : object num) :
  k' <> k -> prop k' (put k v o) = prop k' o.
Proof.
  intros Hne. unfold prop. induction o as [|[k0 v0] rest IH]; simpl.
  - apply String.eqb_neq in Hne. now rewrite Hne.
  - destruct (String.eqb k k0) eqn:E; simpl.
    + apply String.eqb_eq in E. subst k0.
      apply String.eqb_neq in Hne. now rewrite Hne.
    + destruct (String.eqb k' k0); [reflexivity|exact IH].
Qed.

Lemma put_put (k : string) (v v' : value num) (o : object num) :
  put k v (put k v' o) = put k v o.
Proof.
  induction o as [|[k0 v0] rest IH]; simpl.
  - now rewrite String.eqb_refl.
  - destruct (String.eqb k k0) eqn:E; simpl.
    + now rewrite String.eqb_refl.
    + now rewrite E, IH.
Qed.

Lemma array_find_none (f : value num -> result bool) (l : list (value num)) :
  Forall (fun q => f q = inr false) l -> array_find f l = inr VUndefined.
Proof.
  induction 1 as [|q rest Hq _ IH]; simpl; [reflexivity|]. now rewrite Hq.
Qed.

Lemma find_last (f : object num -> bool) (items : list (object num))
  (a : object num) :
  Forall (fun item => f item = false) items -> f a = true ->
  List.find f (items ++ [a]) = Some a.
Proof.
  intros Hnone Ha. induction Hnone as [|item rest Hi _ IH]; simpl.
  - now rewrite Ha.
  - now rewrite Hi.
Qed.

Lemma find_nowhere (f : object num -> bool) (items : list (object num)) :
  Forall (fun item => f item = false) items -> List.find f items = None.
Proof.
  induction 1 as [|item rest Hi _ IH]; simpl; [reflexivity|]. now rewrite Hi.
Qed.

Lemma update_first_last (productId : value num)
  (f : object num -> object num) (items : list (object num)) (a : object num) :
  Forall (fun item => has_id productId item = false) items ->
  has_id productId a = true ->
  update_first productId f (items ++ [a]) = items ++ [f a].
Proof.
  intros Hnone Ha. induction Hnone as [|item rest Hi _ IH]; simpl.
  - now rewrite Ha.
  - now rewrite Hi, IH.
Qed.

Lemma filter_last (f : object num -> bool) (items : list (object num))
  (a : object num) :
  Forall (fun item => f item = false) items -> f a = true ->
  filter (fun item => negb (f item)) (items ++ [a]) = items.
Proof.
  intros Hnone Ha. induction Hnone as [|item rest Hi _ IH]; simpl.
  - now rewrite Ha.
  - now rewrite Hi, IH.
Qed.

(** After the cart is saved, steps that only touch the display leave the
    cart and its stored copy in step. *)
Lemma saved_then_display (m : P num unit) (y : session num) :
  (forall z, only_display z (snd (m z))) ->
  let x' := snd (bindP save_cart (fun _ => m) y) in
  cart (tab x') = cart (tab y)
  /\ stored_cart (tab x') = Some (map wire_props (cart (tab y)))
  /\ allProducts (tab x') = allProducts (tab y)
  /\ server x' = server y
  /\ sent (tab x') = sent (tab y).
Proof.
  intros Hm. unfold bindP, save_cart, read, change. simpl.
  destruct (Hm (Session (set_stored_cart (Some (map wire_props (cart (tab y))))
                                         (tab y))
                        (server y)))
    as (Hs & Ha & Hc & Hst & Hk).
  simpl in *. auto.
Qed.

Lemma added_display (product : value num) (z : session num) :
  only_display z
    (snd (bindP updateCartCount (fun _ =>
          bindP (liftP (interpolate product "name")) (fun text =>
          showNotification (text ++ " added to cart!")%string)) z)).
Proof.
  apply bindP_display; [apply updateCartCount_display|intros _ y].
  apply bindP_display; [intros u; apply liftP_display|intros text u].
  apply showNotification_display.
Qed.

Lemma removed_display (z : session num) :
  only_display z (snd (bindP updateCartCount (fun _ => displayCart) z)).
Proof.
  apply bindP_display; [apply updateCartCount_display|intros _ y].
  apply displayCart_display.
Qed.

(** The two ways [addToCart] goes: it leaves everything as it is (no
    product, or an exception before the cart is touched), or it sets the
    cart, saves it, and goes on to the display. *)
Lemma addToCart_cases (productId : value num) (x : session num) :
  (exists r, addToCart productId x = (r, x))
  \/ exists items product,
       addToCart productId x
       = bindP save_cart (fun _ =>
         bindP updateCartCount (fun _ =>
         bindP (liftP (interpolate product "name")) (fun text =>
         showNotification (text ++ " added to cart!")%string)))
           (Session (set_cart items (tab x)) (server x)).
Proof.
  remember (addToCart productId x) as run eqn:Hrun.
  unfold addToCart in Hrun. unfold bindP at 1 in Hrun.
  unfold read at 1 in Hrun. cbn [fst snd] in Hrun.
  unfold bindP at 1 in Hrun. unfold liftP at 1 in Hrun.
  destruct (match allProducts (tab x) with
            | VArr l => array_find _ l
            | _ => _
            end) as [e|product]; [left; eauto|].
  destruct (truthy product); cbn [negb] in Hrun; [|left; eauto].
  unfold bindP at 1 in Hrun. unfold read at 1 in Hrun. cbn [fst snd] in Hrun.
  unfold bindP at 1 in Hrun.
  destruct (List.find (has_id productId) (cart (tab x))) as [existing|].
  - unfold bindP at 1 in Hrun. unfold liftP at 1 in Hrun.
    destruct (js_add (prop "quantity" existing) (VNum num_one)) as [e|q];
      [left; eauto|].
    right. unfold change at 1 in Hrun. eexists _, product. exact Hrun.
  - right. unfold change at 1 in Hrun. eexists _, product. exact Hrun.
Qed.

(** X23.  A click on "Add to Cart" for an id that no product of the
    catalog has, compared with [===], does nothing at all: the cart, its
    stored copy, the badge and the notifications stay as they were.  An id
    that the server would match by its string (the number 2 against the
    string "2") is such an id. *)
Theorem unlisted_product_is_not_added (productId : value num)
  (x : session num) (listed : list (value num)) :
  allProducts (tab x) = VArr listed ->
  Forall (fun q => exists props,
                     q = VObj props
                     /\ js_strict_eq (prop "id" props) productId = false)
         listed ->
  addToCart productId x = (inr tt, x).
Proof.
  intros Hall Hnone.
  unfold addToCart. unfold bindP at 1. unfold read at 1. cbn [fst snd].
  rewrite Hall. unfold bindP at 1. unfold liftP at 1.
  rewrite array_find_none; [reflexivity|].
  eapply Forall_impl; [|exact Hnone].
  intros q (props & -> & Hq). simpl. now rewrite Hq.
Qed.

(** The first click on a listed product that the cart does not hold. *)
Lemma addToCart_new (productId : value num) (x : session num)
  (before after : list (value num)) (props : object num) :
  allProducts (tab x) = VArr (before ++ VObj props :: after) ->
  Forall (fun q => exists ps,
                     q = VObj ps
                     /\ js_strict_eq (prop "id" ps) productId = false)
         before ->
  js_strict_eq (prop "id" props) productId = true ->
  Forall (fun item => has_id productId item = false) (cart (tab x)) ->
  let x' := snd (addToCart productId x) in
  cart (tab x') = cart (tab x) ++ [put "quantity" (VNum num_one) props]
  /\ stored_cart (tab x')
     = Some (map wire_props
                 (cart (tab x) ++ [put "quantity" (VNum num_one) props]))
  /\ allProducts (tab x') = allProducts (tab x)
  /\ server x' = server x
  /\ sent (tab x') = sent (tab x).
Proof.
  intros Hall Hbefore Hid Hcart.
  assert (Hrun : snd (addToCart productId x)
                 = snd (bindP save_cart (fun _ =>
                        bindP updateCartCount (fun _ =>
                        bindP (liftP (interpolate (VObj props) "name"))
                              (fun text =>
                        showNotification (text ++ " added to cart!")%string)))
                          (Session (set_cart (cart (tab x)
                                              ++ [put "quantity" (VNum num_one)
                                                      props])
                                             (tab x))
                                   (server x)))).
  { unfold addToCart. unfold bindP at 1. unfold read at 1. cbn [fst snd].
    rewrite Hall. unfold bindP at 1. unfold liftP at 1.
    rewrite array_find_first with (p := VObj props).
    - cbn [truthy negb]. unfold bindP at 1. unfold read at 1. cbn [fst snd].
      unfold bindP at 1. rewrite (find_nowhere _ Hcart). reflexivity.
    - eapply Forall_impl; [|exact Hbefore].
      intros q (ps & -> & Hq). simpl. now rewrite Hq.
    - simpl. now rewrite Hid. }
  intros x'. subst x'. rewrite Hrun.
  destruct (saved_then_display
              (bindP updateCartCount (fun _ =>
               bindP (liftP (interpolate (VObj props) "name")) (fun text =>
               showNotification (text ++ " added to cart!")%string)))
              (Session (set_cart (cart (tab x)
                                  ++ [put "quantity" (VNum num_one) props])
                                 (tab x))
                       (server x))
              (added_display (VObj props)))
    as (Hc & Hst & Ha & Hs & Hk).
  simpl in Hc, Hst, Ha, Hs, Hk. auto.
Qed.

Lemma js_add_numbers (a c : num) :
  js_add (VNum a) (VNum c) = inr (VNum (num_add a c)).
Proof. reflexivity. Qed.

Lemma has_id_put_quantity (productId v : value num) (props : object num) :
  has_id productId (put "quantity" v props) = has_id productId props.
Proof.
  unfold has_id. rewrite prop_put_other; [reflexivity|discriminate].
Qed.

(** X24.  Removing what was just added gives the cart back: after a click
    on "Add to Cart" for a listed product that the cart did not hold and a
    click on "Remove" for the same id, the cart is the one before the two
    clicks, and the stored copy is its JSON. *)
Theorem remove_undoes_add (productId : value num) (x : session num)
  (before after : list (value num)) (props : object num) :
  allProducts (tab x) = VArr (before ++ VObj props :: after) ->
  Forall (fun q => exists ps,
                     q = VObj ps
                     /\ js_strict_eq (prop "id" ps) productId = false)
         before ->
  js_strict_eq (prop "id" props) productId = true ->
  Forall (fun item => has_id productId item = false) (cart (tab x)) ->
  let x' := snd (removeFromCart productId (snd (addToCart productId x))) in
  cart (tab x') = cart (tab x)
  /\ stored_cart (tab x') = Some (map wire_props (cart (tab x))).
Proof.
  intros Hall Hbefore Hid Hcart.
  destruct (@addToCart_new productId x before after props Hall Hbefore Hid Hcart)
    as (Hc & _).
  set (x1 := snd (addToCart productId x)) in *.
  assert (Hrun : snd (removeFromCart productId x1)
                 = snd (bindP save_cart (fun _ =>
                        bindP updateCartCount (fun _ => displayCart))
                          (Session (set_cart (cart (tab x)) (tab x1))
                                   (server x1)))).
  { unfold removeFromCart. unfold bindP at 1. unfold read at 1. cbn [fst snd].
    unfold bindP at 1. unfold change at 1. cbn [fst snd tab server].
    rewrite Hc, filter_last; [reflexivity|exact Hcart|].
    rewrite has_id_put_quantity. exact Hid. }
  intros x'. subst x'. rewrite Hrun.
  destruct (saved_then_display
              (bindP updateCartCount (fun _ => displayCart))
              (Session (set_cart (cart (tab x)) (tab x1)) (server x1))
              removed_display)
    as (Hc' & Hst' & _).
  simpl in Hc', Hst'. auto.
Qed.

(** X25.  Two clicks make one line: after two clicks on "Add to Cart" for
    a listed product that the cart did not hold, the cart has one more
    line than before, the product with the quantity 1 + 1. *)
Theorem added_twice_is_one_line (productId : value num) (x : session num)
  (before after : list (value num)) (props : object num) :
  allProducts (tab x) = VArr (before ++ VObj props :: after) ->
  Forall (fun q => exists ps,
                     q = VObj ps
                     /\ js_strict_eq (prop "id" ps) productId = false)
         before ->
  js_strict_eq (prop "id" props) productId = true ->
  Forall (fun item => has_id productId item = false) (cart (tab x)) ->
  cart (tab (snd (addToCart productId (snd (addToCart productId x)))))
  = cart (tab x)
    ++ [put "quantity" (VNum (num_add num_one num_one)) props].
Proof.
  intros Hall Hbefore Hid Hcart.
  destruct (@addToCart_new productId x before after props Hall Hbefore Hid Hcart)
    as (Hc & _ & Ha & _).
  set (x1 := snd (addToCart productId x)) in *.
  set (line := put "quantity" (VNum num_one) props) in *.
  assert (Hline : has_id productId line = true).
  { unfold line. rewrite has_id_put_quantity. exact Hid. }
  assert (Hrun : snd (addToCart productId x1)
                 = snd (bindP save_cart (fun _ =>
                        bindP updateCartCount (fun _ =>
                        bindP (liftP (interpolate (VObj props) "name"))
                              (fun text =>
                        showNotification (text ++ " added to cart!")%string)))
                          (Session (set_cart
                                      (cart (tab x)
                                       ++ [put "quantity"
                                               (VNum (num_add num_one num_one))
                                               props])
                                      (tab x1))
                                   (server x1)))).
  { unfold addToCart. unfold bindP at 1. unfold read at 1. cbn [fst snd].
    rewrite Ha, Hall. unfold bindP at 1. unfold liftP at 1.
    rewrite array_find_first with (p := VObj props).
    - cbn [truthy negb]. unfold bindP at 1. unfold read at 1. cbn [fst snd].
      unfold bindP at 1. rewrite Hc, (@find_last (has_id productId) (cart (tab x)) line Hcart Hline).
      unfold bindP at 1. unfold liftP at 1.
      unfold line at 1. rewrite prop_put_same, js_add_numbers.
      unfold change at 1. cbn [fst snd tab server].
      rewrite (@update_first_last productId _ (cart (tab x)) line Hcart Hline).
      unfold line. rewrite put_put. reflexivity.
    - eapply Forall_impl; [|exact Hbefore].
      intros q (ps & -> & Hq). simpl. now rewrite Hq.
    - simpl. now rewrite Hid. }
  rewrite Hrun.
  destruct (saved_then_display
              (bindP updateCartCount (fun _ =>
               bindP (liftP (interpolate (VObj props) "name")) (fun text =>
               showNotification (text ++ " added to cart!")%string)))
              (Session (set_cart
                          (cart (tab x)
                           ++ [put "quantity" (VNum (num_add num_one num_one))
                                   props])
                          (tab x1))
                       (server x1))
              (added_display (VObj props)))
    as (Hc' & _).
  exact Hc'.
Qed.

Lemma js_mul_number (a c v : value num) :
  js_mul a c = inr v -> exists n, v = VNum n.
Proof.
  unfold js_mul.
  destruct (to_primitive a) as [e|pa]; simpl; [discriminate|].
  destruct (to_primitive c) as [e|pc]; simpl; [discriminate|].
  intros E; inversion E. eauto.
Qed.

Lemma sum_prices_number (items : list (object num)) (n : num)
  (v : value num) :
  sum_prices (VNum n) items = inr v -> exists m, v = VNum m.
Proof.
  revert n. induction items as [|item rest IH]; simpl; intros n Hsum.
  - inversion Hsum. eauto.
  - destruct (js_mul (prop "price" item) (prop "quantity" item))
      as [e|line] eqn:Hline; simpl in Hsum; [discriminate|].
    destruct (js_mul_number _ _ Hline) as (m & ->).
    rewrite js_add_numbers in Hsum. simpl in Hsum. eapply IH; eauto.
Qed.

(** X26.  The total is always a number: whatever the lines of the cart
    hold as price and quantity (numbers, strings, nothing), what
    [calculateTotal] returns is a number, never a string, so that the
    [toFixed(2)] of the cart display always applies to it; and computing
    it changes nothing. *)
Theorem total_is_a_number (x x' : session num) (total : value num) :
  calculateTotal x = (inr total, x') ->
  x' = x /\ exists n, total = VNum n.
Proof.
  unfold calculateTotal, bindP, read, liftP. simpl.
  intros E. inversion E as [[Hsum Hx]]. split; [reflexivity|].
  eapply sum_prices_number; eauto.
Qed.

End Cart.

(** ** What every handler keeps *)

Section Handlers.

Context {num : Type} `{JsArith num}.

Variable b : browser num.

(** X27.  The functions that draw only draw: rendering the grid, filtering
    it, updating the badge, showing the cart, a notification or the success
    message leave the catalog, the cart, its stored copy and the server as
    they were and send no request, also when they throw. *)
Theorem drawing_only_draws (x : session num) (products : value num)
  (category : option string) (text : string) :
  only_display x (snd (renderProducts products x))
  /\ only_display x (snd (filterProducts category x))
  /\ only_display x (snd (updateCartCount x))
  /\ only_display x (snd (displayCart x))
  /\ only_display x (snd (showNotification text x))
  /\ only_display x (snd (showSuccessMessage x)).
Proof.
  split; [apply renderProducts_display|].
  split; [apply filterProducts_display|].
  split; [apply updateCartCount_display|].
  split; [apply displayCart_display|].
  split; [apply showNotification_display|apply showSuccessMessage_display].
Qed.

Lemma same_cart_in_step (x y : session num) :
  cart (tab y) = cart (tab x) -> stored_cart (tab y) = stored_cart (tab x) ->
  in_step x -> in_step y.
Proof.
  unfold in_step, reloaded_cart. intros -> ->. auto.
Qed.

Lemma saved_in_step (y : session num) :
  stored_cart (tab y) = Some (map wire_props (cart (tab y))) -> in_step y.
Proof.
  unfold in_step, reloaded_cart. now intros ->.
Qed.

Lemma addToCart_in_step (productId : value num) (x : session num) :
  in_step x -> in_step (snd (addToCart productId x)).
Proof.
  intros Hx.
  destruct (addToCart_cases productId x) as [(r & ->)|(items & product & ->)];
    [exact Hx|].
  destruct (saved_then_display
              (bindP updateCartCount (fun _ =>
               bindP (liftP (interpolate product "name")) (fun text =>
               showNotification (text ++ " added to cart!")%string)))
              (Session (set_cart items (tab x)) (server x))
              (added_display product))
    as (Hc & Hst & _).
  apply saved_in_step. now rewrite Hc.
Qed.

Lemma removeFromCart_in_step (productId : value num) (x : session num) :
  in_step (snd (removeFromCart productId x)).
Proof.
  assert (Hrun : removeFromCart productId x
                 = bindP save_cart (fun _ =>
                   bindP updateCartCount (fun _ => displayCart))
                     (Session (set_cart
                                 (filter (fun item =>
                                            negb (has_id productId item))
                                         (cart (tab x)))
                                 (tab x))
                              (server x))) by reflexivity.
  rewrite Hrun.
  destruct (saved_then_display
              (bindP updateCartCount (fun _ => displayCart))
              (Session (set_cart
                          (filter (fun item => negb (has_id productId item))
                                  (cart (tab x)))
                          (tab x))
                       (server x))
              (@removed_display _ _ _))
    as (Hc & Hst & _).
  apply saved_in_step. now rewrite Hc.
Qed.

Lemma input_state (id : string) (x : session num) :
  snd (input id x) = x.
Proof.
  unfold input, bindP, read. simpl.
  destruct (getElementById id (document (tab x))); reflexivity.
Qed.

(** The cart after a submission: emptied together with its stored copy,
    or kept together with it. *)
Lemma checkout_cart (x : session num) :
  (cart (tab (snd (checkout b x))) = []
   /\ stored_cart (tab (snd (checkout b x))) = None)
  \/ (cart (tab (snd (checkout b x))) = cart (tab x)
      /\ stored_cart (tab (snd (checkout b x))) = stored_cart (tab x)).
Proof.
  remember (checkout b x) as run eqn:Hrun.
  unfold checkout in Hrun. unfold bindP at 1 in Hrun.
  unfold read at 1 in Hrun. cbn [fst snd] in Hrun.
  destruct (cart (tab x)) as [|item rest] eqn:Hitems.
  { subst run. right. simpl. auto. }
  unfold bindP at 1 in Hrun.
  pose proof (input_state "name" x) as E1.
  destruct (input "name" x) as [[e|name] x1]; simpl in E1; subst x1;
    [subst run; right; simpl; auto|].
  unfold bindP at 1 in Hrun.
  pose proof (input_state "phone" x) as E2.
  destruct (input "phone" x) as [[e|phone] x2]; simpl in E2; subst x2;
    [subst run; right; simpl; auto|].
  unfold bindP at 1 in Hrun.
  pose proof (input_state "address" x) as E3.
  destruct (input "address" x) as [[e|deliveryAddress] x3]; simpl in E3;
    subst x3; [subst run; right; simpl; auto|].
  unfold bindP at 1 in Hrun.
  pose proof (input_state "payment" x) as E4.
  destruct (input "payment" x) as [[e|payment] x4]; simpl in E4; subst x4;
    [subst run; right; simpl; auto|].
  destruct (_ || _); [subst run; right; simpl; auto|].
  destruct x as [p srv]. simpl in Hitems.
  destruct (submit_each_outcome b name phone deliveryAddress (item :: rest)
                                (sent p) srv)
    as (r1 & K & srv1 & Hsub & _).
  unfold try_catchP in Hrun. unfold bindP at 1 in Hrun.
  rewrite (Hsub p eq_refl) in Hrun. simpl tab.
  destruct r1 as [e|[]].
  { subst run. right. simpl. auto. }
  destruct (bindP showSuccessMessage _ (Session (with_sent K p) srv1))
    as [r2 y] eqn:Hafter.
  destruct (after_the_orders b _ Hafter)
    as (_ & _ & [(Hc & Hst)|(-> & e & ->)]).
  - left. subst run. destruct r2; simpl; auto.
  - right. subst run. simpl. auto.
Qed.

Lemma act_in_step (ev : event num) (x : session num) :
  in_step x -> in_step (act b ev x).
Proof.
  intros Hx. destruct ev as [|category|productId|productId|]; simpl.
  - destruct (loadProducts_facts b x) as (y & -> & _ & Hc & Hst & _).
    exact (same_cart_in_step _ Hc Hst Hx).
  - destruct (filterProducts_display category x) as (_ & _ & Hc & Hst & _).
    exact (same_cart_in_step _ Hc Hst Hx).
  - now apply addToCart_in_step.
  - apply removeFromCart_in_step.
  - destruct (checkout_cart x) as [(Hc & Hst)|(Hc & Hst)].
    + unfold in_step, reloaded_cart. now rewrite Hc, Hst.
    + exact (same_cart_in_step _ Hc Hst Hx).
Qed.

(** X28.  The stored cart follows the cart: if the item of [localStorage]
    is in step with the cart, so that the next page would start with this
    cart, it is still in step after any run of the page's handlers, also
    when some of them throw or some requests fail. *)
Theorem stored_cart_follows_the_cart (events : list (event num))
  (x : session num) :
  in_step x -> in_step (visit b events x).
Proof.
  revert x. unfold visit.
  induction events as [|ev rest IH]; intros x Hx; simpl; [exact Hx|].
  apply IH. now apply act_in_step.
Qed.

End Handlers.

(** ** Concrete runs of the properties above *)

(** X3 on a store with a sheet of notes: an order, a listing and a
    download later the notes are as they were. *)
Lemma other_sheets_are_left_alone_witness :
  sheet_in
    (excel (serve [ PostOrder Visit.shop Visit.ana; GetPerfumes Visit.shop;
                    GetOrders Visit.shop (Some "letmein") ]
                  Visit.with_notes))
    "Notes"
  = Some Visit.notes.
Proof.
  assert (Hne : "Notes" <> "Orders") by discriminate.
  destruct (@other_sheets_are_left_alone number number_number
              [ PostOrder Visit.shop Visit.ana; GetPerfumes Visit.shop;
                GetOrders Visit.shop (Some "letmein") ]
              Visit.with_notes "Notes" Hne)
    as [Hsame|(Hint & _)].
  - rewrite Hsame. reflexivity.
  - discriminate Hint.
Defined.

(** X4 on the store as the initializer creates it, after two orders. *)
Lemma canonical_headers_are_kept_witness :
  stored_headers
    (excel (serve [ PostOrder Visit.shop Visit.ana;
                    PostOrder Visit.shop Visit.bea ]
                  Visit.opened))
  = Some canonical_headers.
Proof.
  assert (Hstart : stored_headers (excel Visit.opened)
                   = Some canonical_headers) by reflexivity.
  destruct (@canonical_headers_are_kept number number_number
              [ PostOrder Visit.shop Visit.ana;
                PostOrder Visit.shop Visit.bea ]
              Visit.opened Hstart)
    as [Hkept|(Hint & _)].
  - exact Hkept.
  - discriminate Hint.
Defined.

(** X5 on a store whose sheet had lost six of its columns. *)
Lemma seven_columns_after_append_witness :
  (exists cols,
      stored_columns
        (excel (snd (order_perfume Demo.shop Demo.ana Demo.narrowed)))
      = Some cols
      /\ length cols = 7)
  /\ exists cols',
       stored_columns
         (excel (serve [PostOrder Demo.shop Demo.bea]
                       (snd (order_perfume Demo.shop Demo.ana Demo.narrowed))))
       = Some cols'
       /\ length cols' = 7.
Proof.
  assert (Hrun : order_perfume Demo.shop Demo.ana Demo.narrowed
                 = (inr (Json 200 (saved Demo.ana_order)),
                    snd (order_perfume Demo.shop Demo.ana Demo.narrowed)))
    by reflexivity.
  destruct (@seven_columns_after_append Z Z_number Demo.shop Demo.ana
              Demo.narrowed _ _ [PostOrder Demo.shop Demo.bea] Hrun)
    as (Hnow & [Hlater|(Hint & _)]).
  - split; assumption.
  - discriminate Hint.
Defined.

(** X6 on a server whose catalog file holds [null]. *)
Lemma unreadable_catalog_is_500_witness :
  exists e,
    order_perfume (with_catalog (inr VNull) Visit.shop) Visit.ana Visit.opened
    = (inr (error_answer e), failed e 1 Visit.opened)
    /\ message e = "Cannot read properties of null (reading 'find')".
Proof.
  assert (Hv : valid Visit.ana = true) by reflexivity.
  destruct (@unreadable_catalog_is_500 number number_number
              (with_catalog (inr VNull) Visit.shop) Visit.ana Visit.opened Hv)
    as (_ & Hother).
  apply (Hother VNull).
  - reflexivity.
  - discriminate.
Defined.

(** X7 on a server whose store file is missing. *)
Lemma unreadable_store_is_500_witness :
  exists e,
    order_perfume Visit.shop Visit.ana Visit.nothing
    = (inr (error_answer e), failed e 2 Visit.nothing)
    /\ excel (failed e 2 Visit.nothing) = excel Visit.nothing
    /\ outbox (failed e 2 Visit.nothing) = outbox Visit.nothing.
Proof.
  assert (Hv : valid Visit.ana = true) by reflexivity.
  assert (Hp : perfumes_json Visit.shop = inr Visit.catalog) by reflexivity.
  assert (Hf : find Visit.catalog (same_id (prop "perfumeId" Visit.ana))
               = inr (VObj Visit.rose)) by reflexivity.
  assert (Ht : truthy (VObj Visit.rose) = true) by reflexivity.
  assert (Hx : excel Visit.nothing = Missing
               \/ excel Visit.nothing = Unparseable)
    by (left; reflexivity).
  exact (@unreadable_store_is_500 number number_number Visit.shop Visit.ana
           Visit.nothing Visit.catalog (VObj Visit.rose) Hv Hp Hf Ht Hx).
Defined.

(** X8 on scenario A with a disk that fills up during the write. *)
Lemma failed_write_is_500_witness :
  exists s',
    order_perfume (with_disk (Some (Interrupted (Failure "ENOSPC"))) Demo.shop)
                  Demo.ana Demo.opened
    = (inr (error_answer (Failure "ENOSPC")), s')
    /\ excel s' = Unparseable
    /\ outbox s' = outbox Demo.opened
    /\ console s' = console Demo.opened ++ [SaveError (Failure "ENOSPC")].
Proof.
  assert (Hacc : accepted (with_disk None Demo.shop) Demo.ana Demo.opened
                          fresh_workbook Demo.ana_order).
  { split; [reflexivity|]. split; [reflexivity|]. split; [reflexivity|].
    split; [eexists; reflexivity|].
    exists Demo.catalog, (VObj [("id", VNum 2%Z); ("name", VStr "Rose")]),
      "2", (VStr "Rose"), "1".
    repeat split. }
  destruct (@failed_write_is_500 Z Z_number Demo.shop Demo.ana Demo.opened
              fresh_workbook Demo.ana_order (Interrupted (Failure "ENOSPC"))
              Hacc)
    as (s' & Hrun & Hout & Hlog & _ & Hlost).
  exists s'. split; [exact Hrun|].
  destruct (Hlost _ eq_refl) as (Hx & _). auto.
Defined.

(** X10 on an order whose id and quantity are numbers. *)
Lemma stored_order_is_stringified_witness :
  exists perfumeId' quantity',
    toString (prop "perfumeId" Demo.bea) = inr perfumeId'
    /\ toString (prop "quantity" Demo.bea) = inr quantity'
    /\ field (field (saved Demo.bea_order) "data") "perfumeId"
       = VStr perfumeId'
    /\ field (field (saved Demo.bea_order) "data") "quantity"
       = VStr quantity'
    /\ field (field (saved Demo.bea_order) "data") "name"
       = prop "name" Demo.bea
    /\ field (field (saved Demo.bea_order) "data") "phone"
       = prop "phone" Demo.bea
    /\ field (field (saved Demo.bea_order) "data") "deliveryAddress"
       = prop "deliveryAddress" Demo.bea
    /\ field (field (saved Demo.bea_order) "data") "date"
       = VStr (stamp Demo.shop
                     (snd (order_perfume Demo.shop Demo.ana Demo.opened))).
Proof.
  assert (Hrun : order_perfume Demo.shop Demo.bea
                   (snd (order_perfume Demo.shop Demo.ana Demo.opened))
                 = (inr (Json 200 (saved Demo.bea_order)),
                    snd (order_perfume Demo.shop Demo.bea
                           (snd (order_perfume Demo.shop Demo.ana
                                               Demo.opened)))))
    by reflexivity.
  exact (@stored_order_is_stringified Z Z_number Demo.shop Demo.bea _ _ _
           Hrun).
Defined.

(** X11 at a start without a store file. *)
Lemma initializeExcel_leaves_a_store_witness :
  exists sheet,
    orders_sheet (excel (snd (initializeExcel Demo.shop Demo.nothing)))
    = Some sheet.
Proof.
  assert (Hrun : initializeExcel Demo.shop Demo.nothing
                 = (inr tt, snd (initializeExcel Demo.shop Demo.nothing)))
    by reflexivity.
  destruct (@initializeExcel_leaves_a_store Z Demo.shop Demo.nothing
              _ _ Hrun)
    as [(_ & Hsheet)|(f & He & _)].
  - exact Hsheet.
  - discriminate He.
Defined.

(** X12 at a start without a store file, followed by scenario A. *)
Lemma first_order_after_recreation_witness :
  exists orderData,
    fst (order_perfume Demo.shop Demo.ana
           (snd (initializeExcel Demo.shop Demo.nothing)))
    = inr (Json 200 (saved orderData))
    /\ excel (snd (order_perfume Demo.shop Demo.ana
                     (snd (initializeExcel Demo.shop Demo.nothing))))
       = Xlsx [Worksheet "Orders" fixedColumns [row_of orderData]].
Proof.
  assert (Hnone : orders_sheet (excel Demo.nothing) = None) by reflexivity.
  assert (Hinit : initializeExcel Demo.shop Demo.nothing
                  = (inr tt, snd (initializeExcel Demo.shop Demo.nothing)))
    by reflexivity.
  assert (Hrun : order_perfume Demo.shop Demo.ana
                   (snd (initializeExcel Demo.shop Demo.nothing))
                 = (inr (Json 200
                           (saved [ ("name", VStr "Ana"); ("phone", VStr "555");
                                    ("perfumeId", VStr "2");
                                    ("perfumeName", VStr "Rose");
                                    ("quantity", VStr "1");
                                    ("deliveryAddress", VStr "Main St");
                                    ("date", VStr "day 1080") ])),
                    snd (order_perfume Demo.shop Demo.ana
                           (snd (initializeExcel Demo.shop Demo.nothing)))))
    by reflexivity.
  destruct (@first_order_after_recreation Z Z_number Demo.shop Demo.shop
              Demo.ana Demo.nothing _ _ _ Hnone Hinit Hrun)
    as (orderData & Hb & Hx).
  exists orderData. split; [|exact Hx].
  rewrite Hrun. simpl. now rewrite Hb.
Defined.

(** X13 on the second perfume of the catalog, ordered by its id as
    listed, and on a catalog that lists a perfume whose id is [null]. *)
Lemma listed_perfume_can_be_ordered_witness :
  (fst (order_perfume Visit.shop Visit.bea Visit.opened)
   <> inr (Json 404 (VObj [("success", VBool false);
                           ("message", VStr "Perfume not found.")]))
   /\ fst (order_perfume Visit.shop Visit.bea Visit.opened)
      <> inr (Json 400 (VObj [("success", VBool false);
                              ("message", VStr "All fields are required.")])))
  /\ order_perfume
       (with_catalog (inr (VArr [VObj [("id", VNull); ("name", VStr "Mist")]]))
                     Visit.shop)
       [ ("name", VStr "Ana"); ("phone", VStr "555"); ("perfumeId", VNull);
         ("quantity", VNum (Int 1)); ("deliveryAddress", VStr "Main St") ]
       Visit.opened
     = (inr (Json 400 (VObj [("success", VBool false);
                             ("message", VStr "All fields are required.")])),
        Visit.opened).
Proof.
  split.
  - assert (Hlist : fst (get_perfumes Visit.shop Visit.opened)
                    = inr (Json 200 (VObj [("success", VBool true);
                                           ("data", VArr [VObj Visit.rose;
                                                          VObj Visit.oud])]),
                           None)) by reflexivity.
    assert (Hin : In (VObj Visit.oud) [VObj Visit.rose; VObj Visit.oud])
      by (right; left; reflexivity).
    destruct (@listed_perfume_can_be_ordered number number_number Visit.shop
                Visit.bea Visit.opened Visit.opened
                [VObj Visit.rose; VObj Visit.oud] Visit.oud
                Hlist Hin eq_refl eq_refl eq_refl eq_refl eq_refl)
      as (Hordered & _).
    split.
    + apply (Hordered eq_refl (VObj [("success", VBool false);
                                     ("message", VStr "Perfume not found.")])).
    + apply (Hordered eq_refl
                      (VObj [("success", VBool false);
                             ("message", VStr "All fields are required.")])).
  - set (w := with_catalog
                (inr (VArr [VObj [("id", VNull); ("name", VStr "Mist")]]))
                Visit.shop).
    assert (Hlist : fst (get_perfumes w Visit.opened)
                    = inr (Json 200
                             (VObj [("success", VBool true);
                                    ("data",
                                     VArr [VObj [("id", VNull);
                                                 ("name", VStr "Mist")]])]),
                           None)) by reflexivity.
    assert (Hin : In (VObj [("id", VNull); ("name", VStr "Mist")])
                     [VObj [("id", @VNull number); ("name", VStr "Mist")]])
      by (left; reflexivity).
    destruct (@listed_perfume_can_be_ordered number number_number w
                [ ("name", VStr "Ana"); ("phone", VStr "555");
                  ("perfumeId", VNull); ("quantity", VNum (Int 1));
                  ("deliveryAddress", VStr "Main St") ]
                Visit.opened Visit.opened
                [VObj [("id", VNull); ("name", VStr "Mist")]]
                [("id", VNull); ("name", VStr "Mist")]
                Hlist Hin eq_refl eq_refl eq_refl eq_refl eq_refl)
      as (_ & Hfalsy).
    apply Hfalsy. reflexivity.
Defined.

(** X14 on a catalog that lists the id 7 twice. *)
Lemma first_listed_match_names_the_order_witness :
  member (VObj Visit.oud) "name"
  = inr (field (field (saved [ ("name", VStr "Bea"); ("phone", VStr "444");
                               ("perfumeId", VStr "7");
                               ("perfumeName", VStr "Oud");
                               ("quantity", VStr "2");
                               ("deliveryAddress", VStr "Elm St");
                               ("date", VStr "day 1040") ])
                      "data")
               "perfumeName").
Proof.
  assert (Hp : perfumes_json Visit.shop_with_twins
               = inr (VArr ([VObj Visit.rose]
                            ++ VObj Visit.oud :: [VObj Visit.oud_intense])))
    by reflexivity.
  assert (Hbefore : Forall (fun q => same_id (prop "perfumeId" Visit.bea) q
                                     = inr false)
                           [VObj Visit.rose])
    by (repeat constructor).
  assert (Hmatch : same_id (prop "perfumeId" Visit.bea) (VObj Visit.oud)
                   = inr true) by reflexivity.
  assert (Hrun : order_perfume Visit.shop_with_twins Visit.bea Visit.opened
                 = (inr (Json 200
                           (saved [ ("name", VStr "Bea"); ("phone", VStr "444");
                                    ("perfumeId", VStr "7");
                                    ("perfumeName", VStr "Oud");
                                    ("quantity", VStr "2");
                                    ("deliveryAddress", VStr "Elm St");
                                    ("date", VStr "day 1040") ])),
                    snd (order_perfume Visit.shop_with_twins Visit.bea
                                       Visit.opened)))
    by reflexivity.
  exact (@first_listed_match_names_the_order number number_number
           Visit.shop_with_twins Visit.bea Visit.opened _ _
           [VObj Visit.rose] [VObj Visit.oud_intense] (VObj Visit.oud)
           Hp Hbefore Hmatch Hrun).
Defined.

(** X16 on scenario A sent twice. *)
Lemma repeated_order_is_stored_again_witness :
  exists row1 row2,
    stored_rows
      (excel (snd (order_perfume Demo.shop Demo.ana
                     (snd (order_perfume Demo.shop Demo.ana Demo.opened)))))
    = stored_rows (excel Demo.opened) ++ [row1; row2]
    /\ length row1 = 7 /\ length row2 = 7
    /\ firstn 6 row1 = firstn 6 row2.
Proof.
  assert (Hrun1 : order_perfume Demo.shop Demo.ana Demo.opened
                  = (inr (Json 200 (saved Demo.ana_order)),
                     snd (order_perfume Demo.shop Demo.ana Demo.opened)))
    by reflexivity.
  assert (Hrun2 : order_perfume Demo.shop Demo.ana
                    (snd (order_perfume Demo.shop Demo.ana Demo.opened))
                  = (inr (Json 200
                            (saved [ ("name", VStr "Ana"); ("phone", VStr "555");
                                     ("perfumeId", VStr "2");
                                     ("perfumeName", VStr "Rose");
                                     ("quantity", VStr "1");
                                     ("deliveryAddress", VStr "Main St");
                                     ("date", VStr "day 1120") ])),
                     snd (order_perfume Demo.shop Demo.ana
                            (snd (order_perfume Demo.shop Demo.ana
                                                Demo.opened)))))
    by reflexivity.
  exact (@repeated_order_is_stored_again Z Z_number Demo.shop Demo.shop
           Demo.ana Demo.opened _ _ _ _ eq_refl Hrun1 Hrun2).
Defined.

(** X18 on a cart of two lines when the disk fills up during the write
    of the second order: the visitor is told that the order failed and
    keeps the cart, and the store file, with the first order in it, is
    lost. *)
Lemma checkout_places_line_by_line_witness :
  fst (checkout Visit.disk_fills_up (Session Visit.at_checkout Visit.opened))
  = inr tt
  /\ excel (server (snd (checkout Visit.disk_fills_up
                           (Session Visit.at_checkout Visit.opened))))
     = Unparseable
  /\ cart (tab (snd (checkout Visit.disk_fills_up
                       (Session Visit.at_checkout Visit.opened))))
     = Visit.two_lines
  /\ alerts (tab (snd (checkout Visit.disk_fills_up
                         (Session Visit.at_checkout Visit.opened))))
     = ["Failed to place order. Please try again."].
Proof.
  assert (Hcart : cart (tab (Session Visit.at_checkout Visit.opened)) <> [])
    by discriminate.
  assert (Hfilled : filled (document (tab (Session Visit.at_checkout
                                                   Visit.opened)))
                           "Ana" "555" "Main St" "cash").
  { repeat split; eexists; split; reflexivity. }
  assert (Hn : "Ana" <> "") by discriminate.
  assert (Hp : "555" <> "") by discriminate.
  assert (Ha : "Main St" <> "") by discriminate.
  assert (Hpay : "cash" <> "") by discriminate.
  assert (Hrun : checkout Visit.disk_fills_up
                          (Session Visit.at_checkout Visit.opened)
                 = (fst (checkout Visit.disk_fills_up
                                  (Session Visit.at_checkout Visit.opened)),
                    snd (checkout Visit.disk_fills_up
                                  (Session Visit.at_checkout Visit.opened))))
    by apply surjective_pairing.
  destruct (@checkout_places_line_by_line number number_number number_arith
              Visit.disk_fills_up _ _ "Ana" "555" "Main St" "cash" _
              Hcart Hfilled Hn Hp Ha Hpay Hrun)
    as (Hr & _).
  split; [exact Hr|]. repeat split.
Defined.

(** X20 on the same cart and form, paid in cash and by card. *)
Lemma payment_stays_on_the_page_witness :
  server (snd (checkout Visit.online
                        (Session Visit.paying_by_card Visit.opened)))
  = server (snd (checkout Visit.online
                          (Session Visit.at_checkout Visit.opened))).
Proof.
  assert (Hcart : cart (tab (Session Visit.at_checkout Visit.opened)) <> [])
    by discriminate.
  assert (Hf1 : filled (document (tab (Session Visit.at_checkout
                                               Visit.opened)))
                       "Ana" "555" "Main St" "cash").
  { repeat split; eexists; split; reflexivity. }
  assert (Hf2 : filled (document (tab (Session Visit.paying_by_card
                                               Visit.opened)))
                       "Ana" "555" "Main St" "card").
  { repeat split; eexists; split; reflexivity. }
  assert (Hn : "Ana" <> "") by discriminate.
  assert (Hp : "555" <> "") by discriminate.
  assert (Ha : "Main St" <> "") by discriminate.
  assert (Hp1 : "cash" <> "") by discriminate.
  assert (Hp2 : "card" <> "") by discriminate.
  exact (@payment_stays_on_the_page number number_number number_arith
           Visit.online (Session Visit.at_checkout Visit.opened)
           (Session Visit.paying_by_card Visit.opened)
           "Ana" "555" "Main St" "cash" "card"
           Hcart eq_refl eq_refl eq_refl Hf1 Hf2 Hn Hp Ha Hp1 Hp2).
Defined.

(** X23 on a click that carries the id of the first perfume as a string:
    the server would find the perfume, the page does not. *)
Lemma unlisted_product_is_not_added_witness :
  addToCart (VStr "2") (Session Visit.browsing Visit.opened)
  = (inr tt, Session Visit.browsing Visit.opened).
Proof.
  assert (Hall : allProducts (tab (Session Visit.browsing Visit.opened))
                 = VArr [VObj Visit.rose; VObj Visit.oud]) by reflexivity.
  assert (Hnone : Forall (fun q => exists props,
                            q = VObj props
                            /\ js_strict_eq (prop "id" props) (VStr "2")
                               = false)
                         [VObj Visit.rose; VObj Visit.oud]).
  { repeat constructor; eexists; split; reflexivity. }
  exact (@unlisted_product_is_not_added number number_number number_arith
           (VStr "2") (Session Visit.browsing Visit.opened)
           [VObj Visit.rose; VObj Visit.oud] Hall Hnone).
Defined.

(** X21 on a visitor who arrives at the index page of a shop that is
    online. *)
Lemma loadProducts_takes_the_listed_catalog_witness :
  fst (loadProducts Visit.online (Session Visit.arriving Visit.opened))
  = inr tt
  /\ allProducts (tab (snd (loadProducts Visit.online
                              (Session Visit.arriving Visit.opened))))
     = Visit.catalog.
Proof.
  assert (Hrun : loadProducts Visit.online
                              (Session Visit.arriving Visit.opened)
                 = (fst (loadProducts Visit.online
                           (Session Visit.arriving Visit.opened)),
                    snd (loadProducts Visit.online
                           (Session Visit.arriving Visit.opened))))
    by apply surjective_pairing.
  destruct (@loadProducts_takes_the_listed_catalog number number_number
              number_arith Visit.online _ _ _ Hrun)
    as (Hr & _).
  split; [exact Hr|reflexivity].
Defined.

(** X24 on the second perfume of the catalog and an empty cart. *)
Lemma remove_undoes_add_witness :
  cart (tab (snd (removeFromCart (VNum (Int 7))
                    (snd (addToCart (VNum (Int 7))
                            (Session Visit.browsing Visit.opened))))))
  = []
  /\ stored_cart (tab (snd (removeFromCart (VNum (Int 7))
                              (snd (addToCart (VNum (Int 7))
                                      (Session Visit.browsing
                                               Visit.opened))))))
     = Some [].
Proof.
  assert (Hall : allProducts (tab (Session Visit.browsing Visit.opened))
                 = VArr ([VObj Visit.rose] ++ VObj Visit.oud :: []))
    by reflexivity.
  assert (Hbefore : Forall (fun q => exists ps,
                              q = VObj ps
                              /\ js_strict_eq (prop "id" ps) (VNum (Int 7))
                                 = false)
                           [VObj Visit.rose]).
  { repeat constructor; eexists; split; reflexivity. }
  assert (Hid : js_strict_eq (prop "id" Visit.oud) (VNum (Int 7)) = true)
    by reflexivity.
  assert (Hcart : Forall (fun item => has_id (VNum (Int 7)) item = false)
                         (cart (tab (Session Visit.browsing Visit.opened))))
    by constructor.
  exact (@remove_undoes_add number number_number number_arith
           (VNum (Int 7)) (Session Visit.browsing Visit.opened)
           [VObj Visit.rose] [] Visit.oud Hall Hbefore Hid Hcart).
Defined.

(** X25 on the second perfume of the catalog and an empty cart. *)
Lemma added_twice_is_one_line_witness :
  cart (tab (snd (addToCart (VNum (Int 7))
                    (snd (addToCart (VNum (Int 7))
                            (Session Visit.browsing Visit.opened))))))
  = [put "quantity" (VNum (Int 2)) Visit.oud].
Proof.
  assert (Hall : allProducts (tab (Session Visit.browsing Visit.opened))
                 = VArr ([VObj Visit.rose] ++ VObj Visit.oud :: []))
    by reflexivity.
  assert (Hbefore : Forall (fun q => exists ps,
                              q = VObj ps
                              /\ js_strict_eq (prop "id" ps) (VNum (Int 7))
                                 = false)
                           [VObj Visit.rose]).
  { repeat constructor; eexists; split; reflexivity. }
  assert (Hid : js_strict_eq (prop "id" Visit.oud) (VNum (Int 7)) = true)
    by reflexivity.
  assert (Hcart : Forall (fun item => has_id (VNum (Int 7)) item = false)
                         (cart (tab (Session Visit.browsing Visit.opened))))
    by constructor.
  exact (@added_twice_is_one_line number number_number number_arith
           (VNum (Int 7)) (Session Visit.browsing Visit.opened)
           [VObj Visit.rose] [] Visit.oud Hall Hbefore Hid Hcart).
Defined.

(** X28 on a visit: the catalog is loaded, the first perfume is added
    twice, the second is added and removed, and the form is submitted on a
    page that has no form. *)
Lemma stored_cart_follows_the_cart_witness :
  in_step (visit Visit.online
                 [ Load; Add (VNum (Int 2)); Add (VNum (Int 2));
                   Add (VNum (Int 7)); Remove (VNum (Int 7)); Submit ]
                 (Session Visit.arriving Visit.opened)).
Proof.
  assert (Hstart : in_step (Session Visit.arriving Visit.opened))
    by reflexivity.
  exact (@stored_cart_follows_the_cart number number_number number_arith
           Visit.online
           [ Load; Add (VNum (Int 2)); Add (VNum (Int 2));
             Add (VNum (Int 7)); Remove (VNum (Int 7)); Submit ]
           (Session Visit.arriving Visit.opened) Hstart).
Defined.

(** X26 on a cart of one bottle at 60 and two at 90. *)
Lemma total_is_a_number_witness :
  exists n,
    fst (calculateTotal (Session Visit.at_checkout Visit.opened))
    = inr (VNum n).
Proof.
  assert (Hrun : calculateTotal (Session Visit.at_checkout Visit.opened)
                 = (inr (VNum (Int 240)),
                    Session Visit.at_checkout Visit.opened))
    by reflexivity.
  destruct (@total_is_a_number number number_number number_arith _ _ _ Hrun)
    as (_ & n & Hn).
  exists n. rewrite Hrun. simpl. now rewrite Hn.
Defined.
